(** * The remote annotation pipeline of sd-webui-controlnet (scripts/tss.py)
      and its dispatcher (scripts/controlnet_ui/controlnet_ui_group.py)

    The Python code is embedded shallowly: JSON payloads are values of
    [pyval], operations that can raise return an [outcome], and code that
    reads the clock, talks to the network or touches the module-level
    caches runs in the state-and-exception monad [M] over a [world]. *)

From Stdlib Require Import ZArith QArith String Ascii List Bool Lia Lqa.
From stdpp Require Import gmap strings sorting.
Import ListNotations.

Set Warnings "-register-all".
Local Open Scope string_scope.

(** ** Python values *)

Module Py.

(** What [json.loads] can produce, and what the code builds from it.
    A float is taken as the rational it denotes; a [str] is a sequence
    of [ascii] characters, a non-ASCII character being written as its
    UTF-8 bytes.  A dict is kept in insertion order. *)
Inductive pyval : Type :=
| VNone
| VBool (b : bool)
| VInt (z : Z)
| VFloat (q : Q)
| VStr (s : string)
| VList (l : list pyval)
| VDict (d : list (pyval * pyval)).

Definition pydict : Type := list (pyval * pyval).

Inductive exn : Type :=
| ConnectionError            (* any requests.exceptions.RequestException *)
| JSONDecodeError
| KeyError (k : pyval)
| IndexError
| TypeError
| AttributeError
| FileNotFoundError          (* OSError, errno ENOENT *)
| IsADirectoryError          (* OSError, errno EISDIR *)
| NotADirectoryError         (* OSError, errno ENOTDIR *)
| PyException (msg : string) (* raise Exception(msg) *).

(** The result of running a piece of code: a value, an exception, or no
    answer within the given number of loop iterations. *)
Inductive outcome (A : Type) : Type :=
| Ret (a : A)
| Raise (e : exn)
| OutOfFuel.
Arguments Ret {A} a.
Arguments Raise {A} e.
Arguments OutOfFuel {A}.

Definition obind {A B} (c : outcome A) (k : A -> outcome B) : outcome B :=
  match c with
  | Ret a => k a
  | Raise e => Raise e
  | OutOfFuel => OutOfFuel
  end.

(** [bool(v)] *)
Definition truthy (v : pyval) : bool :=
  match v with
  | VNone => false
  | VBool b => b
  | VInt z => negb (z =? 0)%Z
  | VFloat q => negb (Qeq_bool q 0)
  | VStr s => negb (String.eqb s "")
  | VList l => match l with [] => false | _ => true end
  | VDict d => match d with [] => false | _ => true end
  end.

(** [a and b] returns one of its operands. *)
Definition py_and (a b : pyval) : pyval := if truthy a then b else a.
Definition py_not (a : pyval) : pyval := VBool (negb (truthy a)).

Definition hashable (v : pyval) : bool :=
  match v with
  | VList _ | VDict _ => false
  | _ => true
  end.

(** What can index a sequence: [int] and its subclass [bool]. *)
Definition as_int (v : pyval) : option Z :=
  match v with
  | VInt z => Some z
  | VBool b => Some (if b then 1 else 0)%Z
  | _ => None
  end.

Definition as_num (v : pyval) : option Q :=
  match v with
  | VFloat q => Some q
  | _ => option_map inject_Z (as_int v)
  end.

(** [a == b] where one side is a scalar: numbers by value
    ([True == 1 == 1.0]), [None == None], strings by content, and a list
    or dict equals no scalar. *)
Definition scalar_eq (a b : pyval) : bool :=
  match a, b with
  | VNone, VNone => true
  | VStr s, VStr t => String.eqb s t
  | _, _ =>
      match as_num a, as_num b with
      | Some x, Some y => Qeq_bool x y
      | _, _ => false
      end
  end.

(** *** dict, in insertion order *)

Fixpoint dict_lookup (k : pyval) (d : pydict) : option pyval :=
  match d with
  | [] => None
  | (k', v) :: r => if scalar_eq k k' then Some v else dict_lookup k r
  end.

Definition dict_mem (k : pyval) (d : pydict) : bool :=
  match dict_lookup k d with Some _ => true | None => false end.

(** [d[k] = v]: an existing key keeps its place, a new one goes last. *)
Fixpoint dict_setitem (k v : pyval) (d : pydict) : pydict :=
  match d with
  | [] => [(k, v)]
  | (k', v') :: r =>
      if scalar_eq k k' then (k', v) :: r else (k', v') :: dict_setitem k v r
  end.

(** [del d[k]] for a key that is present. *)
Definition dict_delitem (k : pyval) (d : pydict) : pydict :=
  List.filter (fun kv => negb (scalar_eq k (fst kv))) d.

(** [d.update(src)] *)
Definition dict_update (src d : pydict) : pydict :=
  fold_left (fun acc kv => dict_setitem (fst kv) (snd kv) acc) src d.

Definition dict_keys (d : pydict) : list pyval := map fst d.

(** [k in d] *)
Definition py_in_dict (k : pyval) (d : pydict) : outcome bool :=
  if hashable k then Ret (dict_mem k d) else Raise TypeError.

(** *** subscripting, [.get] and iteration *)

Definition seq_index {A} (l : list A) (i : Z) : option A :=
  let n := Z.of_nat (length l) in
  let j := if (i <? 0)%Z then (i + n)%Z else i in
  if ((0 <=? j) && (j <? n))%Z then nth_error l (Z.to_nat j) else None.

Definition chars (s : string) : list pyval :=
  map (fun c => VStr (String c EmptyString)) (list_ascii_of_string s).

(** [x[k]] *)
Definition getitem (x k : pyval) : outcome pyval :=
  match x with
  | VDict d =>
      if hashable k then
        match dict_lookup k d with
        | Some v => Ret v
        | None => Raise (KeyError k)
        end
      else Raise TypeError
  | VList l =>
      match as_int k with
      | Some i => match seq_index l i with Some v => Ret v | None => Raise IndexError end
      | None => Raise TypeError
      end
  | VStr s =>
      match as_int k with
      | Some i => match seq_index (chars s) i with Some v => Ret v | None => Raise IndexError end
      | None => Raise TypeError
      end
  | _ => Raise TypeError
  end.

(** [x.get(k)]: only a dict has the method. *)
Definition dict_get (x k : pyval) : outcome pyval :=
  match x with
  | VDict d =>
      if hashable k then
        Ret (match dict_lookup k d with Some v => v | None => VNone end)
      else Raise TypeError
  | _ => Raise AttributeError
  end.

(** [for item in x] *)
Definition py_iter (x : pyval) : outcome (list pyval) :=
  match x with
  | VList l => Ret l
  | VDict d => Ret (dict_keys d)
  | VStr s => Ret (chars s)
  | _ => Raise TypeError
  end.

(** [needle in hay] on strings *)
Fixpoint str_contains (needle hay : string) : bool :=
  String.prefix needle hay ||
  match hay with
  | EmptyString => false
  | String _ rest => str_contains needle rest
  end.

(** [os.path.join(a, b)] and [os.path.basename(p)] (posixpath) *)
Definition ends_with_sep (a : string) : bool :=
  match rev (list_ascii_of_string a) with
  | c :: _ => Ascii.eqb c "/"
  | [] => false
  end.

Definition path_join (a b : string) : string :=
  if String.prefix "/" b then b
  else if String.eqb a "" || ends_with_sep a then a ++ b
  else a ++ "/" ++ b.

Fixpoint basename_from (acc s : string) : string :=
  match s with
  | EmptyString => acc
  | String c r =>
      if Ascii.eqb c "/" then basename_from "" r
      else basename_from (acc ++ String c EmptyString) r
  end.

Definition basename (p : string) : string := basename_from "" p.

(** The directory a path's last component is looked up in: what is before
    the last separator, nothing for a name without one (the working
    directory). *)
Definition parent (p : string) : string :=
  substring 0 (String.length p - String.length (basename p) - 1) p.

End Py.
Export Py.

(** ** The process: configuration, clock, network, caches *)

Module Env.

(** [opts."tu-token"]: [{'token': ..., 'expire': ...}] *)
Record credential := { token : string; expire : Q }.

(** [modules.shared.opts] and [cmd_opts], with [HOST] and [BUCKET], which
    tss.py computes from the environment when it is imported. *)
Record options := {
  xz_ext_enable : option pyval;   (* absent: getattr's default, False *)
  tu_token : option credential;   (* absent: hasattr is False *)
  worker : pyval;                 (* cmd_opts.worker *)
  ignore_noninpaint_mask : option pyval;
  HOST : string;
  BUCKET : string
}.

Inductive method := GET | POST | PUT.

Inductive payload :=
| NoBody
| JsonBody (j : pyval)
| RawBody (content_type : string) (data : string).

Record request := {
  rq_method : method;
  rq_url : string;
  rq_authorization : option string;
  rq_body : payload;
  rq_timeout : option Z
}.

(** A [requests.Response]: its truth value is [ok], [json()] raises when
    the body does not decode. *)
Record response := {
  resp_ok : bool;
  resp_body : option pyval;
  resp_content : string
}.

(** What the remote side does with the n-th request of the process: how
    long the call takes, and the response, or none when requests raises
    (connection refused, timeout, bad URL). *)
Record exchange := { elapsed : Q; reply : option response }.

Record world := {
  w_opts : options;
  w_clock : Q;                        (* time.time() *)
  w_net : nat -> exchange;
  w_log : list request;               (* requests issued, oldest first *)
  w_cache : gmap string pyval;        (* tss.cache *)
  w_cn_models : pydict;               (* global_state.cn_models *)
  w_files : gmap string string;       (* regular files, by path *)
  w_dirs : gset string;               (* directories, by path *)
  w_uuid : nat -> string;             (* uuid.uuid4() draws *)
  w_uuid_drawn : nat
}.

Definition set_clock (t : Q) (w : world) : world :=
  {| w_opts := w_opts w; w_clock := t; w_net := w_net w; w_log := w_log w;
     w_cache := w_cache w; w_cn_models := w_cn_models w; w_files := w_files w;
     w_dirs := w_dirs w;
     w_uuid := w_uuid w; w_uuid_drawn := w_uuid_drawn w |}.

Definition set_log (l : list request) (w : world) : world :=
  {| w_opts := w_opts w; w_clock := w_clock w; w_net := w_net w; w_log := l;
     w_cache := w_cache w; w_cn_models := w_cn_models w; w_files := w_files w;
     w_dirs := w_dirs w;
     w_uuid := w_uuid w; w_uuid_drawn := w_uuid_drawn w |}.

Definition set_cache (c : gmap string pyval) (w : world) : world :=
  {| w_opts := w_opts w; w_clock := w_clock w; w_net := w_net w; w_log := w_log w;
     w_cache := c; w_cn_models := w_cn_models w; w_files := w_files w;
     w_dirs := w_dirs w;
     w_uuid := w_uuid w; w_uuid_drawn := w_uuid_drawn w |}.

Definition set_cn_models (d : pydict) (w : world) : world :=
  {| w_opts := w_opts w; w_clock := w_clock w; w_net := w_net w; w_log := w_log w;
     w_cache := w_cache w; w_cn_models := d; w_files := w_files w;
     w_dirs := w_dirs w;
     w_uuid := w_uuid w; w_uuid_drawn := w_uuid_drawn w |}.

Definition set_files (f : gmap string string) (w : world) : world :=
  {| w_opts := w_opts w; w_clock := w_clock w; w_net := w_net w; w_log := w_log w;
     w_cache := w_cache w; w_cn_models := w_cn_models w; w_files := f;
     w_dirs := w_dirs w;
     w_uuid := w_uuid w; w_uuid_drawn := w_uuid_drawn w |}.

Definition set_uuid_drawn (n : nat) (w : world) : world :=
  {| w_opts := w_opts w; w_clock := w_clock w; w_net := w_net w; w_log := w_log w;
     w_cache := w_cache w; w_cn_models := w_cn_models w; w_files := w_files w;
     w_dirs := w_dirs w;
     w_uuid := w_uuid w; w_uuid_drawn := n |}.

(** The value of the input image component: [{'image': ..., 'mask': ...}] *)
Record canvas (A : Type) := { cv_image : A; cv_mask : A }.
Arguments cv_image {A} c.
Arguments cv_mask {A} c.

(** Code with effects: a result and the world it leaves, also when it
    raises (what was sent stays sent, what was cached stays cached). *)
Definition M (A : Type) : Type := world -> outcome A * world.

Definition ret {A} (a : A) : M A := fun w => (Ret a, w).
Definition raise {A} (e : exn) : M A := fun w => (Raise e, w).
Definition out_of_fuel {A} : M A := fun w => (OutOfFuel, w).
Definition lift {A} (o : outcome A) : M A := fun w => (o, w).

Definition bind {A B} (c : M A) (k : A -> M B) : M B :=
  fun w =>
    match c w with
    | (Ret a, w') => k a w'
    | (Raise e, w') => (Raise e, w')
    | (OutOfFuel, w') => (OutOfFuel, w')
    end.

Declare Scope py_scope.
Delimit Scope py_scope with py.
Notation "'let!' x ':=' c 'in' k" := (bind c (fun x => k))
  (at level 10, x name, c at level 100, k at level 200) : py_scope.
Notation "'do!' c 'in' k" := (bind c (fun _ => k))
  (at level 10, c at level 100, k at level 200) : py_scope.
Local Open Scope py_scope.

Definition Qltb (x y : Q) : bool := negb (Qle_bool y x).

Definition time_time : M Q := fun w => (Ret (w_clock w), w).

(** [time.sleep(secs)] takes the time it is asked to take. *)
Definition time_sleep (secs : Q) : M unit :=
  fun w => (Ret tt, set_clock (w_clock w + secs)%Q w).

Definition uuid4 : M string :=
  fun w => (Ret (w_uuid w (w_uuid_drawn w)), set_uuid_drawn (S (w_uuid_drawn w)) w).

(** [requests.request]: the call is logged, takes its time, and returns
    the response or raises. *)
Definition http (rq : request) : M response :=
  fun w =>
    let x := w_net w (length (w_log w)) in
    let w' := set_clock (w_clock w + elapsed x)%Q (set_log (w_log w ++ [rq]) w) in
    match reply x with
    | Some r => (Ret r, w')
    | None => (Raise ConnectionError, w')
    end.

(** requests takes [str(url)]: what is not a string has no scheme, and
    the call raises before anything is sent. *)
Definition url_of (u : pyval) : M string :=
  match u with
  | VStr s => ret s
  | _ => raise ConnectionError
  end.

(** [resp.json()] *)
Definition resp_json (r : response) : M pyval :=
  match resp_body r with
  | Some j => ret j
  | None => raise JSONDecodeError
  end.

Definition cache_get (k : string) : M pyval :=
  fun w => (Ret (default VNone (w_cache w !! k)), w).

Definition cache_set (k : string) (v : pyval) : M unit :=
  fun w => (Ret tt, set_cache (<[k := v]> (w_cache w)) w).

End Env.
Export Env.

(** ** What the two files import *)

(** PIL, numpy, urllib and string formatting, as far as tss.py and the
    remote strategy use them. *)
Class Imaging := {
  ndarray : Type;
  Image : Type;
  fromarray : ndarray -> Image;              (* Image.fromarray *)
  png_bytes : Image -> string;               (* image.save(buf, format="PNG") *)
  decode_image : string -> outcome ndarray;  (* np.array(Image.open(f)) *)
  format_value : pyval -> string;            (* f'{v}' *)
  url_path : string -> string                (* urlparse(url).path *)
}.

(** ** scripts/tss.py *)

Module Tss.

Local Open Scope py_scope.

(** The display value of the catalog's "empty selection" entry, U+65E0. *)
Definition wu : string :=
  String (ascii_of_nat 230) (String (ascii_of_nat 151) (String (ascii_of_nat 160) EmptyString)).

Definition opt {A} (f : options -> A) : M A := fun w => (Ret (f (w_opts w)), w).

Definition enable : M pyval :=
  let! xz := opt xz_ext_enable in
  let! is_worker := opt worker in
  ret (py_and (default (VBool false) xz) (py_not is_worker)).

Definition get_tushuashua_token : M string :=
  let! tu := opt tu_token in
  match tu with
  | Some t =>
      let! now := time_time in
      if Qltb (expire t - 60) now then ret ""
      else
        let token := token t in
        ret (if String.prefix "Bearer" token then token else "Bearer " ++ token)
  | None => ret ""
  end.

Definition code_is_200 (json_d : pyval) : M bool :=
  let! code := lift (getitem json_d (VStr "code")) in
  ret (scalar_eq code (VInt 200)).

Definition request_tss (api : string) : M pyval :=
  let! auth := get_tushuashua_token in
  let! resp := http {| rq_method := GET; rq_url := api; rq_authorization := Some auth;
                       rq_body := NoBody; rq_timeout := Some 5%Z |} in
  if resp_ok resp then
    let! json_d := resp_json resp in
    let! ok := code_is_200 json_d in
    if ok then lift (getitem json_d (VStr "data")) else ret VNone
  else ret VNone.

(** [[item['real_value'] for item in items]] *)
Fixpoint real_values (items : list pyval) : outcome (list pyval) :=
  match items with
  | [] => Ret []
  | item :: r =>
      obind (getitem item (VStr "real_value")) (fun v =>
      obind (real_values r) (fun vs => Ret (v :: vs)))
  end.

(** [data['items'][category]], iterated *)
Definition category_items (data : pyval) (category : string) : outcome (list pyval) :=
  obind (getitem data (VStr "items")) (fun items =>
  obind (getitem items (VStr category)) py_iter).

(** What [request_mudules] returns for a payload. *)
Definition mudules_of (data : pyval) : outcome (list pyval) :=
  obind (category_items data "3") real_values.

(** [dict((item['display_value'], item['real_value']) for item in items)]:
    each pair is built and then inserted before the next item is looked at. *)
Fixpoint dict_of_items (acc : pydict) (items : list pyval) : outcome pydict :=
  match items with
  | [] => Ret acc
  | item :: r =>
      obind (getitem item (VStr "display_value")) (fun k =>
      obind (getitem item (VStr "real_value")) (fun v =>
      if hashable k then dict_of_items (dict_setitem k v acc) r
      else Raise TypeError))
  end.

(** What [request_models] returns for a payload. *)
Definition models_of (data : pyval) : outcome pydict :=
  obind (category_items data "4") (fun items =>
  obind (dict_of_items [] items) (fun d =>
  let d := if dict_mem (VStr wu) d then dict_delitem (VStr wu) d else d in
  Ret (dict_update [(VStr "None", VNone)] d))).

(** The part the two catalog calls share: fetch, else the cached payload. *)
Definition fetch_or_cached (api key : string) : M pyval :=
  let! data := request_tss api in
  let! data :=
    (if negb (truthy data) then cache_get key
     else do! cache_set key data in ret data) in
  if negb (truthy data) then raise (PyException "request tss failed")
  else ret data.

Definition request_mudules : M (list pyval) :=
  let! host := opt HOST in
  let api := host ++ "/v1/samplers/category?categorys=3" in
  let! data := fetch_or_cached api "mudules" in
  lift (mudules_of data).

Definition request_models : M pydict :=
  let! host := opt HOST in
  let api := host ++ "/v1/samplers/category?categorys=4" in
  let! data := fetch_or_cached api "models" in
  lift (models_of data).

(** [global_state.cn_models] *)
Definition cn_models_clear : M unit := fun w => (Ret tt, set_cn_models [] w).
Definition cn_models_update (src : pydict) : M unit :=
  fun w => (Ret tt, set_cn_models (dict_update src (w_cn_models w)) w).
Definition cn_models : M pydict := fun w => (Ret (w_cn_models w), w).

Definition headers : M string := get_tushuashua_token.

Section Pipeline.

Context {lib : Imaging}.

Definition upload_image_data (image_data : Image) (persistent : bool) : M pyval :=
  let! u := uuid4 in
  let filename := u ++ ".png" in
  let bytes_data := png_bytes image_data in
  let data := VDict [(VStr "filename", VStr filename);
                     (VStr "file_size", VInt (Z.of_nat (String.length bytes_data)));
                     (VStr "persistent", VBool persistent)] in
  let! host := opt HOST in
  let! auth := headers in
  let! resp := http {| rq_method := POST; rq_url := host ++ "/v1/oss-files";
                       rq_authorization := Some auth; rq_body := JsonBody data;
                       rq_timeout := Some 4%Z |} in
  if resp_ok resp then
    let! json_d := resp_json resp in
    let! ok := code_is_200 json_d in
    if ok then
      let! data := lift (getitem json_d (VStr "data")) in
      let! url := lift (getitem data (VStr "url")) in
      let! url := url_of url in
      let! resp2 := http {| rq_method := PUT; rq_url := url; rq_authorization := None;
                            rq_body := RawBody "image/png" bytes_data;
                            rq_timeout := None |} in
      if resp_ok resp2 then lift (getitem data (VStr "oss_key"))
      else ret VNone
    else ret VNone
  else ret VNone.

Definition poll_request (host auth task_id : string) : request :=
  {| rq_method := GET; rq_url := host ++ "/v1/img-tasks/" ++ task_id;
     rq_authorization := Some auth; rq_body := NoBody; rq_timeout := Some 5%Z |}.

(** The [while] loop of [waite_task], [fuel] bounding its iterations. *)
Fixpoint waite_loop (fuel : nat) (task_id : pyval) (start timeout : Q) : M pyval :=
  match fuel with
  | O => out_of_fuel
  | S fuel' =>
      let! now := time_time in
      if Qltb (now - start) timeout then
        do! time_sleep 2 in
        let! host := opt HOST in
        let! auth := headers in
        let! resp := http (poll_request host auth (format_value task_id)) in
        if resp_ok resp then
          let! json_d := resp_json resp in
          let! ok := code_is_200 json_d in
          if ok then
            let! data := lift (getitem json_d (VStr "data")) in
            let! status := lift (getitem data (VStr "status")) in
            if scalar_eq status (VInt 10) || scalar_eq status (VInt (-1)) then ret data
            else waite_loop fuel' task_id start timeout
          else waite_loop fuel' task_id start timeout
        else waite_loop fuel' task_id start timeout
      else ret VNone
  end.

Definition waite_task (fuel : nat) (task_id : pyval) (timeout : Q) : M pyval :=
  let! start := time_time in
  waite_loop fuel task_id start timeout.

(** [open(name, "wb+")], as POSIX open(2) with O_CREAT answers it: a name
    that ends in the separator is refused as a directory; so are "." and
    "..", and the name of an existing directory, once the parent is found;
    a parent that does not exist, or is a regular file, is an error. *)
Definition open_wb (name : string) : M unit :=
  fun w =>
    let base := basename name in
    let dir := parent name in
    if String.eqb name "" then (Raise FileNotFoundError, w)
    else if String.eqb base "" then (Raise IsADirectoryError, w)
    else if negb (String.eqb dir "") && bool_decide (is_Some (w_files w !! dir))
      then (Raise NotADirectoryError, w)
    else if negb (String.eqb dir "") && negb (bool_decide (dir ∈ w_dirs w))
      then (Raise FileNotFoundError, w)
    else if String.eqb base "." || String.eqb base ".."
            || bool_decide (name ∈ w_dirs w)
      then (Raise IsADirectoryError, w)
    else (Ret tt, w).

(** [with open(name, "wb+") as f: f.write(content)] *)
Definition write_file (name content : string) : M unit :=
  do! open_wb name in
  fun w => (Ret tt, set_files (<[name := content]> (w_files w)) w).

(** [os.path.join(BUCKET, key)] *)
Definition os_path_join (a : string) (b : pyval) : outcome string :=
  match b with
  | VStr s => Ret (path_join a s)
  | _ => Raise TypeError
  end.

Definition submit_request (host auth : string) (data : pyval) : request :=
  {| rq_method := POST; rq_url := host ++ "/v1/img2img-tasks/cnet";
     rq_authorization := Some auth; rq_body := JsonBody data;
     rq_timeout := Some 4%Z |}.

Definition download_request (image_url : string) : request :=
  {| rq_method := GET; rq_url := image_url; rq_authorization := None;
     rq_body := NoBody; rq_timeout := Some 10%Z |}.

(** [res.get('hig_images') or res.get('images')] *)
Definition result_images (res : pyval) : outcome pyval :=
  obind (dict_get res (VStr "hig_images")) (fun hig =>
  if truthy hig then Ret hig else dict_get res (VStr "images")).

(** What [run_annotator] does with the payload [waite_task] returned:
    pick the URL, download it, write it under tmp/. *)
Definition fetch_artifact (res : pyval) : M pyval :=
  let! images := lift (result_images res) in
  if truthy images then
    let! image_url := lift (getitem images (VInt 0)) in
    let! url := url_of image_url in
    let! resp := http (download_request url) in
    if resp_ok resp then
      let filename := path_join "tmp" (basename (url_path url)) in
      do! write_file filename (resp_content resp) in
      ret (VStr filename)
    else ret VNone
  else ret VNone.

Definition run_annotator (fuel : nat) (image : canvas ndarray)
    (module pres pthr_a pthr_b t2i_w t2i_h pp rm : pyval) : M pyval :=
  let! image_key := upload_image_data (fromarray (cv_image image)) false in
  let! mask_key := upload_image_data (fromarray (cv_mask image)) false in
  if negb (truthy image_key) || negb (truthy mask_key) then
    raise (PyException "upload image file failed")
  else
    let! bucket := opt BUCKET in
    let! image_path := lift (os_path_join bucket image_key) in
    let! mask_path := lift (os_path_join bucket mask_key) in
    let data := VDict [(VStr "image", VStr image_path);
                       (VStr "mask", VStr mask_path);
                       (VStr "module", module);
                       (VStr "annotator_resolution", pres);
                       (VStr "pthr_a", pthr_a);
                       (VStr "pthr_b", pthr_b);
                       (VStr "t2i_w", t2i_w);
                       (VStr "t2i_h", t2i_h);
                       (VStr "pp", pp);
                       (VStr "rm", rm)] in
    let! host := opt HOST in
    let! auth := headers in
    let! resp := http (submit_request host auth data) in
    if resp_ok resp then
      let! json_d := resp_json resp in
      let! ok := code_is_200 json_d in
      if ok then
        let! d := lift (getitem json_d (VStr "data")) in
        let! task_id := lift (getitem d (VStr "task_id")) in
        let! res := waite_task fuel task_id 300 in
        if truthy res then fetch_artifact res
        else ret VNone
      else ret VNone
    else ret VNone.

End Pipeline.

End Tss.

(** ** scripts/controlnet_ui/controlnet_ui_group.py *)

Module Ui.

Local Open Scope py_scope.

(** The [value] of a [gr.update]: [None], an array, or a plain value. *)
Inductive uval (A : Type) : Type :=
| UNone
| UArr (a : A)
| UVal (v : pyval).
Arguments UNone {A}.
Arguments UArr {A} a.
Arguments UVal {A} v.

(** [gr.update(...)]: a keyword that is not passed is [None] here. *)
Record update (A : Type) := {
  u_label : option string;
  u_value : option (uval A);
  u_minimum : option pyval;
  u_maximum : option pyval;
  u_step : option pyval;
  u_visible : option bool;
  u_interactive : option bool;
  u_choices : option (list pyval)
}.
Arguments u_label {A} u.
Arguments u_value {A} u.
Arguments u_minimum {A} u.
Arguments u_maximum {A} u.
Arguments u_step {A} u.
Arguments u_visible {A} u.
Arguments u_interactive {A} u.
Arguments u_choices {A} u.

(** An entry of [preprocessor_sliders_config[module]] that is a dict. *)
Record slider_config := {
  sc_name : string;
  sc_value : pyval;
  sc_min : pyval;
  sc_max : pyval;
  sc_step : option pyval
}.

(** [json_pose_callback]: the bound method [json_acceptor.accept]. *)
Inductive callback := json_acceptor_accept.

Record preprocessor_call (A : Type) := {
  pc_img : A;
  pc_res : pyval;
  pc_thr_a : pyval;
  pc_thr_b : pyval;
  pc_json_pose_callback : option callback
}.
Arguments pc_img {A} p.
Arguments pc_res {A} p.
Arguments pc_thr_a {A} p.
Arguments pc_thr_b {A} p.
Arguments pc_json_pose_callback {A} p.

(** What a preprocessor hands back: [(result, is_image)], and the JSON
    strings it passes to the callback when it has one. *)
Record preprocessor_return (A : Type) := {
  pr_result : A;
  pr_is_image : bool;
  pr_json : list string
}.
Arguments pr_result {A} p.
Arguments pr_is_image {A} p.
Arguments pr_json {A} p.

Definition is_openpose (module : string) : bool := str_contains "openpose" module.

(** [needle in module] for whatever the dropdown holds. *)
Definition py_contains (needle : string) (x : pyval) : outcome bool :=
  match x with
  | VStr s => Ret (str_contains needle s)
  | VList l => Ret (existsb (scalar_eq (VStr needle)) l)
  | VDict d => Ret (dict_mem (VStr needle) d)
  | _ => Raise TypeError
  end.

Definition read_file (name : string) : M string :=
  fun w => match w_files w !! name with
           | Some c => (Ret c, w)
           | None => (Raise FileNotFoundError, w)
           end.

Definition os_remove (name : string) : M unit :=
  fun w => match w_files w !! name with
           | Some _ => (Ret tt, set_files (delete name (w_files w)) w)
           | None => (Raise FileNotFoundError, w)
           end.

(** numpy, external_code, scripts.processor, scripts.global_state and the
    members of the group that the handlers use. *)
Class Scripts {lib : Imaging} := {
  HWC3 : ndarray -> ndarray;
  channel0 : ndarray -> ndarray;              (* a[:, :, 0] *)
  alpha : ndarray -> ndarray;                 (* a[:, :, 0:1] *)
  all_le : Z -> ndarray -> bool;              (* (a <= n).all() *)
  all_ge : Z -> ndarray -> bool;              (* (a >= n).all() *)
  concatenate : ndarray -> ndarray -> ndarray;
  visualize_inpaint_mask : ndarray -> ndarray;
  clip_vision_visualization : ndarray -> ndarray;
  resize_mode_from_value : pyval -> pyval;
  pixel_perfect_resolution : ndarray -> pyval -> pyval -> pyval -> pyval;
  preprocessor_sliders_config : string -> option (list (option slider_config));
  flag_preprocessor_resolution : string;
  model_free_preprocessors : list string;
  get_module_basename : pyval -> string;
  update_cn_models : M unit;
  (* self.preprocessors *)
  preprocessors :
    string -> option (preprocessor_call ndarray -> outcome (preprocessor_return ndarray));
  (* self.openpose_editor.update *)
  editor_update : Type;
  openpose_editor_update : string -> editor_update
}.

Section Group.

Context {lib : Imaging} {ext : Scripts}.

Definition gr_update : update ndarray :=
  {| u_label := None; u_value := None; u_minimum := None; u_maximum := None;
     u_step := None; u_visible := None; u_interactive := None; u_choices := None |}.

Definition with_value (v : uval ndarray) (u : update ndarray) : update ndarray :=
  {| u_label := u_label u; u_value := Some v; u_minimum := u_minimum u;
     u_maximum := u_maximum u; u_step := u_step u; u_visible := u_visible u;
     u_interactive := u_interactive u; u_choices := u_choices u |}.

Definition with_visible (b : bool) (u : update ndarray) : update ndarray :=
  {| u_label := u_label u; u_value := u_value u; u_minimum := u_minimum u;
     u_maximum := u_maximum u; u_step := u_step u; u_visible := Some b;
     u_interactive := u_interactive u; u_choices := u_choices u |}.

Definition with_interactive (b : bool) (u : update ndarray) : update ndarray :=
  {| u_label := u_label u; u_value := u_value u; u_minimum := u_minimum u;
     u_maximum := u_maximum u; u_step := u_step u; u_visible := u_visible u;
     u_interactive := Some b; u_choices := u_choices u |}.

Definition with_choices (c : list pyval) (u : update ndarray) : update ndarray :=
  {| u_label := u_label u; u_value := u_value u; u_minimum := u_minimum u;
     u_maximum := u_maximum u; u_step := u_step u; u_visible := u_visible u;
     u_interactive := u_interactive u; u_choices := Some c |}.

Definition slider_update (label : string) (value minimum maximum step : pyval)
    (visible interactive : bool) : update ndarray :=
  {| u_label := Some label; u_value := Some (UVal value); u_minimum := Some minimum;
     u_maximum := Some maximum; u_step := Some step; u_visible := Some visible;
     u_interactive := Some interactive; u_choices := None |}.

(** [gr.update(visible=False, interactive=False)] *)
Definition hidden : update ndarray := with_interactive false (with_visible false gr_update).

(** *** refresh_all_models *)

Definition dropdown_update (value : pyval) (choices : list pyval) : update ndarray :=
  with_choices choices (with_value (UVal value) gr_update).

Definition refresh_all_models (dd : pyval) : M (update ndarray) :=
  let! on := Tss.enable in
  if truthy on then
    do! Tss.cn_models_clear in
    let! models := Tss.request_models in
    do! Tss.cn_models_update models in
    let! known := lift (py_in_dict dd models) in
    let selected := if known then dd else VStr "None" in
    let! cn := Tss.cn_models in
    ret (dropdown_update selected (dict_keys cn))
  else
    do! update_cn_models in
    let! cn := Tss.cn_models in
    let! known := lift (py_in_dict dd cn) in
    let selected := if known then dd else VStr "None" in
    let! cn := Tss.cn_models in
    ret (dropdown_update selected (dict_keys cn)).

(** *** build_sliders *)

Definition slider_of (pp : pyval) (slider_config : option slider_config) : update ndarray :=
  match slider_config with
  | Some c =>
      let visible :=
        if String.eqb (sc_name c) flag_preprocessor_resolution
        then negb (truthy pp) else true in
      slider_update (sc_name c) (sc_value c) (sc_min c) (sc_max c)
        (default (VInt 1) (sc_step c)) visible visible
  | None => hidden
  end.

Definition build_sliders (module pp : pyval) : list (update ndarray) :=
  let module := get_module_basename module in
  let grs :=
    match preprocessor_sliders_config module with
    | None =>
        [ slider_update flag_preprocessor_resolution (VInt 512) (VInt 64) (VInt 2048)
            (VInt 1) (negb (truthy pp)) (negb (truthy pp));
          hidden; hidden; with_visible true gr_update ]
    | Some configs =>
        let grs := map (slider_of pp) configs in
        let grs := (grs ++ repeat hidden (3 - List.length grs))%list in
        (grs ++ [with_visible true gr_update])%list
    end in
  if existsb (String.eqb module) model_free_preprocessors then
    (grs ++ [ with_value (UVal (VStr "None")) (with_visible false gr_update);
              with_visible false gr_update ])%list
  else
    (grs ++ [ with_visible true gr_update; with_visible true gr_update ])%list.

(** *** run_annotator *)

Definition outputs : Type := update ndarray * update ndarray * editor_update.

(** What is returned when there is nothing to show. *)
Definition no_preview : outputs :=
  (with_visible true (with_value UNone gr_update), gr_update, openpose_editor_update "").

Definition preview (result : uval ndarray) (interactive : option bool) (json : string) : outputs :=
  (match interactive with
   | Some b => with_interactive b (with_visible true (with_value result gr_update))
   | None => with_visible true (with_value result gr_update)
   end,
   with_value (UVal (VBool true)) gr_update,
   openpose_editor_update json).

(** The remote strategy. *)
Definition run_remote (fuel : nat) (image : canvas ndarray)
    (module pres pthr_a pthr_b t2i_w t2i_h pp rm : pyval) : M outputs :=
  let! image_file :=
    Tss.run_annotator fuel image module pres pthr_a pthr_b t2i_w t2i_h pp rm in
  if negb (truthy image_file) then ret no_preview
  else
    match image_file with
    | VStr name =>
        let! content := read_file name in
        let! result := lift (decode_image content) in
        let result := visualize_inpaint_mask result in
        do! os_remove name in
        ret (preview (UArr result) (Some false) "")
    | _ => raise TypeError
    end.

(** The arguments the preprocessor is called with. *)
Definition local_call (module : string) (img : ndarray) (pres pthr_a pthr_b : pyval)
    : preprocessor_call ndarray :=
  {| pc_img := img; pc_res := pres; pc_thr_a := pthr_a; pc_thr_b := pthr_b;
     pc_json_pose_callback :=
       if is_openpose module then Some json_acceptor_accept else None |}.

(** [json_acceptor.value] once the preprocessor has returned: the last
    string handed to [accept], the empty string when there was none. *)
Definition accepted (cb : option callback) (emitted : list string) : string :=
  match cb with
  | Some json_acceptor_accept => fold_left (fun _ json_string => json_string) emitted ""
  | None => ""
  end.

(** The input the local strategy works on. *)
Definition local_input (image : canvas ndarray) (inpaint : bool) (ignore_mask : pyval) : ndarray :=
  let img := HWC3 (cv_image image) in
  let has_mask :=
    negb (all_le 5 (channel0 (cv_mask image)) || all_ge 250 (channel0 (cv_mask image))) in
  if inpaint then concatenate (HWC3 (cv_image image)) (alpha (cv_mask image))
  else if has_mask && negb (truthy ignore_mask) then HWC3 (channel0 (cv_mask image))
  else img.

(** What is shown once the preprocessor has returned [r]. *)
Definition local_outputs (module : string) (cb : option callback)
    (r : preprocessor_return ndarray) : outputs :=
  let json := accepted cb (pr_json r) in
  let clip := str_contains "clip" module in
  let result := if clip then clip_vision_visualization (pr_result r) else pr_result r in
  let is_image := clip || pr_is_image r in
  if is_image then preview (UArr (visualize_inpaint_mask result)) (Some false) json
  else preview UNone None json.

(** The local strategy. *)
Definition run_local (image : canvas ndarray)
    (module pres pthr_a pthr_b t2i_w t2i_h pp rm : pyval) : M outputs :=
  let! inpaint := lift (py_contains "inpaint" module) in
  let! ignore_mask := Tss.opt ignore_noninpaint_mask in
  let img := local_input image inpaint (default (VBool false) ignore_mask) in
  let module := get_module_basename module in
  match preprocessors module with
  | None => raise (KeyError (VStr module))
  | Some preprocessor =>
      let pres :=
        if truthy pp
        then pixel_perfect_resolution img t2i_h t2i_w (resize_mode_from_value rm)
        else pres in
      let call := local_call module img pres pthr_a pthr_b in
      let! r := lift (preprocessor call) in
      ret (local_outputs module (pc_json_pose_callback call) r)
  end.

Definition run_annotator (fuel : nat) (image : option (canvas ndarray))
    (module pres pthr_a pthr_b t2i_w t2i_h pp rm : pyval) : M outputs :=
  match image with
  | None => ret no_preview
  | Some image =>
      let! on := Tss.enable in
      if truthy on then run_remote fuel image module pres pthr_a pthr_b t2i_w t2i_h pp rm
      else run_local image module pres pthr_a pthr_b t2i_w t2i_h pp rm
  end.

(** *** The unit's components and the events wired to the handlers *)

(** The values the components of one ControlNet unit hold. *)
Record unit_state := {
  st_input_image : option (canvas ndarray);
  st_module : pyval;
  st_model : pyval;
  st_processor_res : pyval;
  st_threshold_a : pyval;
  st_threshold_b : pyval;
  st_pixel_perfect : pyval;
  st_resize_mode : pyval;
  st_generated_image : uval ndarray;
  st_preprocessor_preview : pyval;
  st_editor : option editor_update
}.

(** A component takes the update's value when the update carries one. *)
Definition apply_value (u : update ndarray) (old : pyval) : pyval :=
  match u_value u with
  | Some (UVal v) => v
  | Some UNone => VNone
  | Some (UArr _) => old
  | None => old
  end.

Definition apply_image (u : update ndarray) (old : uval ndarray) : uval ndarray :=
  default old (u_value u).

(** [register_build_sliders]: with [self.gradio_compat] false it returns
    before the handler is defined, and a change of the module runs
    nothing.  Otherwise [self.module.change(build_sliders, inputs=[module,
    pixel_perfect], outputs=[processor_res, threshold_a, threshold_b,
    advanced, model, refresh_models])]: the handler must return one update
    per output. *)
Definition module_change (gradio_compat : bool) (st : unit_state) : outcome unit_state :=
  if negb gradio_compat then Ret st else
  match build_sliders (st_module st) (st_pixel_perfect st) with
  | [res; thr_a; thr_b; _; model; _] =>
      Ret {| st_input_image := st_input_image st;
             st_module := st_module st;
             st_model := apply_value model (st_model st);
             st_processor_res := apply_value res (st_processor_res st);
             st_threshold_a := apply_value thr_a (st_threshold_a st);
             st_threshold_b := apply_value thr_b (st_threshold_b st);
             st_pixel_perfect := st_pixel_perfect st;
             st_resize_mode := st_resize_mode st;
             st_generated_image := st_generated_image st;
             st_preprocessor_preview := st_preprocessor_preview st;
             st_editor := st_editor st |}
  | _ => Raise (PyException "ValueError")
  end.

(** The user picks [module] in the preprocessor dropdown of a group built
    with [gradio_compat]. *)
Definition select_module (gradio_compat : bool) (module : pyval) (st : unit_state)
    : outcome unit_state :=
  module_change gradio_compat
    {| st_input_image := st_input_image st;
       st_module := module;
       st_model := st_model st;
       st_processor_res := st_processor_res st;
       st_threshold_a := st_threshold_a st;
       st_threshold_b := st_threshold_b st;
       st_pixel_perfect := st_pixel_perfect st;
       st_resize_mode := st_resize_mode st;
       st_generated_image := st_generated_image st;
       st_preprocessor_preview := st_preprocessor_preview st;
       st_editor := st_editor st |}.

(** [self.trigger_preprocessor.click(fn=run_annotator, inputs=[input_image,
    module, processor_res, threshold_a, threshold_b, w_slider, h_slider,
    pixel_perfect, resize_mode], outputs=[generated_image,
    preprocessor_preview, *openpose_editor.outputs()])] *)
Definition trigger_preprocessor (fuel : nat) (t2i_w t2i_h : pyval) (st : unit_state)
    : M unit_state :=
  let! out :=
    run_annotator fuel (st_input_image st) (st_module st) (st_processor_res st)
      (st_threshold_a st) (st_threshold_b st) t2i_w t2i_h
      (st_pixel_perfect st) (st_resize_mode st) in
  let '(generated_image, preprocessor_preview, editor) := out in
  ret {| st_input_image := st_input_image st;
         st_module := st_module st;
         st_model := st_model st;
         st_processor_res := st_processor_res st;
         st_threshold_a := st_threshold_a st;
         st_threshold_b := st_threshold_b st;
         st_pixel_perfect := st_pixel_perfect st;
         st_resize_mode := st_resize_mode st;
         st_generated_image := apply_image generated_image (st_generated_image st);
         st_preprocessor_preview :=
           apply_value preprocessor_preview (st_preprocessor_preview st);
         st_editor := Some editor |}.

End Group.

End Ui.

(** * What the properties are stated with *)

(** The header value a credential that is still good is turned into. *)
Definition bearer (t : credential) : string :=
  if String.prefix "Bearer" (token t) then token t else "Bearer " ++ token t.

Definition token_value (w : world) : string :=
  match tu_token (w_opts w) with
  | Some t => if Qltb (expire t - 60) (w_clock w) then "" else bearer t
  | None => ""
  end.

(** Whether the configuration asks for the remote service, and whether
    the process is a worker. *)
Definition remote_flag (o : options) : bool :=
  truthy (default (VBool false) (xz_ext_enable o)).

Definition is_worker (o : options) : bool := truthy (worker o).

(** The exchange the next request of [w] will get. *)
Definition next_exchange (w : world) : exchange := w_net w (length (w_log w)).

(** ** Concrete processes, for the examples *)

Module Sample.

Definition options_of (flag : option pyval) (cred : option credential) (wk : bool)
    : options :=
  {| xz_ext_enable := flag; tu_token := cred; worker := VBool wk;
     ignore_noninpaint_mask := None;
     HOST := "https://tss.example"; BUCKET := "xingzheaidraw" |}.

Definition world_of (o : options) (clock : Q) (net : nat -> exchange) : world :=
  {| w_opts := o; w_clock := clock; w_net := net; w_log := [];
     w_cache := ∅; w_cn_models := []; w_files := ∅; w_dirs := {[ "tmp" ]};
     w_uuid := fun _ => "0f8fad5b-d9cb-469f-a165-70867728950e";
     w_uuid_drawn := 0 |}.

(** A 2xx response with a JSON body, a 5xx response, a body that is not
    JSON, and a call in which requests raises. *)
Definition answers (j : pyval) : exchange :=
  {| elapsed := 1 # 10;
     reply := Some {| resp_ok := true; resp_body := Some j; resp_content := "" |} |}.

Definition server_error : exchange :=
  {| elapsed := 1 # 10;
     reply := Some {| resp_ok := false; resp_body := None; resp_content := "" |} |}.


Definition unreachable : exchange := {| elapsed := 5; reply := None |}.

(** [{"code": code, "data": data}] *)
Definition envelope (code : Z) (data : pyval) : pyval :=
  VDict [(VStr "code", VInt code); (VStr "data", data)].

Definition credential_until (t : Q) : credential :=
  {| token := "abc"; expire := t |}.

End Sample.

(** ** Concrete libraries, for the examples *)

Module SampleLib.

(** Arrays and images are stood for by their bytes. *)
#[local] Instance imaging : Imaging := {|
  ndarray := string;
  Image := string;
  fromarray := fun a => a;
  png_bytes := fun i => i;
  decode_image := fun c => Ret c;
  format_value := fun v => match v with VStr s => s | _ => "?" end;
  url_path := fun u => u
|}.

Definition echo (json : list string) (c : Ui.preprocessor_call string)
    : outcome (Ui.preprocessor_return string) :=
  Ret {| Ui.pr_result := Ui.pc_img c; Ui.pr_is_image := true; Ui.pr_json := json |}.

#[local] Instance scripts : Ui.Scripts := {|
  Ui.HWC3 := fun a => a;
  Ui.channel0 := fun a => a;
  Ui.alpha := fun a => a;
  Ui.all_le := fun _ _ => true;
  Ui.all_ge := fun _ _ => true;
  Ui.concatenate := fun a b => a ++ b;
  Ui.visualize_inpaint_mask := fun a => a;
  Ui.clip_vision_visualization := fun a => a;
  Ui.resize_mode_from_value := fun v => v;
  Ui.pixel_perfect_resolution := fun _ _ _ _ => VInt 512;
  Ui.preprocessor_sliders_config := fun _ => None;
  Ui.flag_preprocessor_resolution := "Preprocessor Resolution";
  Ui.model_free_preprocessors := ["reference_only"; "reference_adain"];
  Ui.get_module_basename := fun v => match v with VStr s => s | _ => "none" end;
  Ui.update_cn_models :=
    fun w => (Ret tt,
              set_cn_models [(VStr "None", VNone);
                             (VStr "control_canny", VStr "control_canny")] w);
  Ui.preprocessors := fun name =>
    if String.eqb name "openpose_full" then Some (echo ["{}"])
    else if String.eqb name "canny" then Some (echo [])
    else if String.eqb name "reference_only" then Some (echo [])
    else None;
  Ui.editor_update := string;
  Ui.openpose_editor_update := fun json => json
|}.

Definition picture : canvas string := {| cv_image := "image"; cv_mask := "mask" |}.

End SampleLib.

(** ** The catalog calls *)

(** The world once [rq] has been sent and answered. *)
Definition sent (rq : request) (w : world) : world :=
  set_clock (w_clock w + elapsed (next_exchange w))%Q
    (set_log (w_log w ++ [rq])%list w).

Definition tss_request (api : string) (w : world) : request :=
  {| rq_method := GET; rq_url := api; rq_authorization := Some (token_value w);
     rq_body := NoBody; rq_timeout := Some 5%Z |}.

Definition models_api (w : world) : string :=
  HOST (w_opts w) ++ "/v1/samplers/category?categorys=4".

Definition mudules_api (w : world) : string :=
  HOST (w_opts w) ++ "/v1/samplers/category?categorys=3".

(** The call is answered and brings no data: an HTTP error status, an
    envelope whose code is not 200, or a 200 envelope whose data is empty
    or null. *)
Definition no_data (x : exchange) : bool :=
  match reply x with
  | None => false
  | Some r =>
      if resp_ok r then
        match resp_body r with
        | None => false
        | Some json_d =>
            match getitem json_d (VStr "code") with
            | Ret code =>
                if scalar_eq code (VInt 200) then
                  match getitem json_d (VStr "data") with
                  | Ret data => negb (truthy data)
                  | _ => false
                  end
                else true
            | _ => false
            end
        end
      else true
  end.

(** No two keys of the dict are equal. *)
Fixpoint dict_wf (d : pydict) : bool :=
  match d with
  | [] => true
  | (k, _) :: r => negb (existsb (fun kv => scalar_eq (fst kv) k) r) && dict_wf r
  end.

Module SampleCatalog.

Import Sample.

Definition item (display real : pyval) : pyval :=
  VDict [(VStr "real_value", real); (VStr "display_value", display)].

(** [{"items": {"4": items}}] *)
Definition models_payload (items : list pyval) : pyval :=
  VDict [(VStr "items", VDict [(VStr "4", VList items)])].

Definition mudules_payload (items : list pyval) : pyval :=
  VDict [(VStr "items", VDict [(VStr "3", VList items)])].

Definition feed : pyval :=
  models_payload
    [item (VStr Tss.wu) (VStr "None");
     item (VStr "control_canny") (VStr "control_canny [a1b2]")].

(** A feed that lists its own "None" entry first. *)
Definition feed_with_none : pyval :=
  models_payload
    [item (VStr "None") (VStr "none");
     item (VStr "control_canny") (VStr "control_canny [a1b2]")].

Definition preprocessors_feed : pyval :=
  mudules_payload [item (VStr "none") (VStr "None");
                   item (VStr "canny") (VStr "canny")].

Definition remote : options := options_of (Some (VBool true)) None false.

(** The catalog answers once, then the service is down or out of reach. *)
Definition then_http_error (first : pyval) : world :=
  world_of remote 0
    (fun n => match n with O => answers (envelope 200 first) | _ => server_error end).



End SampleCatalog.

(** ** Uploads *)

(** The [data] of the registration response when the POST succeeded: a
    truthy response whose body decodes to an envelope with code 200. *)
Definition registration (x : exchange) : option pyval :=
  match reply x with
  | None => None
  | Some r =>
      if resp_ok r then
        match resp_body r with
        | None => None
        | Some json_d =>
            match getitem json_d (VStr "code") with
            | Ret code =>
                if scalar_eq code (VInt 200) then
                  match getitem json_d (VStr "data") with
                  | Ret data => Some data
                  | _ => None
                  end
                else None
            | _ => None
            end
        end
      else None
  end.

(** The PUT succeeded: requests returned a truthy response. *)
Definition put_ok (x : exchange) : bool :=
  match reply x with
  | Some r => resp_ok r
  | None => false
  end.

(** One of the two phases of the upload that starts in [w] fails. *)
Definition upload_fails (w : world) : bool :=
  match registration (next_exchange w) with
  | None => true
  | Some _ => negb (put_ok (w_net w (S (length (w_log w)))))
  end.

(** The requests an upload sends: the registration POST and the PUT. *)
Definition is_upload_request (host : string) (rq : request) : bool :=
  match rq_method rq with
  | PUT => true
  | POST => String.eqb (rq_url rq) (host ++ "/v1/oss-files")
  | GET => false
  end.

Module SampleUpload.

Import Sample.

Definition registered (key : string) : exchange :=
  answers (envelope 200
             (VDict [(VStr "url", VStr "https://oss.example/put?sig=1");
                     (VStr "oss_key", VStr key)])).

Definition stored : exchange :=
  {| elapsed := 1 # 2;
     reply := Some {| resp_ok := true; resp_body := None; resp_content := "" |} |}.

(** The image goes up, the PUT of the mask is refused. *)
Definition mask_put_refused : world :=
  world_of SampleCatalog.remote 0
    (fun n => match n with
              | 0%nat => registered "a.png"
              | 1%nat => stored
              | 2%nat => registered "b.png"
              | _ => server_error
              end).

(** The registration of the image is answered with code 500. *)
Definition registration_rejected : world :=
  world_of SampleCatalog.remote 0 (fun _ => answers (envelope 500 VNone)).

End SampleUpload.

(** ** Polling *)

(** [status == 10 or status == -1] *)
Definition terminal (status : pyval) : bool :=
  scalar_eq status (VInt 10) || scalar_eq status (VInt (-1)).

(** The status a poll observes: that of a truthy response whose body is an
    envelope with code 200 and a [data] with a [status]. *)
Definition polled_status (x : exchange) : option pyval :=
  match reply x with
  | None => None
  | Some r =>
      if resp_ok r then
        match resp_body r with
        | None => None
        | Some json_d =>
            match getitem json_d (VStr "code") with
            | Ret code =>
                if scalar_eq code (VInt 200) then
                  match getitem json_d (VStr "data") with
                  | Ret data =>
                      match getitem data (VStr "status") with
                      | Ret status => Some status
                      | _ => None
                      end
                  | _ => None
                  end
                else None
            | _ => None
            end
        end
      else None
  end.

(** The poll is answered and the job is not finished: an HTTP error
    status, an envelope whose code is not 200, or a 200 envelope whose
    [data] carries a status other than 10 and -1. *)
Definition pending (x : exchange) : bool :=
  match reply x with
  | None => false
  | Some r =>
      if resp_ok r then
        match resp_body r with
        | None => false
        | Some json_d =>
            match getitem json_d (VStr "code") with
            | Ret code =>
                if scalar_eq code (VInt 200) then
                  match getitem json_d (VStr "data") with
                  | Ret data =>
                      match getitem data (VStr "status") with
                      | Ret status => negb (terminal status)
                      | _ => false
                      end
                  | _ => false
                  end
                else true
            | _ => false
            end
        end
      else true
  end.

(** The world after one turn of the loop: two seconds of sleep, then the
    poll. *)
Definition polled {lib : Imaging} (task_id : pyval) (w : world) : world :=
  let slept := set_clock (w_clock w + 2)%Q w in
  sent (Tss.poll_request (HOST (w_opts w)) (token_value slept) (format_value task_id))
    slept.

Module SamplePoll.

Import Sample.

Definition running : exchange :=
  answers (envelope 200 (VDict [(VStr "status", VInt 1)])).

(** Every poll finds the job running. *)
Definition never_done : world := world_of SampleCatalog.remote 0 (fun _ => running).

(** The job runs, and the third poll gets no answer within five seconds. *)
Definition third_poll_times_out : world :=
  world_of SampleCatalog.remote 0
    (fun n => match n with
              | 0%nat | 1%nat => running
              | _ => unreachable
              end).

End SamplePoll.

(** ** The unit, for the examples *)

Module SampleUnit.

Import SampleLib.

(** A unit with an input image, [module] and [model] selected. *)
Definition state (module model : pyval) : @Ui.unit_state imaging scripts :=
  {| Ui.st_input_image := Some (picture : canvas (@ndarray imaging));
     Ui.st_module := module;
     Ui.st_model := model;
     Ui.st_processor_res := VInt 512;
     Ui.st_threshold_a := VInt 100;
     Ui.st_threshold_b := VInt 200;
     Ui.st_pixel_perfect := VBool false;
     Ui.st_resize_mode := VStr "Crop and Resize";
     Ui.st_generated_image := Ui.UNone;
     Ui.st_preprocessor_preview := VBool false;
     Ui.st_editor := None |}.

(** A process that runs preprocessors locally. *)
Definition local : world :=
  Sample.world_of (Sample.options_of None None false) 0 (fun _ => Sample.unreachable).

End SampleUnit.

(** * The rest of the two files *)

(** ** scripts/tss.py: the lists the UI is filled from *)

Module TssUi.

Local Open Scope py_scope.

(** scripts.global_state, as far as tss.py reads it: the alias dict and
    the keys of [cn_preprocessor_modules], in dict order. *)
Class GlobalState := {
  preprocessor_aliases : list (string * string);
  cn_preprocessor_modules : list string
}.

(** [aliases.get(k)] *)
Fixpoint alias_lookup (aliases : list (string * string)) (k : string) : option string :=
  match aliases with
  | [] => None
  | (k', v) :: r => if String.eqb k k' then Some v else alias_lookup r k
  end.

(** [if p == 'None': p = 'none'] *)
Definition rename_none (p : pyval) : pyval :=
  if scalar_eq p (VStr "None") then VStr "none" else p.

(** How Python orders two [str]. *)
Definition str_le (a b : string) : Prop := String.leb a b = true.

#[export] Instance str_le_dec (a b : string) : Decision (str_le a b).
Proof. unfold str_le. apply _. Defined.

(** [sorted(names)] on a list of [str] *)
Definition sorted (names : list string) : list string := merge_sort str_le names.

Section Lists.

Context {lib : Imaging} {ext : Ui.Scripts} {gs : GlobalState}.

(** What the local branch of [set_ui_preprocessors] leaves in
    [ui_preprocessor_keys]: the list is empty when ['invert'] is looked
    up, and holds the two fixed entries when the aliases are filtered. *)
Definition local_keys : outcome (list string) :=
  match alias_lookup preprocessor_aliases "invert" with
  | None => Raise (KeyError (VStr "invert"))
  | Some invert =>
      let keys := ["none"; invert] in
      let names :=
        List.filter (fun a => negb (existsb (String.eqb a) keys))
          (map (fun k => default k (alias_lookup preprocessor_aliases k))
               cn_preprocessor_modules) in
      Ret (keys ++ sorted names)%list
  end.

(** [ui_preprocessor_keys] is cleared first, so what was in it does not
    matter; the list the call leaves is returned beside the result. *)
Definition set_ui_preprocessors (tss : pyval) (ui_preprocessor_keys : list pyval)
    (w : world) : outcome unit * list pyval * world :=
  if truthy tss then
    match Tss.request_mudules w with
    | (Ret tss_processors, w') => (Ret tt, map rename_none tss_processors, w')
    | (Raise e, w') => (Raise e, [], w')
    | (OutOfFuel, w') => (OutOfFuel, [], w')
    end
  else
    match local_keys with
    | Ret keys => (Ret tt, map VStr keys, w)
    | Raise e => (Raise e, [], w)
    | OutOfFuel => (OutOfFuel, [], w)
    end.

Definition set_ui_models (tss : pyval) : M unit :=
  if negb (truthy tss) then Ui.update_cn_models
  else
    do! Tss.cn_models_clear in
    let! models := Tss.request_models in
    Tss.cn_models_update models.

(** [cache.get('init', 0)] *)
Definition cache_init (w : world) : pyval := default (VInt 0) (w_cache w !! "init").

Definition init_tss_ui (ui_preprocessor_keys : list pyval) (w : world)
    : outcome unit * list pyval * world :=
  match Tss.enable w with
  | (Ret on, w0) =>
      if truthy (py_and on (py_not (cache_init w0))) then
        match set_ui_preprocessors (VBool true) ui_preprocessor_keys w0 with
        | (Ret _, keys, w1) =>
            match set_ui_models (VBool true) w1 with
            | (Ret _, w2) => (Ret tt, keys, snd (cache_set "init" (VInt 1) w2))
            | (Raise e, w2) => (Raise e, keys, w2)
            | (OutOfFuel, w2) => (OutOfFuel, keys, w2)
            end
        | (Raise e, keys, w1) => (Raise e, keys, w1)
        | (OutOfFuel, keys, w1) => (OutOfFuel, keys, w1)
        end
      else (Ret tt, ui_preprocessor_keys, w0)
  | (Raise e, w0) => (Raise e, ui_preprocessor_keys, w0)
  | (OutOfFuel, w0) => (OutOfFuel, ui_preprocessor_keys, w0)
  end.

End Lists.

End TssUi.

(** ** controlnet_ui_group.py: the send-dimensions button *)

Module Dimensions.

(** [closesteight(num)] for the [int] a shape entry is; [round] of an
    [int] is that [int]. *)
Definition closesteight (num : Z) : Z :=
  let rem := (num mod 8)%Z in
  if (rem <=? 4)%Z then (num - rem)%Z else (num + (8 - rem))%Z.

(** What goes to a width or height slider: a number, or [gr.Slider.update()]. *)
Inductive slider_out := SetTo (v : Z) | Unchanged.

Section Send.

Context {lib : Imaging}.

Variable shape : ndarray -> list Z.    (* np.asarray(a).shape *)

Definition shape_entry (a : ndarray) (i : Z) : outcome Z :=
  match seq_index (shape a) i with
  | Some n => Ret n
  | None => Raise IndexError
  end.

(** The outputs are the width slider, then the height slider. *)
Definition send_dimensions (image : option (canvas ndarray))
    : outcome (slider_out * slider_out) :=
  match image with
  | Some image =>
      let interm := cv_image image in
      obind (shape_entry interm 1) (fun w =>
      obind (shape_entry interm 0) (fun h =>
      Ret (SetTo (closesteight w), SetTo (closesteight h))))
  | None => Ret (Unchanged, Unchanged)
  end.

End Send.

End Dimensions.

Module SampleLists.

#[local] Instance global_state : TssUi.GlobalState := {|
  TssUi.preprocessor_aliases :=
    [("invert", "invert (from white bg & black line)");
     ("openpose_full", "openpose_full"); ("hed", "softedge_hed")];
  TssUi.cn_preprocessor_modules :=
    ["none"; "hed"; "canny"; "invert"; "openpose_full"]
|}.

End SampleLists.

(** ** What the further properties are stated with *)

(** The [data] of an answer that passes the envelope check of
    [request_tss]: the check the registration of an upload goes through. *)
Definition envelope_data (x : exchange) : option pyval := registration x.

Module SampleMore.

Import Sample.

(** The catalog answers with a good feed, then with a payload that has no
    ['items'], then the service is down. *)
Definition good_then_malformed : world :=
  world_of SampleCatalog.remote 0
    (fun n => match n with
              | 0%nat => answers (envelope 200 SampleCatalog.feed)
              | 1%nat => answers (envelope 200 (VDict [(VStr "total", VInt 0)]))
              | _ => server_error
              end).

Definition valid_token : world :=
  world_of (options_of None (Some (credential_until 1000)) false) 900
    (fun _ => unreachable).

End SampleMore.

Module SampleInit.

Import Sample.

(** The catalog serves the preprocessors, then the models. *)
Definition both_catalogs : world :=
  world_of SampleCatalog.remote 0
    (fun n => match n with
              | 0%nat => answers (envelope 200 SampleCatalog.preprocessors_feed)
              | 1%nat => answers (envelope 200 SampleCatalog.feed)
              | _ => unreachable
              end).

(** The models are not served. *)
Definition models_down : world :=
  world_of SampleCatalog.remote 0 (fun _ => unreachable).

End SampleInit.

(** ** The requests of an upload *)

Definition registration_request {lib : Imaging} (w : world) (image_data : Image)
    (persistent : bool) : request :=
  {| rq_method := POST;
     rq_url := HOST (w_opts w) ++ "/v1/oss-files";
     rq_authorization := Some (token_value w);
     rq_body :=
       JsonBody
         (VDict [(VStr "filename", VStr (w_uuid w (w_uuid_drawn w) ++ ".png"));
                 (VStr "file_size",
                  VInt (Z.of_nat (String.length (png_bytes image_data))));
                 (VStr "persistent", VBool persistent)]);
     rq_timeout := Some 4%Z |}.

Definition put_request {lib : Imaging} (url : string) (image_data : Image) : request :=
  {| rq_method := PUT; rq_url := url; rq_authorization := None;
     rq_body := RawBody "image/png" (png_bytes image_data); rq_timeout := None |}.

(** A poll of [task_id]: a GET of the task's URL with the 5-second timeout. *)
Definition is_poll {lib : Imaging} (host : string) (task_id : pyval) (rq : request) : Prop :=
  rq_method rq = GET /\
  rq_url rq = host ++ "/v1/img-tasks/" ++ format_value task_id /\
  rq_body rq = NoBody /\ rq_timeout rq = Some 5%Z.

(** The submission is answered and turned down: an HTTP error status, or
    an envelope whose code is not 200. *)
Definition rejected (x : exchange) : bool :=
  match reply x with
  | None => false
  | Some r =>
      if resp_ok r then
        match resp_body r with
        | None => false
        | Some json_d =>
            match getitem json_d (VStr "code") with
            | Ret code => negb (scalar_eq code (VInt 200))
            | _ => false
            end
        end
      else true
  end.

Module SampleRun.

Import Sample.

(** Both uploads succeed. *)
Definition uploads (rest : nat -> exchange) (n : nat) : exchange :=
  match n with
  | 0%nat => SampleUpload.registered "a.png"
  | 1%nat => SampleUpload.stored
  | 2%nat => SampleUpload.registered "b.png"
  | 3%nat => SampleUpload.stored
  | S (S (S (S m))) => rest m
  end.

Definition submitted : exchange :=
  answers (envelope 200 (VDict [(VStr "task_id", VStr "t-1")])).

Definition done (images : list pyval) : exchange :=
  answers (envelope 200 (VDict [(VStr "status", VInt 10); (VStr "images", VList images)])).

Definition artifact (content : string) : exchange :=
  {| elapsed := 1 # 2;
     reply := Some {| resp_ok := true; resp_body := None; resp_content := content |} |}.

(** The submission is answered with code 500. *)
Definition submission_rejected : world :=
  world_of SampleCatalog.remote 0 (uploads (fun _ => answers (envelope 500 VNone))).

(** The job is done at the second poll and its image is served. *)
Definition job_done : world :=
  world_of SampleCatalog.remote 0
    (uploads (fun n => match n with
                       | 0%nat => submitted
                       | 1%nat => SamplePoll.running
                       | 2%nat => done [VStr "https://cdn.example/out/pose.png"]
                       | _ => artifact "PNG"
                       end)).

(** One upload starts here: registration, then the PUT. *)
Definition one_upload : world :=
  world_of SampleCatalog.remote 0 (uploads (fun _ => unreachable)).

End SampleRun.

Module SampleWait.

Import Sample.

(** The first poll finds the job done. *)
Definition done_at_once : world :=
  world_of SampleCatalog.remote 0
    (fun _ => SampleRun.done [VStr "https://cdn.example/out/pose.png"]).

End SampleWait.


(** The payload a poll observes: the [data] of a truthy response whose
    body is an envelope with code 200. *)
Definition polled_payload (x : exchange) : option pyval :=
  match reply x with
  | None => None
  | Some r =>
      if resp_ok r then
        match resp_body r with
        | None => None
        | Some json_d =>
            match getitem json_d (VStr "code") with
            | Ret code =>
                if scalar_eq code (VInt 200) then
                  match getitem json_d (VStr "data") with
                  | Ret data => Some data
                  | _ => None
                  end
                else None
            | _ => None
            end
        end
      else None
  end.


(** The feed item is displayed as [name]: its [display_value] is that
    string. *)
Definition displayed_as (name : string) (item : pyval) : bool :=
  match getitem item (VStr "display_value") with
  | Ret k => scalar_eq (VStr name) k
  | _ => false
  end.

(** The mapping built from the feed once the "empty selection" key is
    deleted, when it is there: what [request_models] keeps of it. *)
Definition without_wu (raw : pydict) : pydict :=
  if dict_mem (VStr Tss.wu) raw then dict_delitem (VStr Tss.wu) raw else raw.

Module SampleFail.

Import Sample.

(** The first poll finds the job failed. *)
Definition failed : exchange :=
  answers (envelope 200 (VDict [(VStr "status", VInt (-1)); (VStr "msg", VStr "oom")])).

Definition failed_at_once : world :=
  world_of SampleCatalog.remote 0 (fun _ => failed).



End SampleFail.

(** * Properties *)

(** ** Python values: equality and dicts *)

Lemma scalar_eq_str_l (a : string) (k : pyval) :
  scalar_eq (VStr a) k = true -> k = VStr a.
Proof.
  destruct k; simpl; try discriminate.
  intros H. apply String.eqb_eq in H. now subst.
Qed.

Lemma scalar_eq_str_refl (a : string) : scalar_eq (VStr a) (VStr a) = true.
Proof. simpl. apply String.eqb_refl. Qed.

Lemma Qeq_bool_sym (x y : Q) : Qeq_bool x y = Qeq_bool y x.
Proof.
  destruct (Qeq_bool x y) eqn:E, (Qeq_bool y x) eqn:F; try reflexivity.
  - apply Qeq_bool_iff in E. symmetry in E. apply Qeq_bool_iff in E. congruence.
  - apply Qeq_bool_iff in F. symmetry in F. apply Qeq_bool_iff in F. congruence.
Qed.

Lemma scalar_eq_sym (a b : pyval) : scalar_eq a b = scalar_eq b a.
Proof.
  destruct a, b; simpl; try reflexivity; try apply Qeq_bool_sym.
  apply String.eqb_sym.
Qed.

Lemma dict_lookup_app (k : pyval) (d e : pydict) :
  dict_lookup k (d ++ e)%list =
  match dict_lookup k d with Some v => Some v | None => dict_lookup k e end.
Proof.
  induction d as [|[k' v'] d IH]; cbn [app dict_lookup]; [reflexivity|].
  destruct (scalar_eq k k'); [reflexivity | apply IH].
Qed.

Lemma dict_setitem_fresh (k v : pyval) (d : pydict) :
  dict_lookup k d = None -> dict_setitem k v d = (d ++ [(k, v)])%list.
Proof.
  induction d as [|[k' v'] d IH]; cbn [app dict_lookup dict_setitem]; [reflexivity|].
  destruct (scalar_eq k k'); [discriminate|].
  intros H. now rewrite IH.
Qed.

Lemma dict_lookup_setitem_str (a : string) (v : pyval) (d : pydict) :
  dict_lookup (VStr a) (dict_setitem (VStr a) v d) = Some v.
Proof.
  induction d as [|[k' v'] d IH]; cbn [dict_lookup dict_setitem].
  - now rewrite scalar_eq_str_refl.
  - destruct (scalar_eq (VStr a) k') eqn:E; cbn [dict_lookup]; rewrite E;
      [reflexivity | apply IH].
Qed.

Lemma dict_lookup_setitem_other (a b : string) (v : pyval) (d : pydict) :
  a <> b ->
  dict_lookup (VStr a) (dict_setitem (VStr b) v d) = dict_lookup (VStr a) d.
Proof.
  intros Hab. apply String.eqb_neq in Hab.
  assert (N : scalar_eq (VStr a) (VStr b) = false) by exact Hab.
  induction d as [|[k' v'] d IH]; cbn [dict_lookup dict_setitem].
  - now rewrite N.
  - destruct (scalar_eq (VStr b) k') eqn:E; cbn [dict_lookup].
    + apply scalar_eq_str_l in E. subst k'. now rewrite N.
    + destruct (scalar_eq (VStr a) k'); [reflexivity | apply IH].
Qed.

Lemma dict_lookup_delitem (k : pyval) (d : pydict) :
  dict_lookup k (dict_delitem k d) = None.
Proof.
  unfold dict_delitem.
  induction d as [|[k' v'] d IH]; cbn [List.filter fst]; [reflexivity|].
  destruct (scalar_eq k k') eqn:E; cbn [negb dict_lookup]; [apply IH|].
  rewrite E. apply IH.
Qed.

Lemma seq_index_0 {A} (x : A) (l : list A) : seq_index (x :: l) 0 = Some x.
Proof.
  unfold seq_index. cbn [Z.ltb Z.compare Z.leb andb].
  destruct (0 <? Z.of_nat (length (x :: l)))%Z eqn:E; [reflexivity|].
  apply Z.ltb_ge in E. cbn [length] in E. lia.
Qed.

(** ** The monad *)

Lemma bind_ret_l {A B} (a : A) (k : A -> M B) (w : world) :
  bind (ret a) k w = k a w.
Proof. reflexivity. Qed.

Lemma bind_run {A B} (c : M A) (k : A -> M B) (w w' : world) (a : A) :
  c w = (Ret a, w') -> bind c k w = k a w'.
Proof. intros H. unfold bind. now rewrite H. Qed.


(** ** TokenProvider *)

(** The token is computed from the configuration and the clock alone:
    the world, and with it the log of requests, is left as it was. *)
Lemma get_tushuashua_token_pure (w : world) :
  Tss.get_tushuashua_token w = (Ret (token_value w), w).
Proof.
  unfold Tss.get_tushuashua_token, token_value, Tss.opt, bind, bearer.
  destruct (tu_token (w_opts w)) as [t|]; [|reflexivity].
  unfold time_time. destruct (Qltb (expire t - 60) (w_clock w)); reflexivity.
Qed.

Lemma Qltb_true (x y : Q) : Qltb x y = true <-> (x < y)%Q.
Proof.
  unfold Qltb. rewrite negb_true_iff. split.
  - intros H. apply Qnot_le_lt. intros L. apply Qle_bool_iff in L. congruence.
  - intros H. destruct (Qle_bool y x) eqn:E; [|reflexivity].
    apply Qle_bool_iff in E. exfalso. apply (Qlt_not_le _ _ H E).
Qed.

Lemma Qltb_false (x y : Q) : Qltb x y = false <-> (y <= x)%Q.
Proof.
  unfold Qltb. rewrite negb_false_iff. apply Qle_bool_iff.
Qed.

(** C6. A credential with less than 60 seconds left before it expires, or
    no credential at all, gives the empty token; the call returns (it does
    not raise) and leaves the world untouched, so nothing is sent. *)
Theorem get_tushuashua_token_expired (w : world) :
  match tu_token (w_opts w) with
  | Some t => (expire t - w_clock w < 60)%Q
  | None => True
  end ->
  Tss.get_tushuashua_token w = (Ret "", w).
Proof.
  intros H. rewrite get_tushuashua_token_pure. unfold token_value.
  destruct (tu_token (w_opts w)) as [t|]; [|reflexivity].
  assert (L : (expire t - 60 < w_clock w)%Q) by lra.
  apply Qltb_true in L. now rewrite L.
Qed.

Lemma get_tushuashua_token_expired_witness :
  Tss.get_tushuashua_token
    (Sample.world_of
       (Sample.options_of None (Some (Sample.credential_until 1000)) false)
       950 (fun _ => Sample.unreachable))
  = (Ret "",
     Sample.world_of
       (Sample.options_of None (Some (Sample.credential_until 1000)) false)
       950 (fun _ => Sample.unreachable)).
Proof.
  apply get_tushuashua_token_expired. simpl. lra.
Defined.

(** A credential with a minute or more to go is sent, with the scheme. *)
Example get_tushuashua_token_valid :
  fst (Tss.get_tushuashua_token
         (Sample.world_of
            (Sample.options_of None (Some (Sample.credential_until 1000)) false)
            940 (fun _ => Sample.unreachable)))
  = Ret "Bearer abc".
Proof. reflexivity. Qed.

(** ** Remote or local *)

Lemma enable_value (w : world) :
  Tss.enable w =
  (Ret (py_and (default (VBool false) (xz_ext_enable (w_opts w)))
               (py_not (worker (w_opts w)))), w).
Proof. reflexivity. Qed.

Lemma enable_truthy (o : options) :
  truthy (py_and (default (VBool false) (xz_ext_enable o)) (py_not (worker o)))
  = remote_flag o && negb (is_worker o).
Proof.
  unfold py_and, py_not, remote_flag, is_worker.
  destruct (truthy (default (VBool false) (xz_ext_enable o))) eqn:E; simpl; auto.
Qed.

Section Dispatch.

Context {lib : Imaging} {ext : Ui.Scripts}.

(** C8. [enable()] returns (it cannot raise), and what it returns is true
    exactly when the remote flag is set and the worker flag is not; the
    dispatcher takes the remote strategy in that case and the local one in
    every other, so a worker always runs the preprocessor in process. *)
Theorem enable_iff_remote_and_not_worker (w : world) (fuel : nat)
    (image : canvas ndarray) (module pres pthr_a pthr_b t2i_w t2i_h pp rm : pyval) :
  (exists v, Tss.enable w = (Ret v, w) /\
             truthy v = remote_flag (w_opts w) && negb (is_worker (w_opts w))) /\
  Ui.run_annotator fuel (Some image) module pres pthr_a pthr_b t2i_w t2i_h pp rm w =
    (if remote_flag (w_opts w) && negb (is_worker (w_opts w))
     then Ui.run_remote fuel image module pres pthr_a pthr_b t2i_w t2i_h pp rm w
     else Ui.run_local image module pres pthr_a pthr_b t2i_w t2i_h pp rm w) /\
  (if is_worker (w_opts w)
   then Ui.run_annotator fuel (Some image) module pres pthr_a pthr_b t2i_w t2i_h pp rm w =
        Ui.run_local image module pres pthr_a pthr_b t2i_w t2i_h pp rm w
   else True).
Proof.
  assert (D : Ui.run_annotator fuel (Some image) module pres pthr_a pthr_b t2i_w t2i_h pp rm w =
    (if remote_flag (w_opts w) && negb (is_worker (w_opts w))
     then Ui.run_remote fuel image module pres pthr_a pthr_b t2i_w t2i_h pp rm w
     else Ui.run_local image module pres pthr_a pthr_b t2i_w t2i_h pp rm w)).
  { unfold Ui.run_annotator.
    rewrite (bind_run _ _ _ _ _ (enable_value w)), enable_truthy.
    now destruct (remote_flag (w_opts w) && negb (is_worker (w_opts w))). }
  split; [|split].
  - eexists. split; [apply enable_value | apply enable_truthy].
  - exact D.
  - rewrite D. destruct (is_worker (w_opts w)); [|exact I].
    now rewrite andb_false_r.
Qed.

(** C9. In the local strategy the preprocessor registered under the
    resolved module name is called once, and its [json_pose_callback]
    argument is [json_acceptor.accept] exactly when that name contains
    "openpose"; for every other name the argument is [None]. *)
Theorem json_callback_iff_openpose (w : world) (image : canvas ndarray)
    (module pres pthr_a pthr_b t2i_w t2i_h pp rm : pyval) (inpaint : bool)
    (preprocessor : Ui.preprocessor_call ndarray -> outcome (Ui.preprocessor_return ndarray)) :
  Ui.py_contains "inpaint" module = Ret inpaint ->
  Ui.preprocessors (Ui.get_module_basename module) = Some preprocessor ->
  let img :=
    Ui.local_input image inpaint
      (default (VBool false) (ignore_noninpaint_mask (w_opts w))) in
  let res :=
    if truthy pp
    then Ui.pixel_perfect_resolution img t2i_h t2i_w (Ui.resize_mode_from_value rm)
    else pres in
  let call := Ui.local_call (Ui.get_module_basename module) img res pthr_a pthr_b in
    Ui.run_local image module pres pthr_a pthr_b t2i_w t2i_h pp rm w =
      (obind (preprocessor call) (fun r =>
         Ret (Ui.local_outputs (Ui.get_module_basename module)
                (Ui.pc_json_pose_callback call) r)), w) /\
    (Ui.pc_json_pose_callback call = Some Ui.json_acceptor_accept <->
     Ui.is_openpose (Ui.get_module_basename module) = true) /\
    (Ui.pc_json_pose_callback call = None <->
     Ui.is_openpose (Ui.get_module_basename module) = false).
Proof.
  intros Hin Hp img res call.
  split; [|split].
  - unfold Ui.run_local, bind, lift, Tss.opt, ret. rewrite Hin, Hp.
    fold img res call. destruct (preprocessor call); reflexivity.
  - unfold call, Ui.local_call; cbn [Ui.pc_json_pose_callback].
    destruct (Ui.is_openpose _); split; congruence.
  - unfold call, Ui.local_call; cbn [Ui.pc_json_pose_callback].
    destruct (Ui.is_openpose _); split; congruence.
Qed.

End Dispatch.

Lemma json_callback_iff_openpose_witness :
  Ui.pc_json_pose_callback
    (Ui.local_call (lib := SampleLib.imaging) "openpose_full" "image" (VInt 512)
       (VInt 0) (VInt 0)) = Some Ui.json_acceptor_accept /\
  fst (Ui.run_local (ext := SampleLib.scripts) SampleLib.picture (VStr "canny")
         (VInt 512) (VInt 100) (VInt 200) (VInt 512) (VInt 512) (VBool false)
         (VStr "Crop and Resize")
         (Sample.world_of (Sample.options_of None None false) 0
            (fun _ => Sample.unreachable)))
  = Ret (Ui.local_outputs (ext := SampleLib.scripts) "canny" None
           {| Ui.pr_result := "image"; Ui.pr_is_image := true; Ui.pr_json := [] |}).
Proof.
  split.
  - apply (json_callback_iff_openpose (ext := SampleLib.scripts)
             (Sample.world_of (Sample.options_of None None false) 0
                (fun _ => Sample.unreachable))
             SampleLib.picture (VStr "openpose_full") (VInt 512) (VInt 0) (VInt 0)
             (VInt 512) (VInt 512) (VBool false) (VStr "Crop and Resize")
             false (SampleLib.echo ["{}"])); reflexivity.
  - destruct (json_callback_iff_openpose (ext := SampleLib.scripts)
             (Sample.world_of (Sample.options_of None None false) 0
                (fun _ => Sample.unreachable))
             SampleLib.picture (VStr "canny") (VInt 512) (VInt 100) (VInt 200)
             (VInt 512) (VInt 512) (VBool false) (VStr "Crop and Resize")
             false (SampleLib.echo []) eq_refl eq_refl) as [H _].
    rewrite H. reflexivity.
Defined.

(** ** Files *)

Lemma open_wb_cases (name : string) (w : world) :
  Tss.open_wb name w = (Ret tt, w) \/ exists e, Tss.open_wb name w = (Raise e, w).
Proof.
  unfold Tss.open_wb.
  repeat match goal with
         | |- context [if ?b then _ else _] => destruct b
         end; eauto.
Qed.

(** Writing a file either stores the content under the name or raises and
    leaves the world as it was. *)
Lemma write_file_cases (name content : string) (w : world) :
  Tss.write_file name content w
    = (Ret tt, set_files (<[name := content]> (w_files w)) w) \/
  exists e, Tss.write_file name content w = (Raise e, w).
Proof.
  unfold Tss.write_file, bind.
  destruct (open_wb_cases name w) as [-> | [e ->]]; eauto.
Qed.

(** ** Which artifact is downloaded *)

Section Artifact.

Context {lib : Imaging}.

Lemma http_log (rq : request) (w : world) :
  exists r w', http rq w = (r, w') /\
    w_log w' = (w_log w ++ [rq])%list /\ w_opts w' = w_opts w /\
    w_cache w' = w_cache w /\ w_cn_models w' = w_cn_models w.
Proof.
  unfold http. destruct (reply (w_net w (length (w_log w)))); eauto 10.
Qed.

(** C3. When the payload has a non-empty [hig_images] list, its first URL
    is the one downloaded, whatever [images] holds; when [hig_images] is
    missing or empty, it is the first URL of a non-empty [images]. *)
Theorem first_hig_image_selected (d : pydict) (w : world) (u : string) (rest : list pyval) :
  let hig := default VNone (dict_lookup (VStr "hig_images") d) in
  let images := default VNone (dict_lookup (VStr "images") d) in
  hig = VList (VStr u :: rest) \/
  (truthy hig = false /\ images = VList (VStr u :: rest)) ->
  Tss.result_images (VDict d) = Ret (VList (VStr u :: rest)) /\
  exists r w', Tss.fetch_artifact (VDict d) w = (r, w') /\
               w_log w' = (w_log w ++ [Tss.download_request u])%list.
Proof.
  intros hig images H.
  assert (R : Tss.result_images (VDict d) = Ret (VList (VStr u :: rest))).
  { change (Tss.result_images (VDict d))
      with (if truthy hig then Ret hig else Ret images).
    destruct H as [H | [F H]].
    - rewrite H. reflexivity.
    - rewrite F. now rewrite H. }
  split; [exact R|].
  unfold Tss.fetch_artifact, bind, lift. rewrite R.
  cbn [truthy getitem as_int]. rewrite seq_index_0. cbn [url_of ret].
  destruct (http_log (Tss.download_request u) w) as (r & w' & E & L & _).
  rewrite E.
  destruct r as [resp| |]; [|eauto|eauto].
  destruct (resp_ok resp); [|eauto].
  destruct (write_file_cases (path_join "tmp" (basename (url_path u)))
              (resp_content resp) w') as [-> | [e ->]];
    eexists _, _; (split; [reflexivity|]); exact L.
Qed.

End Artifact.

Lemma first_hig_image_selected_witness :
  Tss.result_images
    (VDict [(VStr "status", VInt 10);
            (VStr "hig_images", VList [VStr "https://cdn.example/hq.png"]);
            (VStr "images", VList [VStr "https://cdn.example/std.png"])])
  = Ret (VList [VStr "https://cdn.example/hq.png"]).
Proof.
  apply (first_hig_image_selected (lib := SampleLib.imaging)
           [(VStr "status", VInt 10);
            (VStr "hig_images", VList [VStr "https://cdn.example/hq.png"]);
            (VStr "images", VList [VStr "https://cdn.example/std.png"])]
           (Sample.world_of (Sample.options_of None None false) 0
              (fun _ => Sample.unreachable))
           "https://cdn.example/hq.png" []).
  left. reflexivity.
Defined.

(** With no [hig_images] the standard list is used. *)
Example images_selected_without_hig :
  Tss.result_images
    (VDict [(VStr "status", VInt 10);
            (VStr "hig_images", VList []);
            (VStr "images", VList [VStr "https://cdn.example/std.png"])])
  = Ret (VList [VStr "https://cdn.example/std.png"]).
Proof. reflexivity. Qed.

(** ** The catalog and its cache *)

Lemma http_sent (rq : request) (w : world) :
  http rq w =
  (match reply (next_exchange w) with
   | Some r => Ret r
   | None => Raise ConnectionError
   end, sent rq w).
Proof.
  unfold http, sent, next_exchange.
  destruct (reply (w_net w (length (w_log w)))); reflexivity.
Qed.



Lemma request_tss_no_data (api : string) (w : world) :
  no_data (next_exchange w) = true ->
  exists v, Tss.request_tss api w = (Ret v, sent (tss_request api w) w) /\
            truthy v = false.
Proof.
  unfold no_data. intros H. unfold Tss.request_tss.
  rewrite (bind_run _ _ _ _ _ (get_tushuashua_token_pure w)).
  unfold bind. rewrite http_sent. fold (tss_request api w).
  destruct (reply (next_exchange w)) as [r|]; [|discriminate].
  destruct (resp_ok r); [|exists VNone; split; reflexivity].
  unfold resp_json, Tss.code_is_200, bind, lift, ret.
  destruct (resp_body r) as [j|]; [|discriminate].
  destruct (getitem j (VStr "code")) as [c| |]; try discriminate.
  destruct (scalar_eq c (VInt 200)); [|exists VNone; split; reflexivity].
  destruct (getitem j (VStr "data")) as [v| |]; try discriminate.
  exists v. split; [reflexivity|]. now apply negb_true_iff.
Qed.

(** Whatever [request_tss] does, it leaves the caches alone. *)
Lemma request_tss_frame (api : string) (w : world) :
  exists r, Tss.request_tss api w = (r, sent (tss_request api w) w).
Proof.
  unfold Tss.request_tss.
  rewrite (bind_run _ _ _ _ _ (get_tushuashua_token_pure w)).
  unfold bind. rewrite http_sent. fold (tss_request api w).
  destruct (reply (next_exchange w)) as [r|]; [|eauto].
  destruct (resp_ok r); [|eexists; reflexivity].
  unfold resp_json, Tss.code_is_200, bind, lift, ret.
  destruct (resp_body r) as [j|]; [|eauto].
  destruct (getitem j (VStr "code")) as [c| |]; eauto.
  destruct (scalar_eq c (VInt 200)); [|eexists; reflexivity].
  eexists; reflexivity.
Qed.

(** A call that brought no data answers from the cache, and raises when
    the cache has nothing for the category. *)
Lemma fetch_or_cached_no_data (api key : string) (w : world) :
  no_data (next_exchange w) = true ->
  Tss.fetch_or_cached api key w =
  (match w_cache w !! key with
   | Some data =>
       if truthy data then Ret data else Raise (PyException "request tss failed")
   | None => Raise (PyException "request tss failed")
   end, sent (tss_request api w) w).
Proof.
  intros H. destruct (request_tss_no_data api w H) as (v & E & F).
  unfold Tss.fetch_or_cached, bind. rewrite E, F. cbn [negb].
  unfold cache_get. unfold sent at 1 2. cbn [w_cache set_clock set_log].
  destruct (w_cache w !! key) as [data|]; cbn [default from_option id truthy negb].
  - destruct (truthy data); reflexivity.
  - reflexivity.
Qed.

(** What a successful fetch leaves in the cache is the payload it returned. *)
Lemma fetch_or_cached_cached (api key : string) (w w' : world) (data : pyval) :
  Tss.fetch_or_cached api key w = (Ret data, w') ->
  w_cache w' !! key = Some data /\ truthy data = true /\
  w_cn_models w' = w_cn_models w /\ w_opts w' = w_opts w.
Proof.
  unfold Tss.fetch_or_cached, bind.
  destruct (request_tss_frame api w) as (r & E). rewrite E.
  destruct r as [v| |]; [|discriminate|discriminate].
  destruct (truthy v) eqn:T; cbn [negb].
  - unfold cache_set, ret. cbn [w_cache set_cache]. rewrite T. cbn [negb].
    intros [= <- <-]. cbn [w_cache set_cache w_cn_models w_opts].
    rewrite lookup_insert_eq. auto.
  - unfold cache_get, ret. unfold sent at 1 2. cbn [w_cache set_clock set_log].
    destruct (w_cache w !! key) as [c|] eqn:C; cbn [default from_option id].
    + destruct (truthy c) eqn:Tc; cbn [negb]; [|discriminate].
      intros [= <- <-]. cbn. auto.
    + cbn. discriminate.
Qed.

Lemma request_models_unfold (w : world) :
  Tss.request_models w =
  (obind (fst (Tss.fetch_or_cached (models_api w) "models" w)) Tss.models_of,
   snd (Tss.fetch_or_cached (models_api w) "models" w)).
Proof.
  unfold Tss.request_models, bind, Tss.opt, lift. fold (models_api w).
  destruct (Tss.fetch_or_cached (models_api w) "models" w) as [[data| |] w'];
    reflexivity.
Qed.

Lemma request_mudules_unfold (w : world) :
  Tss.request_mudules w =
  (obind (fst (Tss.fetch_or_cached (mudules_api w) "mudules" w)) Tss.mudules_of,
   snd (Tss.fetch_or_cached (mudules_api w) "mudules" w)).
Proof.
  unfold Tss.request_mudules, bind, Tss.opt, lift. fold (mudules_api w).
  destruct (Tss.fetch_or_cached (mudules_api w) "mudules" w) as [[data| |] w'];
    reflexivity.
Qed.

(** A successful [request_models] leaves the payload it derived its value
    from in the cache. *)
Lemma request_models_cached (w w' : world) (d : pydict) :
  Tss.request_models w = (Ret d, w') ->
  exists data, w_cache w' !! "models" = Some data /\ truthy data = true /\
               Tss.models_of data = Ret d /\
               w_cn_models w' = w_cn_models w /\ w_opts w' = w_opts w.
Proof.
  rewrite request_models_unfold.
  destruct (Tss.fetch_or_cached (models_api w) "models" w) as [r w1] eqn:E.
  cbn [fst snd]. destruct r as [data| |]; cbn [obind]; try discriminate.
  intros [= M <-]. exists data.
  destruct (fetch_or_cached_cached _ _ _ _ _ E) as (C & T & N & O). auto.
Qed.




(** The preprocessor names are served from the cache in the same way. *)
Example request_mudules_falls_back :
  fst (Tss.request_mudules
         (snd (Tss.request_mudules
                 (SampleCatalog.then_http_error SampleCatalog.preprocessors_feed))))
  = Ret [VStr "None"; VStr "canny"].
Proof. reflexivity. Qed.


(** ** The model mapping *)

Lemma wu_not_None : Tss.wu <> "None".
Proof. discriminate. Qed.

(** The mapping [request_models] derives from a payload is some mapping
    without the "empty selection" key, with ["None"] set to [None]. *)
Lemma models_of_shape (data : pyval) (d : pydict) :
  Tss.models_of data = Ret d ->
  exists raw, dict_lookup (VStr Tss.wu) raw = None /\
              d = dict_setitem (VStr "None") VNone raw.
Proof.
  unfold Tss.models_of.
  destruct (Tss.category_items data "4") as [items| |]; cbn [obind]; try discriminate.
  destruct (Tss.dict_of_items [] items) as [d0| |]; cbn [obind]; try discriminate.
  intros [= <-].
  unfold dict_mem. destruct (dict_lookup (VStr Tss.wu) d0) eqn:E.
  - exists (dict_delitem (VStr Tss.wu) d0). split; [apply dict_lookup_delitem | reflexivity].
  - exists d0. split; [exact E | reflexivity].
Qed.

Lemma dict_mem_setitem_str (s : string) (k v : pyval) (d : pydict) :
  dict_mem (VStr s) (dict_setitem k v d) = scalar_eq (VStr s) k || dict_mem (VStr s) d.
Proof.
  unfold dict_mem.
  induction d as [|[k' v'] d IH]; cbn [dict_lookup dict_setitem].
  - destruct (scalar_eq (VStr s) k); reflexivity.
  - destruct (scalar_eq k k') eqn:E; cbn [dict_lookup].
    + destruct (scalar_eq (VStr s) k') eqn:F.
      * now rewrite orb_true_r.
      * destruct (scalar_eq (VStr s) k) eqn:G; [|reflexivity].
        apply scalar_eq_str_l in G. subst k. congruence.
    + destruct (scalar_eq (VStr s) k'); [now rewrite orb_true_r | exact IH].
Qed.

(** The mapping built from the feed has a key exactly when an item is
    displayed under it. *)
Lemma dict_of_items_mem (s : string) (items : list pyval) :
  forall acc raw,
    Tss.dict_of_items acc items = Ret raw ->
    dict_mem (VStr s) raw = dict_mem (VStr s) acc || existsb (displayed_as s) items.
Proof.
  induction items as [|item items IH]; intros acc raw; cbn [Tss.dict_of_items existsb].
  - intros [= <-]. now rewrite orb_false_r.
  - unfold displayed_as at 1.
    destruct (getitem item (VStr "display_value")) as [k| |]; cbn [obind]; try discriminate.
    destruct (getitem item (VStr "real_value")) as [v| |]; cbn [obind]; try discriminate.
    destruct (hashable k); [|discriminate].
    intros E. rewrite (IH _ _ E), dict_mem_setitem_str.
    rewrite orb_assoc. f_equal. apply orb_comm.
Qed.

Lemma dict_lookup_delitem_other (a b : string) (d : pydict) :
  a <> b -> dict_lookup (VStr a) (dict_delitem (VStr b) d) = dict_lookup (VStr a) d.
Proof.
  intros Hab. apply String.eqb_neq in Hab. unfold dict_delitem.
  induction d as [|[k' v'] d IH]; cbn [List.filter fst dict_lookup]; [reflexivity|].
  destruct (scalar_eq (VStr b) k') eqn:E; cbn [negb dict_lookup].
  - apply scalar_eq_str_l in E. subst k'.
    change (scalar_eq (VStr a) (VStr b)) with (String.eqb a b). now rewrite Hab.
  - destruct (scalar_eq (VStr a) k'); [reflexivity | exact IH].
Qed.

Lemma without_wu_lookup (a : string) (raw : pydict) :
  a <> Tss.wu -> dict_lookup (VStr a) (without_wu raw) = dict_lookup (VStr a) raw.
Proof.
  intros H. unfold without_wu. destruct (dict_mem (VStr Tss.wu) raw); [|reflexivity].
  now apply dict_lookup_delitem_other.
Qed.

Lemma without_wu_has_no_wu (raw : pydict) :
  dict_lookup (VStr Tss.wu) (without_wu raw) = None.
Proof.
  unfold without_wu, dict_mem.
  destruct (dict_lookup (VStr Tss.wu) raw) eqn:E; [apply dict_lookup_delitem | exact E].
Qed.

(** Setting a key that is there replaces the value of its entry, where
    the entry is. *)
Lemma dict_setitem_in_place (s : string) (v : pyval) (d : pydict) :
  dict_mem (VStr s) d = true ->
  exists i v0,
    d !! i = Some (VStr s, v0) /\
    dict_setitem (VStr s) v d = <[i := (VStr s, v)]> d.
Proof.
  unfold dict_mem.
  induction d as [|[k' v'] d IH]; cbn [dict_lookup dict_setitem]; [discriminate|].
  destruct (scalar_eq (VStr s) k') eqn:E.
  - intros _. apply scalar_eq_str_l in E. subst k'. exists 0%nat, v'. split; reflexivity.
  - intros H. destruct (IH H) as (i & v0 & L & E'). exists (Datatypes.S i), v0.
    split; [exact L|]. cbn [list_insert]. now rewrite E'.
Qed.

(** C5, as the code has it.  The mapping a successful [request_models]
    returns has the key ["None"] with the null value and does not have the
    "empty selection" key.  It is built from the payload the call leaves in
    the cache: the mapping of the feed's items, without the "empty
    selection" key, with ["None"] set.  The ["None"] entry is the last one
    when no item of the feed is displayed as "None"; when one is, the
    entry stays at the position that item's entry has, and only its value
    is replaced. *)
Theorem request_models_none_entry (w w' : world) (d : pydict) :
  Tss.request_models w = (Ret d, w') ->
  dict_lookup (VStr "None") d = Some VNone /\
  dict_lookup (VStr Tss.wu) d = None /\
  exists data items raw,
    w_cache w' !! "models" = Some data /\
    Tss.category_items data "4" = Ret items /\
    Tss.dict_of_items [] items = Ret raw /\
    (existsb (displayed_as "None") items = false ->
     d = (without_wu raw ++ [(VStr "None", VNone)])%list) /\
    (existsb (displayed_as "None") items = true ->
     exists i v0,
       without_wu raw !! i = Some (VStr "None", v0) /\
       d = <[i := (VStr "None", VNone)]> (without_wu raw)).
Proof.
  intros S. destruct (request_models_cached _ _ _ S) as (data & C & _ & Md & _).
  unfold Tss.models_of in Md.
  destruct (Tss.category_items data "4") as [items| |] eqn:I; cbn [obind] in Md;
    try discriminate.
  destruct (Tss.dict_of_items [] items) as [raw| |] eqn:R; cbn [obind] in Md;
    try discriminate.
  fold (without_wu raw) in Md. cbn [dict_update fold_left] in Md.
  injection Md as <-.
  split; [apply dict_lookup_setitem_str|]. split.
  - rewrite dict_lookup_setitem_other; [apply without_wu_has_no_wu | apply wu_not_None].
  - exists data, items, raw. split; [exact C|]. split; [exact I|]. split; [exact R|].
    assert (M : dict_mem (VStr "None") (without_wu raw)
                = existsb (displayed_as "None") items).
    { unfold dict_mem. rewrite without_wu_lookup by (intros E; symmetry in E; revert E; apply wu_not_None).
      exact (dict_of_items_mem "None" items [] raw R). }
    split.
    + intros N. apply dict_setitem_fresh. rewrite N in M. unfold dict_mem in M.
      destruct (dict_lookup (VStr "None") (without_wu raw)); [discriminate | reflexivity].
    + intros N. rewrite N in M. exact (dict_setitem_in_place "None" VNone _ M).
Qed.

Lemma request_models_none_entry_witness :
  dict_lookup (VStr "None")
    [(VStr "control_canny", VStr "control_canny [a1b2]"); (VStr "None", VNone)]
  = Some VNone.
Proof.
  apply (request_models_none_entry
           (SampleCatalog.then_http_error SampleCatalog.feed)
           (snd (Tss.request_models (SampleCatalog.then_http_error SampleCatalog.feed)))
           [(VStr "control_canny", VStr "control_canny [a1b2]"); (VStr "None", VNone)]).
  reflexivity.
Defined.

(** C5 as the claim has it fails in one point: the ["None"] entry is not
    always the last one.  A feed that lists an entry displayed as "None"
    keeps that entry's place. *)
Lemma none_entry_not_always_last :
  exists d,
    fst (Tss.request_models (SampleCatalog.then_http_error SampleCatalog.feed_with_none))
      = Ret d /\
    dict_lookup (VStr "None") d = Some VNone /\
    List.last d (VNone, VNone) <> (VStr "None", VNone).
Proof.
  exists [(VStr "None", VNone); (VStr "control_canny", VStr "control_canny [a1b2]")].
  split; [reflexivity|]. split; [reflexivity|]. discriminate.
Qed.

(** *** Its keys are distinct *)

Lemma existsb_setitem (P : pyval -> bool) (k v : pyval) (d : pydict) :
  existsb (fun kv => P (fst kv)) (dict_setitem k v d) = true ->
  existsb (fun kv => P (fst kv)) d = true \/ P k = true.
Proof.
  induction d as [|[k' v'] d IH]; cbn [dict_setitem existsb fst].
  - rewrite orb_false_r. auto.
  - destruct (scalar_eq k k'); cbn [existsb fst]; [auto|].
    destruct (P k'); cbn [orb]; auto.
Qed.

Lemma existsb_filter {A} (P p : A -> bool) (l : list A) :
  existsb P (List.filter p l) = true -> existsb P l = true.
Proof.
  induction l as [|x l IH]; cbn [List.filter existsb]; [auto|].
  destruct (p x); cbn [existsb].
  - destruct (P x); cbn [orb]; auto.
  - intros H. rewrite (IH H). apply orb_true_r.
Qed.

Lemma dict_wf_setitem (k v : pyval) (d : pydict) :
  dict_wf d = true -> dict_wf (dict_setitem k v d) = true.
Proof.
  induction d as [|[k' v'] d IH]; cbn [dict_setitem dict_wf]; [reflexivity|].
  intros H. apply andb_true_iff in H. destruct H as [N W].
  destruct (scalar_eq k k') eqn:E; cbn [dict_wf].
  - now rewrite N, W.
  - rewrite (IH W), andb_true_r. apply negb_true_iff.
    destruct (existsb (fun kv => scalar_eq (fst kv) k') (dict_setitem k v d)) eqn:X;
      [|reflexivity].
    apply (existsb_setitem (fun x => scalar_eq x k')) in X.
    destruct X as [X | X]; [|congruence].
    apply negb_true_iff in N. congruence.
Qed.

Lemma dict_wf_delitem (k : pyval) (d : pydict) :
  dict_wf d = true -> dict_wf (dict_delitem k d) = true.
Proof.
  unfold dict_delitem.
  induction d as [|[k' v'] d IH]; cbn [List.filter dict_wf fst]; [reflexivity|].
  intros H. apply andb_true_iff in H. destruct H as [N W].
  destruct (negb (scalar_eq k k')); cbn [dict_wf]; [|auto].
  rewrite (IH W), andb_true_r. apply negb_true_iff.
  destruct (existsb _ (List.filter _ d)) eqn:X; [|reflexivity].
  apply existsb_filter in X. apply negb_true_iff in N. congruence.
Qed.

Lemma dict_of_items_wf (items : list pyval) (acc d : pydict) :
  dict_wf acc = true -> Tss.dict_of_items acc items = Ret d -> dict_wf d = true.
Proof.
  revert acc. induction items as [|item items IH]; intros acc W; cbn [Tss.dict_of_items].
  - now intros [= <-].
  - destruct (getitem item (VStr "display_value")) as [k| |]; cbn [obind]; try discriminate.
    destruct (getitem item (VStr "real_value")) as [v| |]; cbn [obind]; try discriminate.
    destruct (hashable k); [|discriminate].
    apply IH. now apply dict_wf_setitem.
Qed.

Lemma models_of_wf (data : pyval) (d : pydict) :
  Tss.models_of data = Ret d -> dict_wf d = true.
Proof.
  unfold Tss.models_of.
  destruct (Tss.category_items data "4") as [items| |]; cbn [obind]; try discriminate.
  destruct (Tss.dict_of_items [] items) as [d0| |] eqn:E; cbn [obind]; try discriminate.
  intros [= <-]. cbn [dict_update fold_left fst snd].
  apply dict_wf_setitem.
  pose proof (dict_of_items_wf items [] d0 eq_refl E) as W.
  destruct (dict_mem (VStr Tss.wu) d0); [now apply dict_wf_delitem | exact W].
Qed.

Lemma dict_wf_lookup_fresh (acc r : pydict) (k v : pyval) :
  dict_wf (acc ++ (k, v) :: r)%list = true -> dict_lookup k acc = None.
Proof.
  induction acc as [|[k0 v0] acc IH]; cbn [app dict_wf dict_lookup]; [reflexivity|].
  intros H. apply andb_true_iff in H. destruct H as [N W].
  apply negb_true_iff in N. rewrite existsb_app in N.
  apply orb_false_iff in N. destruct N as [_ N].
  cbn [existsb fst] in N. apply orb_false_iff in N. destruct N as [N _].
  rewrite N. now apply IH.
Qed.

(** Updating a dict from a dict with distinct keys appends it. *)
Lemma dict_update_fresh (src acc : pydict) :
  dict_wf (acc ++ src)%list = true -> dict_update src acc = (acc ++ src)%list.
Proof.
  unfold dict_update. revert acc.
  induction src as [|[k v] src IH]; intros acc W; cbn [fold_left fst snd].
  - now rewrite app_nil_r.
  - rewrite (dict_setitem_fresh _ _ _ (dict_wf_lookup_fresh _ _ _ _ W)).
    rewrite IH; rewrite <- app_assoc; [reflexivity | exact W].
Qed.

(** ** Refreshing the model dropdown *)

Section Refresh.

Context {lib : Imaging} {ext : Ui.Scripts}.

(** C10. On the remote path and on the local path alike, once the
    refreshed mapping has been obtained the handler returns a dropdown
    update whose value is the previous selection if that is a key of the
    refreshed mapping and "None" if not, and whose choices are the keys of
    the refreshed mapping, which is what [cn_models] then holds. *)
Theorem refresh_all_models_selection (dd : pyval) (w : world) :
  hashable dd = true ->
  (remote_flag (w_opts w) && negb (is_worker (w_opts w)) = true ->
   forall models w1,
     Tss.request_models (set_cn_models [] w) = (Ret models, w1) ->
     Ui.refresh_all_models dd w =
       (Ret (Ui.dropdown_update (if dict_mem dd models then dd else VStr "None")
               (dict_keys models)),
        set_cn_models models w1)) /\
  (remote_flag (w_opts w) && negb (is_worker (w_opts w)) = false ->
   forall w1,
     Ui.update_cn_models w = (Ret tt, w1) ->
     Ui.refresh_all_models dd w =
       (Ret (Ui.dropdown_update
               (if dict_mem dd (w_cn_models w1) then dd else VStr "None")
               (dict_keys (w_cn_models w1))),
        w1)).
Proof.
  intros Hh. split.
  - intros On models w1 S.
    unfold Ui.refresh_all_models.
    rewrite (bind_run _ _ _ _ _ (enable_value w)), enable_truthy, On.
    unfold bind, Tss.cn_models_clear. rewrite S.
    destruct (request_models_cached _ _ _ S) as (data & _ & _ & Md & N & _).
    unfold Tss.cn_models_update, lift, py_in_dict, Tss.cn_models, ret.
    rewrite Hh, N. cbn [w_cn_models set_cn_models].
    rewrite (dict_update_fresh models []); [reflexivity|].
    exact (models_of_wf _ _ Md).
  - intros Off w1 U.
    unfold Ui.refresh_all_models.
    rewrite (bind_run _ _ _ _ _ (enable_value w)), enable_truthy, Off.
    unfold bind. rewrite U.
    unfold Tss.cn_models, lift, py_in_dict, ret. rewrite Hh. reflexivity.
Qed.

End Refresh.

Lemma refresh_all_models_selection_witness :
  fst (Ui.refresh_all_models (ext := SampleLib.scripts) (VStr "control_canny")
         (SampleCatalog.then_http_error SampleCatalog.feed))
    = Ret (Ui.dropdown_update (lib := SampleLib.imaging) (VStr "control_canny")
             [VStr "control_canny"; VStr "None"]) /\
  fst (Ui.refresh_all_models (ext := SampleLib.scripts) (VStr "control_depth")
         (Sample.world_of (Sample.options_of None None false) 0
            (fun _ => Sample.unreachable)))
    = Ret (Ui.dropdown_update (lib := SampleLib.imaging) (VStr "None")
             [VStr "None"; VStr "control_canny"]).
Proof.
  split.
  - destruct (refresh_all_models_selection (ext := SampleLib.scripts)
                (VStr "control_canny")
                (SampleCatalog.then_http_error SampleCatalog.feed) eq_refl) as [R _].
    rewrite (R eq_refl _ _ eq_refl). reflexivity.
  - destruct (refresh_all_models_selection (ext := SampleLib.scripts)
                (VStr "control_depth")
                (Sample.world_of (Sample.options_of None None false) 0
                   (fun _ => Sample.unreachable)) eq_refl) as [_ L].
    rewrite (L eq_refl _ eq_refl). reflexivity.
Defined.

(** ** Uploads *)

Lemma next_exchange_sent (rq : request) (w : world) :
  next_exchange (sent rq w) = w_net w (S (length (w_log w))).
Proof.
  unfold next_exchange, sent. cbn [w_net w_log set_clock set_log].
  now rewrite length_app, Nat.add_1_r.
Qed.

Lemma append_eqb_same (h a b : string) :
  String.eqb (h ++ a) (h ++ b) = String.eqb a b.
Proof.
  induction h as [|c h IH]; simpl; [reflexivity|].
  now rewrite Ascii.eqb_refl.
Qed.

Lemma getitem_terminates (x k : pyval) : getitem x k <> OutOfFuel.
Proof.
  destruct x; cbn [getitem]; try discriminate.
  - destruct (as_int k); [|discriminate]. destruct (seq_index _ _); discriminate.
  - destruct (as_int k); [|discriminate]. destruct (seq_index _ _); discriminate.
  - destruct (hashable k); [|discriminate]. destruct (dict_lookup k d); discriminate.
Qed.

Lemma submit_is_no_upload_request (host auth : string) (data : pyval) :
  is_upload_request host (Tss.submit_request host auth data) = false.
Proof.
  unfold is_upload_request, Tss.submit_request. cbn [rq_method rq_url].
  now rewrite append_eqb_same.
Qed.

Section Upload.

Context {lib : Imaging}.

(** What an upload does to the world, and what it returns when a phase
    fails: [None] or an exception, never a storage key. *)
Lemma upload_image_data_spec (image_data : Image) (persistent : bool) (w : world) :
  exists r w' l,
    Tss.upload_image_data image_data persistent w = (r, w') /\
    w_log w' = (w_log w ++ l)%list /\
    forallb (is_upload_request (HOST (w_opts w))) l = true /\
    w_opts w' = w_opts w /\ w_net w' = w_net w /\
    r <> OutOfFuel /\
    (upload_fails w = true -> r = Ret VNone \/ exists e, r = Raise e).
Proof.
  unfold Tss.upload_image_data, bind, uuid4, Tss.opt, Tss.headers.
  rewrite get_tushuashua_token_pure, http_sent.
  set (wa := set_uuid_drawn _ w).
  set (rq1 := Build_request POST _ _ _ _).
  assert (U1 : is_upload_request (HOST (w_opts w)) rq1 = true).
  { unfold is_upload_request, rq1. cbn [rq_method rq_url]. apply String.eqb_refl. }
  assert (L1 : w_log (sent rq1 wa) = (w_log w ++ [rq1])%list) by reflexivity.
  change (next_exchange wa) with (next_exchange w).
  unfold upload_fails, registration.
  destruct (reply (next_exchange w)) as [r1|].
  2:{ exists (Raise ConnectionError), (sent rq1 wa), [rq1].
      cbn [forallb]. rewrite U1. repeat split; eauto; discriminate. }
  destruct (resp_ok r1).
  2:{ exists (Ret VNone), (sent rq1 wa), [rq1].
      cbn [forallb]. rewrite U1. repeat split; eauto; discriminate. }
  unfold resp_json, Tss.code_is_200, bind, lift, ret.
  destruct (resp_body r1) as [j|].
  2:{ exists (Raise JSONDecodeError), (sent rq1 wa), [rq1].
      cbn [forallb]. rewrite U1. repeat split; eauto; discriminate. }
  destruct (getitem j (VStr "code")) as [c|e|] eqn:C.
  2:{ exists (Raise e), (sent rq1 wa), [rq1].
      cbn [forallb]. rewrite U1. repeat split; eauto; discriminate. }
  2:{ exfalso. exact (getitem_terminates _ _ C). }
  destruct (scalar_eq c (VInt 200)).
  2:{ exists (Ret VNone), (sent rq1 wa), [rq1].
      cbn [forallb]. rewrite U1. repeat split; eauto; discriminate. }
  destruct (getitem j (VStr "data")) as [d|e|] eqn:D.
  2:{ exists (Raise e), (sent rq1 wa), [rq1].
      cbn [forallb]. rewrite U1. repeat split; eauto; discriminate. }
  2:{ exfalso. exact (getitem_terminates _ _ D). }
  destruct (getitem d (VStr "url")) as [u|e|] eqn:Eu.
  2:{ exists (Raise e), (sent rq1 wa), [rq1].
      cbn [forallb]. rewrite U1. repeat split; eauto; discriminate. }
  2:{ exfalso. exact (getitem_terminates _ _ Eu). }
  assert (NU : forall e : exn,
             exists (r : outcome pyval) (w' : world) (l : list request),
               (Raise e, sent rq1 wa) = (r, w') /\
               w_log w' = (w_log w ++ l)%list /\
               forallb (is_upload_request (HOST (w_opts w))) l = true /\
               w_opts w' = w_opts w /\ w_net w' = w_net w /\ r <> OutOfFuel /\
               (negb (put_ok (w_net w (S (length (w_log w))))) = true ->
                r = Ret VNone \/ (exists e0, r = Raise e0))).
  { intros e. exists (Raise e), (sent rq1 wa), [rq1].
    cbn [forallb]. rewrite U1. repeat split; eauto; discriminate. }
  destruct u as [| | | |url| |]; cbn [url_of raise ret]; try apply NU.
  rewrite http_sent, next_exchange_sent.
  set (rq2 := Build_request PUT _ _ _ _).
  change (w_net wa) with (w_net w). change (w_log wa) with (w_log w).
  assert (L2 : w_log (sent rq2 (sent rq1 wa)) = (w_log w ++ [rq1; rq2])%list).
  { cbn [sent w_log set_clock set_log]. change (w_log wa) with (w_log w).
    now rewrite <- app_assoc. }
  unfold put_ok.
  destruct (reply (w_net w (S (length (w_log w))))) as [r2|].
  2:{ exists (Raise ConnectionError), (sent rq2 (sent rq1 wa)), [rq1; rq2].
      cbn [forallb]. rewrite U1. repeat split; eauto; discriminate. }
  destruct (resp_ok r2).
  2:{ exists (Ret VNone), (sent rq2 (sent rq1 wa)), [rq1; rq2].
      cbn [forallb]. rewrite U1. repeat split; eauto; discriminate. }
  exists (getitem d (VStr "oss_key")), (sent rq2 (sent rq1 wa)), [rq1; rq2].
  cbn [forallb]. rewrite U1. repeat split; eauto; try discriminate.
  apply getitem_terminates.
Qed.

(** C7. When a phase of the image upload or of the mask upload fails, that
    upload yields no storage key ([None], or an exception leaves it), and
    [run_annotator] ends in an exception having sent nothing but upload
    requests: the job descriptor is not submitted. *)
Theorem failed_upload_submits_nothing (fuel : nat) (image : canvas ndarray)
    (module pres pthr_a pthr_b t2i_w t2i_h pp rm : pyval) (w : world) :
  let up1 := Tss.upload_image_data (fromarray (cv_image image)) false w in
  let up2 := Tss.upload_image_data (fromarray (cv_mask image)) false (snd up1) in
  upload_fails w = true \/
  (exists key, fst up1 = Ret key /\ upload_fails (snd up1) = true) ->
  (upload_fails w = true -> fst up1 = Ret VNone \/ exists e, fst up1 = Raise e) /\
  (upload_fails (snd up1) = true ->
   fst up2 = Ret VNone \/ exists e, fst up2 = Raise e) /\
  exists e w' l,
    Tss.run_annotator fuel image module pres pthr_a pthr_b t2i_w t2i_h pp rm w
      = (Raise e, w') /\
    w_log w' = (w_log w ++ l)%list /\
    forall auth data, ~ In (Tss.submit_request (HOST (w_opts w)) auth data) l.
Proof.
  intros up1 up2 H.
  destruct (upload_image_data_spec (fromarray (cv_image image)) false w)
    as (r1 & w1 & l1 & E1 & L1 & U1 & O1 & N1 & F1 & K1).
  assert (Eup1 : up1 = (r1, w1)) by exact E1.
  destruct (upload_image_data_spec (fromarray (cv_mask image)) false w1)
    as (r2 & w2 & l2 & E2 & L2 & U2 & O2 & N2 & F2 & K2).
  assert (Eup2 : up2 = (r2, w2)) by (unfold up2; rewrite Eup1; exact E2).
  rewrite Eup1, Eup2 in *. cbn [fst snd] in *.
  split; [exact K1|]. split; [exact K2|].
  assert (S1 : forall auth data,
             ~ In (Tss.submit_request (HOST (w_opts w)) auth data) l1).
  { intros auth data I. rewrite forallb_forall in U1. apply U1 in I.
    rewrite submit_is_no_upload_request in I. discriminate. }
  assert (S2 : forall auth data,
             ~ In (Tss.submit_request (HOST (w_opts w)) auth data) (l1 ++ l2)%list).
  { intros auth data I. apply in_app_or in I. destruct I as [I | I].
    - exact (S1 _ _ I).
    - rewrite O1, forallb_forall in U2. apply U2 in I.
      rewrite submit_is_no_upload_request in I. discriminate. }
  assert (L12 : w_log w2 = (w_log w ++ (l1 ++ l2))%list).
  { rewrite L2, L1. now rewrite <- app_assoc. }
  unfold Tss.run_annotator, bind. rewrite E1.
  destruct r1 as [k1|e1|]; [|exists e1, w1, l1; auto|congruence].
  rewrite E2.
  destruct r2 as [k2|e2|]; [|exists e2, w2, (l1 ++ l2)%list; auto|congruence].
  assert (T : negb (truthy k1) || negb (truthy k2) = true).
  { destruct H as [H | (key & _ & H)].
    - destruct (K1 H) as [[= ->] | [e [=]]]. reflexivity.
    - destruct (K2 H) as [[= ->] | [e [=]]]. apply orb_true_r. }
  rewrite T. exists (PyException "upload image file failed"), w2, (l1 ++ l2)%list.
  auto.
Qed.

End Upload.

Lemma failed_upload_submits_nothing_witness :
  exists e,
    fst (Tss.run_annotator (lib := SampleLib.imaging) 150 SampleLib.picture
           (VStr "canny") (VInt 512) (VInt 100) (VInt 200) (VInt 512) (VInt 512)
           (VBool false) (VStr "Crop and Resize") SampleUpload.mask_put_refused)
    = Raise e.
Proof.
  destruct (failed_upload_submits_nothing (lib := SampleLib.imaging) 150
              SampleLib.picture
              (VStr "canny") (VInt 512) (VInt 100) (VInt 200) (VInt 512) (VInt 512)
              (VBool false) (VStr "Crop and Resize") SampleUpload.mask_put_refused)
    as (_ & _ & e & w' & l & E & _).
  - right. exists (VStr "a.png"). split; reflexivity.
  - exists e. now rewrite E.
Defined.

(** The exception is the one [run_annotator] raises itself when an upload
    came back without a key. *)
Example mask_put_refused_raises :
  fst (Tss.run_annotator (lib := SampleLib.imaging) 150 SampleLib.picture
         (VStr "canny") (VInt 512) (VInt 100) (VInt 200) (VInt 512) (VInt 512)
         (VBool false) (VStr "Crop and Resize") SampleUpload.mask_put_refused)
  = Raise (PyException "upload image file failed").
Proof. reflexivity. Qed.

(** ** Polling *)

Section Poll.

Context {lib : Imaging}.

Lemma next_exchange_slept (t : Q) (w : world) :
  next_exchange (set_clock t w) = next_exchange w.
Proof. reflexivity. Qed.

(** A poll that is answered without a terminal status makes the loop go
    round again. *)
Lemma waite_loop_continues (fuel : nat) (task_id : pyval) (start timeout : Q) (w : world) :
  Qltb (w_clock w - start) timeout = true ->
  pending (next_exchange w) = true ->
  Tss.waite_loop (S fuel) task_id start timeout w =
  Tss.waite_loop fuel task_id start timeout (polled task_id w).
Proof.
  intros T P. cbn [Tss.waite_loop]. unfold bind at 1. unfold time_time at 1.
  rewrite T. unfold bind at 1. unfold time_sleep at 1.
  unfold bind at 1. unfold Tss.opt at 1.
  unfold bind at 1. unfold Tss.headers. rewrite get_tushuashua_token_pure.
  unfold bind at 1. rewrite http_sent, next_exchange_slept.
  cbn [w_opts set_clock]. fold (polled task_id w).
  unfold pending, terminal in P.
  destruct (reply (next_exchange w)) as [r|]; [|discriminate].
  destruct (resp_ok r); [|reflexivity].
  unfold resp_json, Tss.code_is_200, bind, lift, ret.
  destruct (resp_body r) as [j|]; [|discriminate].
  destruct (getitem j (VStr "code")) as [c| |]; try discriminate.
  destruct (scalar_eq c (VInt 200)); [|reflexivity].
  destruct (getitem j (VStr "data")) as [d| |]; try discriminate.
  destruct (getitem d (VStr "status")) as [s| |]; try discriminate.
  apply negb_true_iff in P. now rewrite P.
Qed.

(** A poll in which requests raises ends the loop with that exception. *)
Lemma waite_loop_raises (fuel : nat) (task_id : pyval) (start timeout : Q) (w : world) :
  Qltb (w_clock w - start) timeout = true ->
  reply (next_exchange w) = None ->
  Tss.waite_loop (S fuel) task_id start timeout w =
  (Raise ConnectionError, polled task_id w).
Proof.
  intros T P. cbn [Tss.waite_loop]. unfold bind at 1. unfold time_time at 1.
  rewrite T. unfold bind at 1. unfold time_sleep at 1.
  unfold bind at 1. unfold Tss.opt at 1.
  unfold bind at 1. unfold Tss.headers. rewrite get_tushuashua_token_pure.
  unfold bind at 1. rewrite http_sent, next_exchange_slept.
  cbn [w_opts set_clock]. fold (polled task_id w). now rewrite P.
Qed.

Lemma inject_nat_succ (n : nat) :
  (inject_Z (Z.of_nat (S n)) == inject_Z (Z.of_nat n) + 1)%Q.
Proof.
  rewrite Nat2Z.inj_succ. unfold Z.succ. now rewrite inject_Z_plus.
Qed.

(** [fuel] turns cover [2 * fuel] seconds: when every poll is answered
    without a terminal status and takes no negative time, the loop leaves
    through its condition. *)
Lemma waite_loop_times_out (task_id : pyval) (start timeout : Q) (fuel : nat) :
  forall w : world,
    (forall n, (length (w_log w) <= n)%nat -> pending (w_net w n) = true) ->
    (forall n, (0 <= elapsed (w_net w n))%Q) ->
    (timeout - (w_clock w - start) <= 2 * inject_Z (Z.of_nat fuel))%Q ->
    exists w', Tss.waite_loop (S fuel) task_id start timeout w = (Ret VNone, w').
Proof.
  induction fuel as [|fuel IH]; intros w P E B.
  - exists w. cbn [Tss.waite_loop]. unfold bind, time_time.
    assert (F : Qltb (w_clock w - start) timeout = false).
    { apply Qltb_false. change (inject_Z (Z.of_nat 0)) with 0%Q in B. lra. }
    now rewrite F.
  - destruct (Qltb (w_clock w - start) timeout) eqn:T.
    + rewrite (waite_loop_continues _ _ _ _ _ T (P _ (Nat.le_refl _))).
      apply IH.
      * intros n L. apply P. unfold polled, sent in L.
        cbn [w_log set_clock set_log] in L. rewrite length_app in L.
        cbn [length] in L. lia.
      * intros n. apply E.
      * unfold polled, sent. cbn [w_clock set_clock set_log w_log].
        pose proof (E (length (w_log w))) as E0.
        unfold next_exchange. cbn [w_net w_log set_clock].
        rewrite inject_nat_succ in B. lra.
    + exists w. cbn [Tss.waite_loop]. unfold bind, time_time. now rewrite T.
Qed.

(** C1, as the code has it.  When every poll from now on is answered (no
    exception from requests, a body that is an envelope) and none carries
    the status 10 or -1, [waite_task] returns [None] once the timeout has
    passed, given two seconds of fuel per turn; an answered poll without a
    terminal status makes the loop continue; and a poll in which requests
    raises ends the wait with that exception. *)
Theorem waite_task_times_out_with_none (fuel : nat) (task_id : pyval) (timeout : Q)
    (w : world) :
  (forall n, (length (w_log w) <= n)%nat -> pending (w_net w n) = true) ->
  (forall n, (0 <= elapsed (w_net w n))%Q) ->
  (timeout <= 2 * inject_Z (Z.of_nat fuel))%Q ->
  (exists w', Tss.waite_task (S fuel) task_id timeout w = (Ret VNone, w')) /\
  (forall f start w0,
     Qltb (w_clock w0 - start) timeout = true ->
     pending (next_exchange w0) = true ->
     Tss.waite_loop (S f) task_id start timeout w0 =
     Tss.waite_loop f task_id start timeout (polled task_id w0)) /\
  (forall f start w0,
     Qltb (w_clock w0 - start) timeout = true ->
     reply (next_exchange w0) = None ->
     Tss.waite_loop (S f) task_id start timeout w0 =
     (Raise ConnectionError, polled task_id w0)).
Proof.
  intros P E B. split; [|split].
  - unfold Tss.waite_task, bind, time_time.
    apply waite_loop_times_out; [exact P | exact E | lra].
  - intros f start w0. apply waite_loop_continues.
  - intros f start w0. apply waite_loop_raises.
Qed.

End Poll.

Lemma waite_task_times_out_with_none_witness :
  exists w',
    Tss.waite_task (lib := SampleLib.imaging) 151 (VStr "t-1") 300 SamplePoll.never_done
    = (Ret VNone, w').
Proof.
  apply (waite_task_times_out_with_none (lib := SampleLib.imaging) 150 (VStr "t-1") 300
           SamplePoll.never_done).
  - intros n _. reflexivity.
  - intros n. cbn. discriminate.
  - cbn. discriminate.
Defined.

(** C1 as the claim has it fails: no poll ever reports the status 10 or
    -1, and still the wait ends in an exception, at the poll that gets no
    answer within its five seconds. *)
Lemma waite_task_raises_on_transport_failure :
  (forall n s,
     polled_status (w_net SamplePoll.third_poll_times_out n) = Some s ->
     terminal s = false) /\
  fst (Tss.waite_task (lib := SampleLib.imaging) 151 (VStr "t-1") 300
         SamplePoll.third_poll_times_out)
  = Raise ConnectionError.
Proof.
  split.
  - intros [|[|n]] s; cbn; intros [= <-]; reflexivity.
  - vm_compute. reflexivity.
Qed.

(** ** The model of a model-free preprocessor *)

Section ModelFree.

Context {lib : Imaging} {ext : Ui.Scripts}.

(** The two updates [build_sliders] ends with for a model-free module:
    the model dropdown is set to "None" and hidden, the refresh button is
    hidden. *)
Lemma build_sliders_model_free (module pp : pyval) :
  existsb (String.eqb (Ui.get_module_basename module)) Ui.model_free_preprocessors = true ->
  exists grs,
    Ui.build_sliders module pp =
    (grs ++ [Ui.with_value (Ui.UVal (VStr "None")) (Ui.with_visible false Ui.gr_update);
             Ui.with_visible false Ui.gr_update])%list.
Proof.
  intros H. unfold Ui.build_sliders. rewrite H. eexists. reflexivity.
Qed.

(** C4, as the code has it.  The model is set to "None" by [build_sliders],
    the handler of the module dropdown, which is registered only in a
    group built with [gradio_compat] true: there, selecting a model-free
    module puts "None" in the model dropdown whatever it held before; in a
    group built with [gradio_compat] false no handler runs and the model
    stays as it was.  The dispatcher neither reads nor writes the model:
    [run_annotator] has no model parameter, passes none to the
    preprocessor, and leaves the model and the module of the unit as they
    were. *)
Theorem model_free_module_resets_model (module pp : pyval) :
  existsb (String.eqb (Ui.get_module_basename module)) Ui.model_free_preprocessors = true ->
  (exists grs,
     Ui.build_sliders module pp =
     (grs ++ [Ui.with_value (Ui.UVal (VStr "None")) (Ui.with_visible false Ui.gr_update);
              Ui.with_visible false Ui.gr_update])%list) /\
  (forall st st',
     Ui.select_module true module st = Ret st' ->
     Ui.st_model st' = VStr "None" /\ Ui.st_module st' = module) /\
  (forall st,
     exists st',
       Ui.select_module false module st = Ret st' /\
       Ui.st_model st' = Ui.st_model st /\ Ui.st_module st' = module) /\
  (forall fuel t2i_w t2i_h st w st' w',
     Ui.trigger_preprocessor fuel t2i_w t2i_h st w = (Ret st', w') ->
     Ui.st_model st' = Ui.st_model st /\ Ui.st_module st' = Ui.st_module st).
Proof.
  intros H. split; [now apply build_sliders_model_free|]. split.
  - intros st st'. unfold Ui.select_module, Ui.module_change.
    cbn [negb Ui.st_module Ui.st_pixel_perfect].
    destruct (build_sliders_model_free module (Ui.st_pixel_perfect st) H) as [grs ->].
    destruct grs as [|g1 [|g2 [|g3 [|g4 [|g5 grs]]]]]; cbn [app]; try discriminate.
    + intros E.
      pose proof (f_equal (fun o => match o with Ret s => Ui.st_model s | _ => VNone end) E)
        as E1.
      pose proof (f_equal (fun o => match o with Ret s => Ui.st_module s | _ => VNone end) E)
        as E2.
      cbn in E1, E2. auto.
    + destruct grs as [|g6 grs]; cbn [app]; [discriminate|].
      destruct grs; cbn [app]; discriminate.
  - split.
    { intros st. unfold Ui.select_module, Ui.module_change. cbn [negb].
      eexists. split; [reflexivity|]. split; reflexivity. }
    intros fuel t2i_w t2i_h st w st' w'. unfold Ui.trigger_preprocessor, bind.
    destruct (Ui.run_annotator _ _ _ _ _ _ _ _ _ _ w) as [[[[g p] e]| |] w1];
      try discriminate.
    unfold ret. intros E.
    pose proof (f_equal (fun o => match fst o with Ret s => Ui.st_model s | _ => VNone end) E)
      as E1.
    pose proof (f_equal (fun o => match fst o with Ret s => Ui.st_module s | _ => VNone end) E)
      as E2.
    cbn in E1, E2. auto.
Qed.

End ModelFree.

Lemma model_free_module_resets_model_witness :
  exists st',
    Ui.select_module (ext := SampleLib.scripts) true (VStr "reference_only")
      (SampleUnit.state (VStr "canny") (VStr "control_canny")) = Ret st' /\
    Ui.st_model st' = VStr "None" /\ Ui.st_module st' = VStr "reference_only".
Proof.
  destruct (model_free_module_resets_model (ext := SampleLib.scripts)
              (VStr "reference_only") (VBool false) eq_refl) as (_ & S & _).
  eexists. split; [reflexivity|].
  apply (S (SampleUnit.state (VStr "canny") (VStr "control_canny"))).
  reflexivity.
Defined.

(** Selecting the module does reset the model. *)
Example select_reference_only :
  option_map Ui.st_model
    (match Ui.select_module (ext := SampleLib.scripts) true (VStr "reference_only")
             (SampleUnit.state (VStr "canny") (VStr "control_canny")) with
     | Ret st' => Some st'
     | _ => None
     end) = Some (VStr "None").
Proof. reflexivity. Qed.

(** C4 as the claim has it fails: the local dispatch of a model-free
    module does not touch the model.  A unit whose module is model-free
    and whose model is not "None" runs the preprocessor and still has that
    model afterwards. *)
Lemma local_dispatch_leaves_model :
  existsb (String.eqb (Ui.get_module_basename (Scripts := SampleLib.scripts)
                         (VStr "reference_only")))
    (Ui.model_free_preprocessors (Scripts := SampleLib.scripts)) = true /\
  exists st',
    Ui.trigger_preprocessor (ext := SampleLib.scripts) 0 (VInt 512) (VInt 512)
      (SampleUnit.state (VStr "reference_only") (VStr "control_canny"))
      SampleUnit.local = (Ret st', SampleUnit.local) /\
    Ui.st_generated_image st' = Ui.UArr "image" /\
    Ui.st_model st' = VStr "control_canny" /\
    Ui.st_model st' <> VStr "None".
Proof.
  split; [reflexivity|]. eexists. split; [reflexivity|].
  split; [reflexivity|]. split; [reflexivity|]. discriminate.
Qed.

(** * Further properties of scripts/tss.py *)

(** ** The token *)

(** X1. A credential with a minute or more to go gives a header value
    that starts with the scheme: the token itself when it already starts
    with "Bearer", and "Bearer " followed by the token when it does not. *)
Theorem token_carries_bearer_scheme (w : world) (t : credential) :
  tu_token (w_opts w) = Some t ->
  (60 <= expire t - w_clock w)%Q ->
  exists s,
    Tss.get_tushuashua_token w = (Ret s, w) /\
    String.prefix "Bearer" s = true /\
    (String.prefix "Bearer" (token t) = true -> s = token t) /\
    (String.prefix "Bearer" (token t) = false -> s = "Bearer " ++ token t).
Proof.
  intros Ht Hv. exists (bearer t).
  assert (F : Qltb (expire t - 60) (w_clock w) = false) by (apply Qltb_false; lra).
  split.
  - rewrite get_tushuashua_token_pure. unfold token_value. now rewrite Ht, F.
  - unfold bearer. destruct (String.prefix "Bearer" (token t)) eqn:P.
    + split; [exact P|]. split; [reflexivity | discriminate].
    + split; [reflexivity|]. split; [discriminate | reflexivity].
Qed.

Lemma token_carries_bearer_scheme_witness :
  Tss.get_tushuashua_token SampleMore.valid_token = (Ret "Bearer abc", SampleMore.valid_token).
Proof.
  destruct (token_carries_bearer_scheme SampleMore.valid_token
              (Sample.credential_until 1000) eq_refl) as (s & E & _ & _ & N).
  - cbn. lra.
  - rewrite E, (N eq_refl). reflexivity.
Defined.

(** ** One catalog request *)

(** The outcomes of [request_tss]. *)
Lemma request_tss_outcome (api : string) (w : world) :
  exists r,
    Tss.request_tss api w = (r, sent (tss_request api w) w) /\
    r <> OutOfFuel /\
    (forall data, envelope_data (next_exchange w) = Some data -> r = Ret data) /\
    (forall v, r = Ret v -> v = VNone \/ envelope_data (next_exchange w) = Some v).
Proof.
  unfold Tss.request_tss, envelope_data, registration.
  rewrite (bind_run _ _ _ _ _ (get_tushuashua_token_pure w)).
  unfold bind. rewrite http_sent. fold (tss_request api w).
  destruct (reply (next_exchange w)) as [resp|].
  2:{ eexists. split; [reflexivity|]. repeat split; try discriminate. }
  destruct (resp_ok resp).
  2:{ eexists. split; [reflexivity|]. repeat split; try discriminate.
      intros v [= <-]. now left. }
  unfold resp_json, Tss.code_is_200, bind, lift, ret.
  destruct (resp_body resp) as [j|].
  2:{ eexists. split; [reflexivity|]. repeat split; try discriminate. }
  destruct (getitem j (VStr "code")) as [c|e|] eqn:C.
  2:{ eexists. split; [reflexivity|]. repeat split; try discriminate. }
  2:{ exfalso. exact (getitem_terminates _ _ C). }
  destruct (scalar_eq c (VInt 200)).
  2:{ eexists. split; [reflexivity|]. repeat split; try discriminate.
      intros v [= <-]. now left. }
  destruct (getitem j (VStr "data")) as [d|e|] eqn:D.
  - eexists. split; [reflexivity|]. repeat split; try discriminate.
    + now intros data [= <-].
    + intros v [= <-]. now right.
  - eexists. split; [reflexivity|]. repeat split; try discriminate.
  - exfalso. exact (getitem_terminates _ _ D).
Qed.

(** X2. [request_tss] sends exactly one GET, with the current token, and
    changes nothing else; it hands back the envelope's data when the
    answer passes the envelope check, and whatever value it returns is
    that data or [None]. *)
Theorem request_tss_sends_one_request (api : string) (w : world) :
  exists r,
    Tss.request_tss api w = (r, sent (tss_request api w) w) /\
    r <> OutOfFuel /\
    (forall data, envelope_data (next_exchange w) = Some data -> r = Ret data) /\
    (forall v, r = Ret v -> v = VNone \/ envelope_data (next_exchange w) = Some v).
Proof. exact (request_tss_outcome api w). Qed.

(** ** The cache *)

(** What [fetch_or_cached] does to the world, whatever comes back. *)
Lemma fetch_or_cached_frame (api key : string) (w : world) :
  exists r w',
    Tss.fetch_or_cached api key w = (r, w') /\
    w_log w' = (w_log w ++ [tss_request api w])%list /\
    w_opts w' = w_opts w /\ w_cn_models w' = w_cn_models w /\
    w_files w' = w_files w /\ w_net w' = w_net w /\
    (forall k, k <> key -> w_cache w' !! k = w_cache w !! k).
Proof.
  unfold Tss.fetch_or_cached, bind.
  destruct (request_tss_frame api w) as (r & E). rewrite E.
  destruct r as [v|e|]; [|eexists _, _; split; [reflexivity|]; auto 10 ..].
  destruct (truthy v) eqn:T; cbn [negb].
  - unfold cache_set, ret. cbn [w_cache set_cache]. rewrite T. cbn [negb].
    eexists _, _. split; [reflexivity|]. repeat split.
    intros k N. cbn [w_cache set_cache sent set_clock set_log].
    now rewrite lookup_insert_ne.
  - unfold cache_get, ret. unfold sent at 1 2. cbn [w_cache set_clock set_log].
    destruct (negb (truthy (default VNone (w_cache w !! key))));
      eexists _, _; (split; [reflexivity|]); auto 10.
Qed.

(** X3. The two categories do not disturb each other, and a catalog call
    touches nothing but the log, the clock and its own cache entry:
    whatever [request_models] and [request_mudules] return or raise, one
    request has been sent, [cn_models], the files and every other key of
    the cache are as before. *)
Theorem catalog_calls_keep_to_their_category (w : world) :
  (w_log (snd (Tss.request_models w)) = (w_log w ++ [tss_request (models_api w) w])%list /\
   w_cn_models (snd (Tss.request_models w)) = w_cn_models w /\
   w_files (snd (Tss.request_models w)) = w_files w /\
   forall k, k <> "models" ->
     w_cache (snd (Tss.request_models w)) !! k = w_cache w !! k) /\
  (w_log (snd (Tss.request_mudules w)) = (w_log w ++ [tss_request (mudules_api w) w])%list /\
   w_cn_models (snd (Tss.request_mudules w)) = w_cn_models w /\
   w_files (snd (Tss.request_mudules w)) = w_files w /\
   forall k, k <> "mudules" ->
     w_cache (snd (Tss.request_mudules w)) !! k = w_cache w !! k).
Proof.
  split.
  - rewrite request_models_unfold. cbn [snd].
    destruct (fetch_or_cached_frame (models_api w) "models" w)
      as (r & w' & E & L & _ & N & F & _ & C).
    rewrite E. cbn [snd]. auto.
  - rewrite request_mudules_unfold. cbn [snd].
    destruct (fetch_or_cached_frame (mudules_api w) "mudules" w)
      as (r & w' & E & L & _ & N & F & _ & C).
    rewrite E. cbn [snd]. auto.
Qed.

(** A call that brings data caches it and returns it. *)
Lemma fetch_or_cached_fresh (api key : string) (w : world) (data : pyval) :
  envelope_data (next_exchange w) = Some data ->
  truthy data = true ->
  Tss.fetch_or_cached api key w =
  (Ret data, set_cache (<[key := data]> (w_cache w)) (sent (tss_request api w) w)).
Proof.
  intros D T.
  destruct (request_tss_outcome api w) as (r & E & _ & F & _).
  unfold Tss.fetch_or_cached, bind. rewrite E, (F _ D), T. cbn [negb].
  unfold cache_set, ret. cbn [w_cache set_cache sent set_clock set_log].
  now rewrite T.
Qed.

(** X4. A catalog call that brings data never answers from the cache: the
    value returned is derived from the new payload, and the new payload
    replaces what the cache held for the category. *)
Theorem fresh_catalog_replaces_cache (w : world) (data : pyval) :
  envelope_data (next_exchange w) = Some data ->
  truthy data = true ->
  fst (Tss.request_models w) = Tss.models_of data /\
  w_cache (snd (Tss.request_models w)) !! "models" = Some data /\
  fst (Tss.request_mudules w) = Tss.mudules_of data /\
  w_cache (snd (Tss.request_mudules w)) !! "mudules" = Some data.
Proof.
  intros D T.
  rewrite request_models_unfold, request_mudules_unfold.
  rewrite !(fetch_or_cached_fresh _ _ _ _ D T). cbn [fst snd obind w_cache set_cache].
  rewrite !lookup_insert_eq. auto.
Qed.

Lemma fresh_catalog_replaces_cache_witness :
  w_cache (snd (Tss.request_models (SampleCatalog.then_http_error SampleCatalog.feed)))
    !! "models" = Some SampleCatalog.feed.
Proof.
  apply (fresh_catalog_replaces_cache
           (SampleCatalog.then_http_error SampleCatalog.feed) SampleCatalog.feed);
    reflexivity.
Defined.

(** X5. The payload is cached before it is looked into.  When a catalog
    call brings a payload from which the models cannot be derived (no
    ['items'], an item without ['display_value'], ...), [request_models]
    raises, and the payload is what the cache now holds: a later call that
    brings no data raises the same way, whatever had been cached before. *)
Theorem malformed_payload_is_cached (w w2 : world) (data : pyval) (e : exn) :
  envelope_data (next_exchange w) = Some data ->
  truthy data = true ->
  Tss.models_of data = Raise e ->
  w_cache w2 !! "models" = w_cache (snd (Tss.request_models w)) !! "models" ->
  no_data (next_exchange w2) = true ->
  fst (Tss.request_models w) = Raise e /\
  fst (Tss.request_models w2) = Raise e.
Proof.
  intros D T R C N.
  rewrite (request_models_unfold w), (fetch_or_cached_fresh _ _ _ _ D T) in C.
  cbn [snd w_cache set_cache] in C. rewrite lookup_insert_eq in C.
  split.
  - rewrite request_models_unfold, (fetch_or_cached_fresh _ _ _ _ D T).
    cbn [fst obind]. exact R.
  - rewrite request_models_unfold, (fetch_or_cached_no_data _ _ _ N).
    cbn [fst]. rewrite C, T. cbn [obind]. exact R.
Qed.

Lemma malformed_payload_is_cached_witness :
  fst (Tss.request_models SampleMore.good_then_malformed)
    = Ret [(VStr "control_canny", VStr "control_canny [a1b2]"); (VStr "None", VNone)] /\
  fst (Tss.request_models
         (snd (Tss.request_models
                 (snd (Tss.request_models SampleMore.good_then_malformed)))))
    = Raise (KeyError (VStr "items")).
Proof.
  split; [reflexivity|].
  apply (malformed_payload_is_cached
           (snd (Tss.request_models SampleMore.good_then_malformed))
           (snd (Tss.request_models
                   (snd (Tss.request_models SampleMore.good_then_malformed))))
           (VDict [(VStr "total", VInt 0)]) (KeyError (VStr "items")));
    reflexivity.
Defined.

(** ** The lists the UI is filled from *)

Lemma request_models_frame (w : world) :
  exists r w',
    Tss.request_models w = (r, w') /\
    w_opts w' = w_opts w /\ w_cn_models w' = w_cn_models w /\
    (forall k, k <> "models" -> w_cache w' !! k = w_cache w !! k).
Proof.
  rewrite request_models_unfold.
  destruct (fetch_or_cached_frame (models_api w) "models" w)
    as (r & w' & E & _ & O & N & _ & _ & C).
  rewrite E. cbn [fst snd]. eauto 10.
Qed.

Lemma request_mudules_frame (w : world) :
  exists r w',
    Tss.request_mudules w = (r, w') /\
    w_opts w' = w_opts w /\ w_cn_models w' = w_cn_models w /\
    (forall k, k <> "mudules" -> w_cache w' !! k = w_cache w !! k).
Proof.
  rewrite request_mudules_unfold.
  destruct (fetch_or_cached_frame (mudules_api w) "mudules" w)
    as (r & w' & E & _ & O & N & _ & _ & C).
  rewrite E. cbn [fst snd]. eauto 10.
Qed.

Lemma rename_none_not_None (p : pyval) :
  scalar_eq (TssUi.rename_none p) (VStr "None") = false.
Proof.
  unfold TssUi.rename_none. destruct (scalar_eq p (VStr "None")) eqn:E; [reflexivity | exact E].
Qed.

#[local] Instance str_le_total : Total TssUi.str_le.
Proof. intros a b. apply String.leb_total. Qed.

Section Lists.

Context {lib : Imaging} {ext : Ui.Scripts} {gs : TssUi.GlobalState}.

(** X6. [set_ui_preprocessors(True)] replaces the preprocessor list by the
    names the catalog gave, in the catalog's order, with 'None' written
    'none': no entry of the new list equals 'None'.  When the catalog call
    raises, the list is left empty, since it is cleared first. *)
Theorem set_ui_preprocessors_from_catalog (tss : pyval) (keys : list pyval) (w : world) :
  truthy tss = true ->
  (forall names w',
     Tss.request_mudules w = (Ret names, w') ->
     TssUi.set_ui_preprocessors tss keys w = (Ret tt, map TssUi.rename_none names, w') /\
     Forall (fun p => scalar_eq p (VStr "None") = false) (map TssUi.rename_none names)) /\
  (forall e w',
     Tss.request_mudules w = (Raise e, w') ->
     TssUi.set_ui_preprocessors tss keys w = (Raise e, [], w')).
Proof.
  intros T. unfold TssUi.set_ui_preprocessors. rewrite T. split.
  - intros names w' E. rewrite E. split; [reflexivity|].
    apply List.Forall_forall. intros p I. apply in_map_iff in I.
    destruct I as (q & <- & _). apply rename_none_not_None.
  - intros e w' E. now rewrite E.
Qed.

(** X7. [set_ui_preprocessors(False)] builds the list from the aliases
    alone, without touching the world: 'none', the alias of 'invert', then
    the aliases of the registered modules other than these two, in sorted
    order.  Without an alias for 'invert' it raises KeyError and leaves
    the list empty. *)
Theorem set_ui_preprocessors_local (tss : pyval) (keys : list pyval) (w : world) :
  truthy tss = false ->
  (forall invert,
     TssUi.alias_lookup TssUi.preprocessor_aliases "invert" = Some invert ->
     exists rest,
       TssUi.set_ui_preprocessors tss keys w =
         (Ret tt, map VStr ("none" :: invert :: rest), w) /\
       Sorted TssUi.str_le rest /\
       rest ≡ₚ List.filter (fun a => negb (String.eqb a "none" || String.eqb a invert))
                 (map (fun k => default k (TssUi.alias_lookup TssUi.preprocessor_aliases k))
                      TssUi.cn_preprocessor_modules) /\
       Forall (fun a => a <> "none" /\ a <> invert) rest) /\
  (TssUi.alias_lookup TssUi.preprocessor_aliases "invert" = None ->
   TssUi.set_ui_preprocessors tss keys w = (Raise (KeyError (VStr "invert")), [], w)).
Proof.
  intros T. unfold TssUi.set_ui_preprocessors, TssUi.local_keys. rewrite T. split.
  - intros invert A. rewrite A.
    set (names := List.filter _ _).
    exists (TssUi.sorted names). split; [reflexivity|].
    assert (P : TssUi.sorted names ≡ₚ names) by apply merge_sort_Permutation.
    split; [apply Sorted_merge_sort; apply _|]. split.
    + rewrite P. unfold names. cbn [existsb]. 
      erewrite filter_ext; [reflexivity|].
      intros a. cbn. now rewrite orb_false_r.
    + rewrite P. apply List.Forall_forall. intros a I. unfold names in I.
      apply filter_In in I. destruct I as [_ I]. cbn [existsb] in I.
      apply negb_true_iff in I. apply orb_false_iff in I. destruct I as [I1 I2].
      apply orb_false_iff in I2. destruct I2 as [I2 _].
      apply String.eqb_neq in I1, I2. auto.
  - intros A. now rewrite A.
Qed.

End Lists.

Lemma set_ui_preprocessors_from_catalog_witness :
  fst (TssUi.set_ui_preprocessors
         (gs := SampleLists.global_state) (VBool true) [VStr "canny"; VStr "depth"]
         (SampleCatalog.then_http_error SampleCatalog.preprocessors_feed))
  = (Ret tt, [VStr "none"; VStr "canny"]).
Proof.
  destruct (set_ui_preprocessors_from_catalog
              (gs := SampleLists.global_state) (VBool true) [VStr "canny"; VStr "depth"]
              (SampleCatalog.then_http_error SampleCatalog.preprocessors_feed) eq_refl)
    as [S _].
  destruct (S [VStr "None"; VStr "canny"]
              (snd (Tss.request_mudules
                      (SampleCatalog.then_http_error SampleCatalog.preprocessors_feed)))
              eq_refl) as [E _].
  rewrite E. reflexivity.
Defined.

Lemma set_ui_preprocessors_local_witness :
  exists rest,
    TssUi.set_ui_preprocessors
      (gs := SampleLists.global_state) (VBool false)
      [VStr "canny"] SampleUnit.local
    = (Ret tt, map VStr ("none" :: "invert (from white bg & black line)" :: rest),
       SampleUnit.local) /\
    Sorted TssUi.str_le rest.
Proof.
  destruct (set_ui_preprocessors_local
              (gs := SampleLists.global_state) (VBool false)
              [VStr "canny"] SampleUnit.local eq_refl) as [S _].
  destruct (S "invert (from white bg & black line)" eq_refl) as (rest & E & So & _).
  exists rest. split; [exact E | exact So].
Defined.

(** The list the sample aliases give. *)
Example set_ui_preprocessors_local_run :
  snd (fst (TssUi.set_ui_preprocessors
      (gs := SampleLists.global_state) (VBool false)
              [] SampleUnit.local))
  = [VStr "none"; VStr "invert (from white bg & black line)"; VStr "canny";
     VStr "openpose_full"; VStr "softedge_hed"].
Proof. reflexivity. Qed.

Section Models.

Context {lib : Imaging} {ext : Ui.Scripts} {gs : TssUi.GlobalState}.

(** X8. [set_ui_models(True)] replaces [cn_models] by the fetched mapping;
    when the catalog call raises, [cn_models] is left empty, since it is
    cleared before the call. *)
Theorem set_ui_models_from_catalog (tss : pyval) (w : world) :
  truthy tss = true ->
  (forall models w',
     Tss.request_models (set_cn_models [] w) = (Ret models, w') ->
     TssUi.set_ui_models tss w = (Ret tt, set_cn_models models w')) /\
  (forall e w',
     Tss.request_models (set_cn_models [] w) = (Raise e, w') ->
     TssUi.set_ui_models tss w = (Raise e, w') /\ w_cn_models w' = []).
Proof.
  intros T. unfold TssUi.set_ui_models. rewrite T. cbn [negb].
  unfold bind, Tss.cn_models_clear. split.
  - intros models w' E. rewrite E.
    destruct (request_models_cached _ _ _ E) as (data & _ & _ & Md & N & _).
    unfold Tss.cn_models_update. rewrite N. cbn [w_cn_models set_cn_models].
    rewrite (dict_update_fresh models []); [reflexivity|].
    exact (models_of_wf _ _ Md).
  - intros e w' E. rewrite E. split; [reflexivity|].
    destruct (request_models_frame (set_cn_models [] w)) as (r & w1 & E1 & _ & N & _).
    rewrite E in E1. injection E1 as _ <-. exact N.
Qed.

Lemma init_guard (w : world) :
  truthy (py_and (py_and (default (VBool false) (xz_ext_enable (w_opts w)))
                    (py_not (worker (w_opts w))))
            (py_not (TssUi.cache_init w)))
  = (remote_flag (w_opts w) && negb (is_worker (w_opts w)))
    && negb (truthy (TssUi.cache_init w)).
Proof.
  rewrite <- enable_truthy. unfold py_and at 1.
  destruct (truthy (py_and _ (py_not (worker (w_opts w))))) eqn:TA;
    [reflexivity | exact TA].
Qed.

Lemma init_tss_ui_skips (keys : list pyval) (w : world) :
  remote_flag (w_opts w) && negb (is_worker (w_opts w)) = false \/
  truthy (TssUi.cache_init w) = true ->
  TssUi.init_tss_ui keys w = (Ret tt, keys, w).
Proof.
  unfold TssUi.init_tss_ui. rewrite enable_value, init_guard.
  intros [H | H]; rewrite H; [reflexivity | now rewrite andb_false_r].
Qed.

(** X9. [init_tss_ui] fills the lists once.  It does nothing when the
    remote service is not enabled or when the cache says the lists were
    filled; when it fills them it records that in the cache, so that
    calling it again changes nothing and sends nothing; and when filling
    raises, nothing is recorded and the next call tries again. *)
Theorem init_tss_ui_once (keys : list pyval) (w : world) :
  (remote_flag (w_opts w) && negb (is_worker (w_opts w)) = false \/
   truthy (TssUi.cache_init w) = true ->
   TssUi.init_tss_ui keys w = (Ret tt, keys, w)) /\
  (forall keys' w',
     remote_flag (w_opts w) && negb (is_worker (w_opts w)) = true ->
     truthy (TssUi.cache_init w) = false ->
     TssUi.init_tss_ui keys w = (Ret tt, keys', w') ->
     w_cache w' !! "init" = Some (VInt 1) /\
     forall keys2, TssUi.init_tss_ui keys2 w' = (Ret tt, keys2, w')) /\
  (forall e keys' w',
     TssUi.init_tss_ui keys w = (Raise e, keys', w') ->
     TssUi.cache_init w' = TssUi.cache_init w /\ w_opts w' = w_opts w).
Proof.
  split; [apply init_tss_ui_skips|].
  unfold TssUi.init_tss_ui. rewrite enable_value, init_guard.
  destruct (request_mudules_frame w) as (r1 & w1 & E1 & O1 & _ & C1).
  unfold TssUi.set_ui_preprocessors. cbn [truthy]. rewrite E1.
  split.
  - intros keys' w' On Ni. rewrite On, Ni. cbn [negb andb].
    destruct r1 as [names| |]; try discriminate.
    unfold TssUi.set_ui_models. cbn [truthy negb]. unfold bind, Tss.cn_models_clear.
    destruct (request_models_frame (set_cn_models [] w1)) as (r2 & w2 & E2 & O2 & _ & C2).
    rewrite E2. destruct r2 as [models| |]; try discriminate.
    unfold Tss.cn_models_update, cache_set. cbn [snd].
    intros E.
    pose proof (f_equal snd E) as Ew. cbn [snd] in Ew. subst w'.
    cbn [w_cache set_cache set_cn_models]. rewrite lookup_insert_eq.
    split; [reflexivity|]. intros keys2.
    apply init_tss_ui_skips. right.
    unfold TssUi.cache_init. cbn [w_cache set_cache]. now rewrite lookup_insert_eq.
  - intros e keys' w'.
    destruct (remote_flag (w_opts w) && negb (is_worker (w_opts w))
              && negb (truthy (TssUi.cache_init w))); [|discriminate].
    destruct r1 as [names|e1|].
    + unfold TssUi.set_ui_models. cbn [truthy negb]. unfold bind, Tss.cn_models_clear.
      destruct (request_models_frame (set_cn_models [] w1)) as (r2 & w2 & E2 & O2 & _ & C2).
      rewrite E2. destruct r2 as [models|e2|]; try discriminate.
      intros E. pose proof (f_equal snd E) as Ew. cbn [snd] in Ew. subst w'.
      unfold TssUi.cache_init. rewrite C2 by discriminate.
      cbn [w_cache set_cn_models w_opts] in *. rewrite C1 by discriminate.
      split; [reflexivity | congruence].
    + intros E. pose proof (f_equal snd E) as Ew. cbn [snd] in Ew. subst w'.
      unfold TssUi.cache_init. rewrite C1 by discriminate. auto.
    + discriminate.
Qed.

End Models.

Lemma set_ui_models_from_catalog_witness :
  TssUi.set_ui_models (ext := SampleLib.scripts) (VBool true) SampleInit.models_down
  = (Raise ConnectionError,
     snd (Tss.request_models (set_cn_models [] SampleInit.models_down))).
Proof.
  destruct (set_ui_models_from_catalog (ext := SampleLib.scripts) (VBool true)
              SampleInit.models_down eq_refl) as [_ F].
  exact (proj1 (F ConnectionError _ eq_refl)).
Defined.

Lemma init_tss_ui_once_witness :
  w_cache (snd (TssUi.init_tss_ui (ext := SampleLib.scripts)
                  (gs := SampleLists.global_state) [] SampleInit.both_catalogs))
    !! "init" = Some (VInt 1) /\
  TssUi.init_tss_ui (ext := SampleLib.scripts) (gs := SampleLists.global_state)
    [VStr "none"; VStr "canny"]
    (snd (TssUi.init_tss_ui (ext := SampleLib.scripts)
            (gs := SampleLists.global_state) [] SampleInit.both_catalogs))
  = (Ret tt, [VStr "none"; VStr "canny"],
     snd (TssUi.init_tss_ui (ext := SampleLib.scripts)
            (gs := SampleLists.global_state) [] SampleInit.both_catalogs)).
Proof.
  destruct (init_tss_ui_once (ext := SampleLib.scripts) (gs := SampleLists.global_state)
              [] SampleInit.both_catalogs) as (_ & O & _).
  destruct (O [VStr "none"; VStr "canny"] _ eq_refl eq_refl eq_refl) as [I N].
  split; [exact I | apply N].
Defined.

(** ** Uploads that succeed *)

Section UploadOk.

Context {lib : Imaging}.

(** X10. When the registration passes the envelope check with a URL and
    the PUT is answered with success, the upload sends exactly these two
    requests, the POST announcing as [file_size] the length of the very
    bytes the PUT then carries (without an Authorization header), draws one
    UUID for the file name, and returns the registration's [oss_key]. *)
Theorem upload_registers_then_puts (image_data : Image) (persistent : bool) (w : world)
    (data : pyval) (url : string) :
  registration (next_exchange w) = Some data ->
  getitem data (VStr "url") = Ret (VStr url) ->
  put_ok (w_net w (S (length (w_log w)))) = true ->
  exists w',
    Tss.upload_image_data image_data persistent w
      = (getitem data (VStr "oss_key"), w') /\
    w_log w' = (w_log w ++ [registration_request w image_data persistent;
                            put_request url image_data])%list /\
    w_uuid_drawn w' = S (w_uuid_drawn w) /\
    w_files w' = w_files w /\ w_cache w' = w_cache w.
Proof.
  unfold registration, put_ok. intros R U P.
  unfold Tss.upload_image_data, bind, uuid4, Tss.opt, Tss.headers.
  rewrite get_tushuashua_token_pure, http_sent.
  set (wa := set_uuid_drawn _ w).
  change (next_exchange wa) with (next_exchange w).
  change (token_value wa) with (token_value w).
  change (w_opts wa) with (w_opts w).
  fold (registration_request w image_data persistent).
  set (rq1 := registration_request w image_data persistent).
  destruct (reply (next_exchange w)) as [r1|]; [|discriminate].
  destruct (resp_ok r1); [|discriminate].
  unfold resp_json, Tss.code_is_200, bind, lift, ret.
  destruct (resp_body r1) as [j|]; [|discriminate].
  destruct (getitem j (VStr "code")) as [c| |]; try discriminate.
  destruct (scalar_eq c (VInt 200)); [|discriminate].
  destruct (getitem j (VStr "data")) as [d| |]; try discriminate.
  injection R as ->. rewrite U. cbn [url_of ret].
  rewrite http_sent, next_exchange_sent.
  change (w_net wa) with (w_net w). change (w_log wa) with (w_log w).
  fold (put_request url image_data).
  destruct (reply (w_net w (S (length (w_log w))))) as [r2|]; [|discriminate].
  rewrite P. eexists. split; [reflexivity|].
  cbn [sent w_log set_clock set_log w_uuid_drawn w_files w_cache].
  change (w_log wa) with (w_log w). rewrite <- app_assoc. auto.
Qed.

End UploadOk.

Lemma upload_registers_then_puts_witness :
  fst (Tss.upload_image_data (lib := SampleLib.imaging) "image" false SampleRun.one_upload)
  = Ret (VStr "a.png").
Proof.
  destruct (upload_registers_then_puts (lib := SampleLib.imaging) "image" false
              SampleRun.one_upload
              (VDict [(VStr "url", VStr "https://oss.example/put?sig=1");
                      (VStr "oss_key", VStr "a.png")])
              "https://oss.example/put?sig=1" eq_refl eq_refl eq_refl) as (w' & E & _).
  rewrite E. reflexivity.
Defined.

(** ** What the wait returns and sends *)

Section Wait.

Context {lib : Imaging}.

(** One turn of the loop: it ends the wait at the world after the poll,
    with an exception or with a payload whose status is terminal, or the
    wait goes on from that world. *)
Lemma waite_loop_turn (fuel : nat) (task_id : pyval) (start timeout : Q) (w : world)
    (r : outcome pyval) (w' : world) :
  Qltb (w_clock w - start) timeout = true ->
  Tss.waite_loop (S fuel) task_id start timeout w = (r, w') ->
  (w' = polled task_id w /\
   ((exists e, r = Raise e) \/
    (exists data status,
       r = Ret data /\ getitem data (VStr "status") = Ret status /\
       terminal status = true /\
       polled_status (next_exchange w) = Some status))) \/
  Tss.waite_loop fuel task_id start timeout (polled task_id w) = (r, w').
Proof.
  intros T. cbn [Tss.waite_loop]. unfold bind at 1. unfold time_time at 1.
  rewrite T. unfold bind at 1. unfold time_sleep at 1.
  unfold bind at 1. unfold Tss.opt at 1.
  unfold bind at 1. unfold Tss.headers. rewrite get_tushuashua_token_pure.
  unfold bind at 1. rewrite http_sent, next_exchange_slept.
  cbn [w_opts set_clock]. fold (polled task_id w).
  unfold polled_status.
  destruct (reply (next_exchange w)) as [resp|].
  2:{ intros [= <- <-]. left. eauto. }
  destruct (resp_ok resp); [|now right].
  unfold resp_json, Tss.code_is_200, bind, lift, ret.
  destruct (resp_body resp) as [j|].
  2:{ intros [= <- <-]. left. eauto. }
  destruct (getitem j (VStr "code")) as [c|e|] eqn:C.
  2:{ intros [= <- <-]. left. eauto. }
  2:{ exfalso. exact (getitem_terminates _ _ C). }
  destruct (scalar_eq c (VInt 200)); [|now right].
  destruct (getitem j (VStr "data")) as [d|e|] eqn:D.
  2:{ intros [= <- <-]. left. eauto. }
  2:{ exfalso. exact (getitem_terminates _ _ D). }
  destruct (getitem d (VStr "status")) as [s|e|] eqn:S.
  2:{ intros [= <- <-]. left. eauto. }
  2:{ exfalso. exact (getitem_terminates _ _ S). }
  fold (terminal s). destruct (terminal s) eqn:Ts; [|now right].
  intros [= <- <-]. left. split; [reflexivity|]. right. eauto 10.
Qed.

Lemma waite_loop_leaves (fuel : nat) (task_id : pyval) (start timeout : Q) (w : world) :
  Qltb (w_clock w - start) timeout = false ->
  Tss.waite_loop (S fuel) task_id start timeout w = (Ret VNone, w).
Proof.
  intros T. cbn [Tss.waite_loop]. unfold bind, time_time. now rewrite T.
Qed.

Lemma waite_loop_payload (task_id : pyval) (start timeout : Q) (fuel : nat) :
  forall (w w' : world) (v : pyval),
    Tss.waite_loop fuel task_id start timeout w = (Ret v, w') ->
    v = VNone \/
    exists status, getitem v (VStr "status") = Ret status /\ terminal status = true.
Proof.
  induction fuel as [|fuel IH]; intros w w' v E; [discriminate|].
  destruct (Qltb (w_clock w - start) timeout) eqn:T.
  - destruct (waite_loop_turn _ _ _ _ _ _ _ T E) as [[_ H] | E'].
    + destruct H as [[e H] | (data & s & H & S & Ts & _)]; [discriminate|].
      injection H as ->. right. eauto.
    + exact (IH _ _ _ E').
  - rewrite (waite_loop_leaves _ _ _ _ _ T) in E. injection E as <- _. now left.
Qed.

(** A poll that is answered with a terminal status ends the loop with the
    payload of that poll. *)
Lemma waite_loop_terminal (fuel : nat) (task_id : pyval) (start timeout : Q) (w : world)
    (data status : pyval) :
  Qltb (w_clock w - start) timeout = true ->
  polled_payload (next_exchange w) = Some data ->
  getitem data (VStr "status") = Ret status ->
  terminal status = true ->
  Tss.waite_loop (S fuel) task_id start timeout w = (Ret data, polled task_id w).
Proof.
  intros T P St Tm. cbn [Tss.waite_loop]. unfold bind at 1. unfold time_time at 1.
  rewrite T. unfold bind at 1. unfold time_sleep at 1.
  unfold bind at 1. unfold Tss.opt at 1.
  unfold bind at 1. unfold Tss.headers. rewrite get_tushuashua_token_pure.
  unfold bind at 1. rewrite http_sent, next_exchange_slept.
  cbn [w_opts set_clock]. fold (polled task_id w).
  unfold polled_payload in P.
  destruct (reply (next_exchange w)) as [r|]; [|discriminate].
  destruct (resp_ok r); [|discriminate].
  unfold resp_json, Tss.code_is_200, bind, lift, ret.
  destruct (resp_body r) as [j|]; [|discriminate].
  destruct (getitem j (VStr "code")) as [c| |]; try discriminate.
  destruct (scalar_eq c (VInt 200)); [|discriminate].
  destruct (getitem j (VStr "data")) as [d| |]; try discriminate.
  injection P as ->. rewrite St. fold (terminal status). now rewrite Tm.
Qed.

(** X11. What [waite_task] returns is [None] or a payload whose status is
    10 or -1, and it does not tell the two apart: a poll that is answered
    with status -1 ends the wait with its payload just as one with status
    10 does, at the first turn of the wait and at any later one. *)
Theorem waite_task_returns_terminal_payload (fuel : nat) (task_id : pyval) (timeout : Q)
    (w : world) :
  (forall w' v,
     Tss.waite_task fuel task_id timeout w = (Ret v, w') ->
     v = VNone \/
     exists status,
       getitem v (VStr "status") = Ret status /\
       (scalar_eq status (VInt 10) = true \/ scalar_eq status (VInt (-1)) = true)) /\
  (forall data status,
     (0 < timeout)%Q ->
     polled_payload (next_exchange w) = Some data ->
     getitem data (VStr "status") = Ret status ->
     scalar_eq status (VInt 10) = true \/ scalar_eq status (VInt (-1)) = true ->
     Tss.waite_task (S fuel) task_id timeout w = (Ret data, polled task_id w)) /\
  (forall start data status,
     (w_clock w - start < timeout)%Q ->
     polled_payload (next_exchange w) = Some data ->
     getitem data (VStr "status") = Ret status ->
     scalar_eq status (VInt 10) = true \/ scalar_eq status (VInt (-1)) = true ->
     Tss.waite_loop (S fuel) task_id start timeout w = (Ret data, polled task_id w)).
Proof.
  split; [|split].
  - unfold Tss.waite_task, bind, time_time. intros w' v E.
    destruct (waite_loop_payload _ _ _ _ _ _ _ E) as [H | (s & S & Ts)]; [now left|].
    right. exists s. split; [exact S|]. unfold terminal in Ts.
    now apply orb_true_iff in Ts.
  - intros data status T P St Tm. unfold Tss.waite_task, bind, time_time.
    apply (waite_loop_terminal _ _ _ _ _ data status); [|exact P|exact St|].
    + apply Qltb_true. lra.
    + unfold terminal. now apply orb_true_iff.
  - intros start data status T P St Tm.
    apply (waite_loop_terminal _ _ _ _ _ data status); [|exact P|exact St|].
    + now apply Qltb_true.
    + unfold terminal. now apply orb_true_iff.
Qed.

(** X12. A wait whose timeout is zero or negative returns [None] at once:
    no sleep, no poll, the world is as it was. *)
Theorem waite_task_without_patience (fuel : nat) (task_id : pyval) (timeout : Q)
    (w : world) :
  (timeout <= 0)%Q ->
  Tss.waite_task (S fuel) task_id timeout w = (Ret VNone, w).
Proof.
  intros H. unfold Tss.waite_task, bind, time_time.
  apply waite_loop_leaves. apply Qltb_false. lra.
Qed.

End Wait.

Lemma waite_task_returns_terminal_payload_witness :
  fst (Tss.waite_task (lib := SampleLib.imaging) 150 (VStr "t-1") 300
         SampleFail.failed_at_once)
  = Ret (VDict [(VStr "status", VInt (-1)); (VStr "msg", VStr "oom")]).
Proof.
  destruct (waite_task_returns_terminal_payload (lib := SampleLib.imaging) 149
              (VStr "t-1") 300 SampleFail.failed_at_once) as (_ & F & _).
  rewrite (F (VDict [(VStr "status", VInt (-1)); (VStr "msg", VStr "oom")]) (VInt (-1)));
    [reflexivity | reflexivity | reflexivity | reflexivity | right; reflexivity].
Defined.

Lemma waite_task_without_patience_witness :
  Tss.waite_task (lib := SampleLib.imaging) 1 (VStr "t-1") 0 SamplePoll.never_done
  = (Ret VNone, SamplePoll.never_done).
Proof.
  apply (waite_task_without_patience (lib := SampleLib.imaging) 0). discriminate.
Defined.

Section WaitPolls.

Context {lib : Imaging}.

Lemma polled_facts (task_id : pyval) (w : world) :
  exists rq,
    is_poll (HOST (w_opts w)) task_id rq /\
    w_log (polled task_id w) = (w_log w ++ [rq])%list /\
    w_opts (polled task_id w) = w_opts w /\
    w_net (polled task_id w) = w_net w /\
    w_clock (polled task_id w) = (w_clock w + 2 + elapsed (next_exchange w))%Q.
Proof.
  eexists. split; [|repeat split]. repeat split.
Qed.

Lemma waite_loop_polls (task_id : pyval) (start timeout : Q) (fuel : nat) :
  forall (w w' : world) (r : outcome pyval),
    (forall n, (0 <= elapsed (w_net w n))%Q) ->
    Tss.waite_loop fuel task_id start timeout w = (r, w') ->
    exists l,
      w_log w' = (w_log w ++ l)%list /\
      Forall (is_poll (HOST (w_opts w)) task_id) l /\
      w_opts w' = w_opts w /\ w_net w' = w_net w /\
      (w_clock w + 2 * inject_Z (Z.of_nat (length l)) <= w_clock w')%Q /\
      (l <> [] ->
       (w_clock w - start + 2 * inject_Z (Z.of_nat (length l)) - 2 < timeout)%Q).
Proof.
  induction fuel as [|fuel IH]; intros w w' r El E.
  - injection E as <- <-. exists []. rewrite app_nil_r.
    repeat split; auto; [|congruence].
    change (inject_Z (Z.of_nat (length (@nil request)))) with 0%Q. lra.
  - destruct (Qltb (w_clock w - start) timeout) eqn:T.
    2:{ rewrite (waite_loop_leaves _ _ _ _ _ T) in E. injection E as <- <-.
        exists []. rewrite app_nil_r. repeat split; auto; [|congruence].
        change (inject_Z (Z.of_nat (length (@nil request)))) with 0%Q. lra. }
    destruct (polled_facts task_id w) as (rq & Pq & Lq & Oq & Nq & Cq).
    pose proof (El (length (w_log w))) as E0. fold (next_exchange w) in E0.
    apply Qltb_true in T.
    destruct (waite_loop_turn _ _ _ _ _ _ _ (proj2 (Qltb_true _ _) T) E) as [[-> _] | E'].
    + exists [rq]. repeat split; auto.
      * rewrite Cq. cbn [length]. change (inject_Z (Z.of_nat 1)) with 1%Q. lra.
      * intros _. cbn [length]. change (inject_Z (Z.of_nat 1)) with 1%Q. lra.
    + destruct (IH _ _ _ (fun n => eq_ind_r (fun f => (0 <= elapsed (f n))%Q) (El n) Nq) E')
        as (l & L & F & O & N & C & B).
      exists (rq :: l). repeat split.
      * rewrite L, Lq, <- app_assoc. reflexivity.
      * constructor; [exact Pq|]. now rewrite Oq in F.
      * congruence.
      * congruence.
      * cbn [length]. rewrite inject_nat_succ. rewrite Cq in C. lra.
      * intros _. cbn [length]. rewrite inject_nat_succ.
        destruct l as [|rq2 l].
        -- change (inject_Z (Z.of_nat (length (@nil request)))) with 0%Q. lra.
        -- assert (B' := B ltac:(discriminate)). rewrite Cq in B'. lra.
Qed.

(** X13. Whatever the wait ends with, all it has sent are polls of this
    task, each after two seconds of sleep: [n] polls take at least [2 * n]
    seconds, and the last of them was sent before the timeout had passed,
    so that [2 * (n - 1)] is less than the timeout. *)
Theorem waite_task_polls_within_timeout (fuel : nat) (task_id : pyval) (timeout : Q)
    (w w' : world) (r : outcome pyval) :
  (forall n, (0 <= elapsed (w_net w n))%Q) ->
  Tss.waite_task fuel task_id timeout w = (r, w') ->
  exists l,
    w_log w' = (w_log w ++ l)%list /\
    Forall (is_poll (HOST (w_opts w)) task_id) l /\
    (w_clock w + 2 * inject_Z (Z.of_nat (length l)) <= w_clock w')%Q /\
    (l <> [] -> (2 * inject_Z (Z.of_nat (length l)) - 2 < timeout)%Q).
Proof.
  unfold Tss.waite_task, bind, time_time. intros El E.
  destruct (waite_loop_polls _ _ _ _ _ _ _ El E) as (l & L & F & _ & _ & C & B).
  exists l. repeat split; auto. intros N. specialize (B N). lra.
Qed.

End WaitPolls.

Lemma waite_task_polls_within_timeout_witness :
  exists l,
    w_log (snd (Tss.waite_task (lib := SampleLib.imaging) 151 (VStr "t-1") 300
                  SamplePoll.third_poll_times_out))
    = ([] ++ l)%list /\
    (2 * inject_Z (Z.of_nat (length l)) <=
     w_clock (snd (Tss.waite_task (lib := SampleLib.imaging) 151 (VStr "t-1") 300
                     SamplePoll.third_poll_times_out)))%Q.
Proof.
  destruct (waite_task_polls_within_timeout (lib := SampleLib.imaging) 151 (VStr "t-1") 300
              SamplePoll.third_poll_times_out
              (snd (Tss.waite_task (lib := SampleLib.imaging) 151 (VStr "t-1") 300
                      SamplePoll.third_poll_times_out))
              (fst (Tss.waite_task (lib := SampleLib.imaging) 151 (VStr "t-1") 300
                      SamplePoll.third_poll_times_out)))
    as (l & L & _ & C & _).
  - intros [|[|n]]; cbn; discriminate.
  - apply surjective_pairing.
  - exists l. split; [exact L|]. cbn [w_clock SamplePoll.third_poll_times_out Sample.world_of] in C.
    lra.
Defined.

(** ** The artifact *)










Section ArtifactFile.

Context {lib : Imaging}.


(** X15. Without a non-empty image list nothing is downloaded and the
    world stays as it is; with a download that is answered with an error
    status no file is written.  Either way [None] is returned. *)
Theorem no_artifact_no_file (res : pyval) (w : world) :
  (forall images,
     Tss.result_images res = Ret images -> truthy images = false ->
     Tss.fetch_artifact res w = (Ret VNone, w)) /\
  (forall url rest resp,
     Tss.result_images res = Ret (VList (VStr url :: rest)) ->
     reply (next_exchange w) = Some resp -> resp_ok resp = false ->
     Tss.fetch_artifact res w = (Ret VNone, sent (Tss.download_request url) w) /\
     w_files (sent (Tss.download_request url) w) = w_files w).
Proof.
  split.
  - intros images R T. unfold Tss.fetch_artifact, bind, lift. now rewrite R, T.
  - intros url rest resp R Rp Ok. split; [|reflexivity].
    unfold Tss.fetch_artifact, bind, lift. rewrite R.
    cbn [truthy getitem as_int]. rewrite seq_index_0. cbn [url_of ret].
    now rewrite http_sent, Rp, Ok.
Qed.

End ArtifactFile.


Lemma no_artifact_no_file_witness :
  Tss.fetch_artifact (lib := SampleLib.imaging)
    (VDict [(VStr "status", VInt (-1))]) SampleWait.done_at_once
  = (Ret VNone, SampleWait.done_at_once).
Proof.
  apply (proj1 (no_artifact_no_file (lib := SampleLib.imaging)
                  (VDict [(VStr "status", VInt (-1))]) SampleWait.done_at_once)
           VNone); reflexivity.
Defined.

(** ** A submission that is turned down *)

Section Submission.

Context {lib : Imaging}.

(** X16. When both uploads gave a key and the submission is turned down
    (HTTP error status, or an envelope whose code is not 200),
    [run_annotator] returns [None]: it raises nothing, and the submission
    is the last request it sends, so no poll follows. *)
Theorem rejected_submission_returns_none (fuel : nat) (image : canvas ndarray)
    (module pres pthr_a pthr_b t2i_w t2i_h pp rm : pyval) (w w1 w2 : world)
    (image_key mask_key : string) :
  Tss.upload_image_data (fromarray (cv_image image)) false w = (Ret (VStr image_key), w1) ->
  Tss.upload_image_data (fromarray (cv_mask image)) false w1 = (Ret (VStr mask_key), w2) ->
  image_key <> "" -> mask_key <> "" ->
  rejected (next_exchange w2) = true ->
  exists data,
    Tss.run_annotator fuel image module pres pthr_a pthr_b t2i_w t2i_h pp rm w
      = (Ret VNone, sent (Tss.submit_request (HOST (w_opts w2)) (token_value w2) data) w2) /\
    getitem data (VStr "image") = Ret (VStr (path_join (BUCKET (w_opts w2)) image_key)) /\
    getitem data (VStr "mask") = Ret (VStr (path_join (BUCKET (w_opts w2)) mask_key)) /\
    getitem data (VStr "module") = Ret module.
Proof.
  intros U1 U2 K1 K2 Rj.
  apply String.eqb_neq in K1, K2.
  unfold Tss.run_annotator, bind. rewrite U1, U2.
  cbn [truthy]. rewrite K1, K2. cbn [negb orb].
  unfold Tss.opt, lift, Tss.os_path_join, Tss.headers.
  rewrite get_tushuashua_token_pure, http_sent.
  exists (VDict [(VStr "image", VStr (path_join (BUCKET (w_opts w2)) image_key));
                 (VStr "mask", VStr (path_join (BUCKET (w_opts w2)) mask_key));
                 (VStr "module", module);
                 (VStr "annotator_resolution", pres);
                 (VStr "pthr_a", pthr_a);
                 (VStr "pthr_b", pthr_b);
                 (VStr "t2i_w", t2i_w);
                 (VStr "t2i_h", t2i_h);
                 (VStr "pp", pp);
                 (VStr "rm", rm)]).
  split; [|split; [reflexivity | split; reflexivity]].
  unfold rejected in Rj.
  destruct (reply (next_exchange w2)) as [resp|]; [|discriminate].
  destruct (resp_ok resp); [|reflexivity].
  unfold resp_json, Tss.code_is_200, bind, lift, ret.
  destruct (resp_body resp) as [j|]; [|discriminate].
  destruct (getitem j (VStr "code")) as [c| |]; try discriminate.
  apply negb_true_iff in Rj. now rewrite Rj.
Qed.

End Submission.

Lemma rejected_submission_returns_none_witness :
  fst (Tss.run_annotator (lib := SampleLib.imaging) 150 SampleLib.picture
         (VStr "canny") (VInt 512) (VInt 100) (VInt 200) (VInt 512) (VInt 512)
         (VBool false) (VStr "Crop and Resize") SampleRun.submission_rejected)
  = Ret VNone.
Proof.
  destruct (rejected_submission_returns_none (lib := SampleLib.imaging) 150
              SampleLib.picture
              (VStr "canny") (VInt 512) (VInt 100) (VInt 200) (VInt 512) (VInt 512)
              (VBool false) (VStr "Crop and Resize") SampleRun.submission_rejected
              (snd (Tss.upload_image_data (lib := SampleLib.imaging) "image" false
                      SampleRun.submission_rejected))
              (snd (Tss.upload_image_data (lib := SampleLib.imaging) "mask" false
                      (snd (Tss.upload_image_data (lib := SampleLib.imaging) "image" false
                              SampleRun.submission_rejected))))
              "a.png" "b.png" eq_refl eq_refl) as (data & E & _);
    [discriminate | discriminate | reflexivity |].
  now rewrite E.
Defined.

(** * Further properties of the dispatcher *)

Lemma path_join_tmp_nonempty (b : string) : String.eqb (path_join "tmp" b) "" = false.
Proof.
  unfold path_join. destruct (String.prefix "/" b) eqn:P.
  - destruct b; [discriminate|reflexivity].
  - reflexivity.
Qed.

Section Remote.

Context {lib : Imaging}.

Lemma fetch_artifact_result (res : pyval) (w w' : world) (v : pyval) :
  Tss.fetch_artifact res w = (Ret v, w') ->
  v = VNone \/
  exists name content,
    v = VStr name /\ String.eqb name "" = false /\ w_files w' !! name = Some content.
Proof.
  unfold Tss.fetch_artifact, bind, lift.
  destruct (Tss.result_images res) as [images| |]; try discriminate.
  destruct (truthy images); [|intros [= <- <-]; now left].
  destruct (getitem images (VInt 0)) as [u| |]; try discriminate.
  destruct u as [| | | |url| |]; cbn [url_of raise ret]; try discriminate.
  rewrite http_sent.
  destruct (reply (next_exchange w)) as [resp|]; [|discriminate].
  destruct (resp_ok resp); [|intros [= <- <-]; now left].
  destruct (write_file_cases (path_join "tmp" (basename (url_path url)))
              (resp_content resp) (sent (Tss.download_request url) w)) as [-> | [e ->]];
    [|discriminate].
  unfold ret. intros [= <- <-]. right.
  eexists _, _. split; [reflexivity|]. split; [apply path_join_tmp_nonempty|].
  cbn [w_files set_files]. apply lookup_insert_eq.
Qed.

(** What [run_annotator] returns is [None] or the name of a file it has
    written. *)
Lemma run_annotator_result (fuel : nat) (image : canvas ndarray)
    (module pres pthr_a pthr_b t2i_w t2i_h pp rm : pyval) (w w' : world) (v : pyval) :
  Tss.run_annotator fuel image module pres pthr_a pthr_b t2i_w t2i_h pp rm w = (Ret v, w') ->
  v = VNone \/
  exists name content,
    v = VStr name /\ String.eqb name "" = false /\ w_files w' !! name = Some content.
Proof.
  unfold Tss.run_annotator, bind.
  destruct (Tss.upload_image_data _ _ w) as [[k1| |] w1]; try discriminate.
  destruct (Tss.upload_image_data _ _ w1) as [[k2| |] w2]; try discriminate.
  destruct (negb (truthy k1) || negb (truthy k2)); [discriminate|].
  unfold Tss.opt at 1.
  destruct (lift (Tss.os_path_join _ k1) w2) as [[p1| |] w3]; try discriminate.
  destruct (lift (Tss.os_path_join _ k2) w3) as [[p2| |] w4]; try discriminate.
  unfold Tss.opt at 1.
  destruct (Tss.headers w4) as [[auth| |] w5]; try discriminate.
  destruct (http _ w5) as [[resp| |] w6]; try discriminate.
  destruct (resp_ok resp); [|intros [= <- <-]; now left].
  destruct (resp_json resp w6) as [[j| |] w7]; try discriminate.
  destruct (Tss.code_is_200 j w7) as [[[|]| |] w8]; try discriminate.
  2:{ intros [= <- <-]. now left. }
  destruct (lift (getitem j (VStr "data")) w8) as [[d| |] w9]; try discriminate.
  destruct (lift (getitem d (VStr "task_id")) w9) as [[t| |] w10]; try discriminate.
  destruct (Tss.waite_task fuel t 300 w10) as [[res| |] w11]; try discriminate.
  destruct (truthy res); [apply fetch_artifact_result|].
  intros [= <- <-]. now left.
Qed.

End Remote.

Section Strategies.

Context {lib : Imaging} {ext : Ui.Scripts}.

Lemma run_local_world (image : canvas ndarray)
    (module pres pthr_a pthr_b t2i_w t2i_h pp rm : pyval) (w : world) :
  snd (Ui.run_local image module pres pthr_a pthr_b t2i_w t2i_h pp rm w) = w.
Proof.
  unfold Ui.run_local, bind, lift, Tss.opt, ret, raise.
  destruct (Ui.py_contains "inpaint" module) as [inpaint| |]; try reflexivity.
  destruct (Ui.preprocessors (Ui.get_module_basename module)) as [p|]; [|reflexivity].
  destruct (p _); reflexivity.
Qed.

(** X17. Running the preprocessor locally leaves the world as it is: no
    request is sent, nothing is cached or written, whatever the
    preprocessor returns or raises.  So it is for every dispatch of a
    process in which the remote service is off or which is a worker, and
    for a dispatch without an image, which shows no preview. *)
Theorem local_dispatch_leaves_world (fuel : nat) (image : option (canvas ndarray))
    (module pres pthr_a pthr_b t2i_w t2i_h pp rm : pyval) (w : world) :
  image = None \/ remote_flag (w_opts w) && negb (is_worker (w_opts w)) = false ->
  snd (Ui.run_annotator fuel image module pres pthr_a pthr_b t2i_w t2i_h pp rm w) = w /\
  (image = None ->
   fst (Ui.run_annotator fuel image module pres pthr_a pthr_b t2i_w t2i_h pp rm w)
   = Ret Ui.no_preview).
Proof.
  intros H. destruct image as [image|]; [|split; reflexivity].
  destruct H as [H | H]; [discriminate|].
  split; [|discriminate].
  unfold Ui.run_annotator.
  rewrite (bind_run _ _ _ _ _ (enable_value w)), enable_truthy, H.
  apply run_local_world.
Qed.

(** X18. The remote strategy shows no preview when [tss.run_annotator]
    returns [None].  When it returns a file name, that file exists; it is
    decoded, shown with an empty pose JSON, and removed.  When decoding
    raises, the exception leaves the handler before [os.remove]: the file
    stays. *)
Theorem remote_preview_removes_temp_file (fuel : nat) (image : canvas ndarray)
    (module pres pthr_a pthr_b t2i_w t2i_h pp rm : pyval) (w : world) :
  (forall w1,
     Tss.run_annotator fuel image module pres pthr_a pthr_b t2i_w t2i_h pp rm w
       = (Ret VNone, w1) ->
     Ui.run_remote fuel image module pres pthr_a pthr_b t2i_w t2i_h pp rm w
       = (Ret Ui.no_preview, w1)) /\
  (forall name w1,
     Tss.run_annotator fuel image module pres pthr_a pthr_b t2i_w t2i_h pp rm w
       = (Ret (VStr name), w1) ->
     exists content,
       w_files w1 !! name = Some content /\
       (forall arr,
          decode_image content = Ret arr ->
          Ui.run_remote fuel image module pres pthr_a pthr_b t2i_w t2i_h pp rm w
            = (Ret (Ui.preview (Ui.UArr (Ui.visualize_inpaint_mask arr)) (Some false) ""),
               set_files (delete name (w_files w1)) w1) /\
          w_files (set_files (delete name (w_files w1)) w1) !! name = None) /\
       (forall e,
          decode_image content = Raise e ->
          Ui.run_remote fuel image module pres pthr_a pthr_b t2i_w t2i_h pp rm w
            = (Raise e, w1))).
Proof.
  split.
  - intros w1 E. unfold Ui.run_remote, bind. now rewrite E.
  - intros name w1 E.
    destruct (run_annotator_result _ _ _ _ _ _ _ _ _ _ _ _ _ E)
      as [N | (name' & content & N & Ne & F)]; [discriminate|].
    injection N as <-. exists content. split; [exact F|].
    unfold Ui.run_remote, bind. rewrite E. cbn [truthy]. rewrite Ne. cbn [negb].
    unfold Ui.read_file. rewrite F. unfold lift, Ui.os_remove, ret.
    split.
    + intros arr D. rewrite D, F. split; [reflexivity|].
      cbn [w_files set_files]. apply lookup_delete_eq.
    + intros e D. now rewrite D.
Qed.

End Strategies.

Lemma local_dispatch_leaves_world_witness :
  snd (Ui.run_annotator (ext := SampleLib.scripts) 150 (Some SampleLib.picture)
         (VStr "canny") (VInt 512) (VInt 100) (VInt 200) (VInt 512) (VInt 512)
         (VBool false) (VStr "Crop and Resize") SampleUnit.local)
  = SampleUnit.local.
Proof.
  apply (local_dispatch_leaves_world (ext := SampleLib.scripts) 150
           (Some SampleLib.picture)).
  right. reflexivity.
Defined.

Lemma remote_preview_removes_temp_file_witness :
  exists content,
    w_files (snd (Tss.run_annotator (lib := SampleLib.imaging) 150 SampleLib.picture
                    (VStr "openpose_full") (VInt 512) (VInt 100) (VInt 200) (VInt 512)
                    (VInt 512) (VBool false) (VStr "Crop and Resize") SampleRun.job_done))
      !! "tmp/pose.png" = Some content /\
    w_files (snd (Ui.run_remote (ext := SampleLib.scripts) 150 SampleLib.picture
                    (VStr "openpose_full") (VInt 512) (VInt 100) (VInt 200) (VInt 512)
                    (VInt 512) (VBool false) (VStr "Crop and Resize") SampleRun.job_done))
      !! "tmp/pose.png" = None.
Proof.
  destruct (remote_preview_removes_temp_file (ext := SampleLib.scripts) 150
              SampleLib.picture
              (VStr "openpose_full") (VInt 512) (VInt 100) (VInt 200) (VInt 512)
              (VInt 512) (VBool false) (VStr "Crop and Resize") SampleRun.job_done)
    as [_ H].
  assert (E : Tss.run_annotator (lib := SampleLib.imaging) 150 SampleLib.picture
                (VStr "openpose_full") (VInt 512) (VInt 100) (VInt 200) (VInt 512)
                (VInt 512) (VBool false) (VStr "Crop and Resize") SampleRun.job_done
              = (Ret (VStr "tmp/pose.png"),
                 snd (Tss.run_annotator (lib := SampleLib.imaging) 150 SampleLib.picture
                        (VStr "openpose_full") (VInt 512) (VInt 100) (VInt 200) (VInt 512)
                        (VInt 512) (VBool false) (VStr "Crop and Resize")
                        SampleRun.job_done)))
    by (vm_compute; reflexivity).
  destruct (H "tmp/pose.png" _ E) as (content & F & D & _).
  exists content. split; [exact F|].
  assert (C : Some content = Some "PNG") by (rewrite <- F; vm_compute; reflexivity).
  injection C as ->.
  destruct (D "PNG" eq_refl) as [R N]. rewrite R. exact N.
Defined.

(** ** The send-dimensions button *)

Lemma closesteight_cases (num : Z) :
  ((num mod 8 <= 4 /\ Dimensions.closesteight num = num - num mod 8) \/
   (4 < num mod 8 /\ Dimensions.closesteight num = num + (8 - num mod 8)))%Z.
Proof.
  unfold Dimensions.closesteight. destruct (Z.leb_spec (num mod 8) 4); auto.
Qed.

Lemma closesteight_multiple (num : Z) : (Dimensions.closesteight num mod 8 = 0)%Z.
Proof.
  pose proof (Z.mod_pos_bound num 8 ltac:(lia)) as B.
  pose proof (Z.div_mod num 8 ltac:(lia)) as D.
  destruct (closesteight_cases num) as [[L ->] | [L ->]].
  - replace (num - num mod 8)%Z with (num / 8 * 8)%Z by lia. apply Z.mod_mul. lia.
  - replace (num + (8 - num mod 8))%Z with ((num / 8 + 1) * 8)%Z by lia.
    apply Z.mod_mul. lia.
Qed.

(** X19. [closesteight] gives the multiple of 8 nearest to its argument:
    the result is divisible by 8 and at most 4 away, and an argument half
    way between two multiples goes to the lower one. *)
Theorem closesteight_nearest_multiple (num : Z) :
  (Dimensions.closesteight num mod 8 = 0 /\
   Z.abs (Dimensions.closesteight num - num) <= 4 /\
   (num mod 8 = 4 -> Dimensions.closesteight num = num - 4))%Z.
Proof.
  pose proof (Z.mod_pos_bound num 8 ltac:(lia)) as B.
  split; [apply closesteight_multiple|].
  destruct (closesteight_cases num) as [[L ->] | [L ->]]; split; lia.
Qed.

(** X20. [closesteight] leaves multiples of 8 alone, so applying it twice
    is applying it once, and it keeps the order of its arguments. *)
Theorem closesteight_idempotent_monotone (a b : Z) :
  (a mod 8 = 0 -> Dimensions.closesteight a = a)%Z /\
  Dimensions.closesteight (Dimensions.closesteight a) = Dimensions.closesteight a /\
  (a <= b -> Dimensions.closesteight a <= Dimensions.closesteight b)%Z.
Proof.
  assert (F : forall n, (n mod 8 = 0 -> Dimensions.closesteight n = n)%Z).
  { intros n H. unfold Dimensions.closesteight. rewrite H. cbn. lia. }
  split; [apply F|]. split; [apply F, closesteight_multiple|].
  intros L.
  pose proof (Z.mod_pos_bound a 8 ltac:(lia)) as Ba.
  pose proof (Z.mod_pos_bound b 8 ltac:(lia)) as Bb.
  pose proof (Z.div_mod a 8 ltac:(lia)) as Da.
  pose proof (Z.div_mod b 8 ltac:(lia)) as Db.
  destruct (closesteight_cases a) as [[La ->] | [La ->]];
    destruct (closesteight_cases b) as [[Lb ->] | [Lb ->]]; lia.
Qed.

Lemma closesteight_idempotent_monotone_witness :
  Dimensions.closesteight 520 = 520%Z /\
  (Dimensions.closesteight 515 <= Dimensions.closesteight 517)%Z.
Proof.
  destruct (closesteight_idempotent_monotone 520 520) as (F & _ & _).
  destruct (closesteight_idempotent_monotone 515 517) as (_ & _ & M).
  split; [apply F; reflexivity | apply M; lia].
Defined.

Section SendDimensions.

Context {lib : Imaging}.

Variable shape : ndarray -> list Z.

(** X21. The send-dimensions button sends the width first and the height
    second, each rounded to the nearest multiple of 8; without an image it
    leaves both sliders alone, and an array with fewer than two
    dimensions raises IndexError. *)
Theorem send_dimensions_rounds_width_and_height (image : canvas ndarray) :
  (forall h w rest,
     shape (cv_image image) = h :: w :: rest ->
     Dimensions.send_dimensions shape (Some image)
       = Ret (Dimensions.SetTo (Dimensions.closesteight w),
              Dimensions.SetTo (Dimensions.closesteight h))) /\
  (length (shape (cv_image image)) < 2 ->
   Dimensions.send_dimensions shape (Some image) = Raise IndexError)%nat /\
  Dimensions.send_dimensions shape None
    = Ret (Dimensions.Unchanged, Dimensions.Unchanged).
Proof.
  unfold Dimensions.send_dimensions, Dimensions.shape_entry. split; [|split].
  - intros h w rest E. rewrite E. rewrite seq_index_0.
    replace (seq_index (h :: w :: rest) 1) with (Some w); [reflexivity|].
    unfold seq_index. cbn [Z.ltb Z.compare Z.leb andb length].
    destruct (1 <? Z.of_nat (S (S (length rest))))%Z eqn:L; [reflexivity|].
    apply Z.ltb_ge in L. lia.
  - intros L. destruct (shape (cv_image image)) as [|h [|w rest]]; [| |cbn in L; lia];
      reflexivity.
  - reflexivity.
Qed.

End SendDimensions.

Lemma send_dimensions_rounds_width_and_height_witness :
  Dimensions.send_dimensions (lib := SampleLib.imaging) (fun _ => [515; 770; 3]%Z)
    (Some SampleLib.picture)
  = Ret (Dimensions.SetTo 768, Dimensions.SetTo 512).
Proof.
  apply (proj1 (send_dimensions_rounds_width_and_height (lib := SampleLib.imaging)
                  (fun _ => [515; 770; 3]%Z) SampleLib.picture) 515%Z 770%Z [3%Z]).
  reflexivity.
Defined.

(** ** The sliders *)

Section Sliders.

Context {lib : Imaging} {ext : Ui.Scripts}.

(** The updates for the three sliders and the advanced column. *)
Lemma build_sliders_split (module pp : pyval) :
  exists grs tail,
    Ui.build_sliders module pp = (grs ++ tail)%list /\
    length tail = 2%nat /\
    Forall (fun u => Ui.u_label u = None) tail /\
    (tail = [Ui.with_visible true Ui.gr_update; Ui.with_visible true Ui.gr_update] \/
     existsb (String.eqb (Ui.get_module_basename module)) Ui.model_free_preprocessors = true) /\
    grs =
      match Ui.preprocessor_sliders_config (Ui.get_module_basename module) with
      | None =>
          [ Ui.slider_update Ui.flag_preprocessor_resolution (VInt 512) (VInt 64)
              (VInt 2048) (VInt 1) (negb (truthy pp)) (negb (truthy pp));
            Ui.hidden; Ui.hidden; Ui.with_visible true Ui.gr_update ]
      | Some configs =>
          (map (Ui.slider_of pp) configs
             ++ repeat Ui.hidden (3 - length (map (Ui.slider_of pp) configs))
             ++ [Ui.with_visible true Ui.gr_update])%list
      end.
Proof.
  unfold Ui.build_sliders.
  destruct (existsb _ Ui.model_free_preprocessors) eqn:E;
    eexists _, _; (split; [reflexivity|]); (split; [reflexivity|]);
    (split; [repeat constructor|]); (split; [auto|]);
    destruct (Ui.preprocessor_sliders_config _); try reflexivity;
    now rewrite <- app_assoc.
Qed.

(** X22. [build_sliders] returns six updates, one for each output it is
    wired to, exactly when the module has at most three slider entries in
    [preprocessor_sliders_config] or none at all; a module with more
    entries gets one update more for each entry beyond the third. *)
Theorem build_sliders_length (module pp : pyval) :
  length (Ui.build_sliders module pp) =
    match Ui.preprocessor_sliders_config (Ui.get_module_basename module) with
    | None => 6%nat
    | Some configs => (Nat.max 3 (length configs) + 3)%nat
    end.
Proof.
  destruct (build_sliders_split module pp) as (grs & tail & -> & L & _ & _ & ->).
  rewrite length_app, L.
  destruct (Ui.preprocessor_sliders_config _) as [configs|]; [|reflexivity].
  rewrite !length_app, repeat_length, length_map. cbn [length]. lia.
Qed.

(** X23. With pixel-perfect on, every slider labelled as the preprocessor
    resolution is hidden and not interactive; every other labelled slider
    is visible and interactive, and so is the resolution slider with
    pixel-perfect off. *)
Theorem build_sliders_resolution_visibility (module pp : pyval) :
  Forall (fun u =>
            forall label,
              Ui.u_label u = Some label ->
              Ui.u_visible u =
                Some (negb (String.eqb label Ui.flag_preprocessor_resolution && truthy pp)) /\
              Ui.u_interactive u = Ui.u_visible u)
    (Ui.build_sliders module pp).
Proof.
  destruct (build_sliders_split module pp) as (grs & tail & -> & _ & T & _ & ->).
  apply Forall_app. split.
  - destruct (Ui.preprocessor_sliders_config _) as [configs|].
    + apply Forall_app. split; [|apply Forall_app; split].
      * apply List.Forall_forall. intros u I. apply in_map_iff in I.
        destruct I as ([c|] & <- & _); cbn; [|discriminate].
        intros label [= <-].
        destruct (String.eqb (Ui.sc_name c) Ui.flag_preprocessor_resolution);
          cbn; auto.
      * apply List.Forall_forall. intros u I. apply repeat_spec in I. subst u.
        cbn. discriminate.
      * constructor; [cbn; discriminate | constructor].
    + constructor; [|repeat (constructor; [cbn; discriminate|]); constructor].
      cbn. intros label [= <-]. rewrite String.eqb_refl. cbn. auto.
  - eapply Forall_impl; [exact T|]. cbn. intros u N label L. congruence.
Qed.

(** X24. Selecting a module that is not model-free leaves the model of the
    unit as it was: the update for the model dropdown carries no value. *)
Theorem other_module_keeps_model (gradio_compat : bool) (module : pyval)
    (st st' : Ui.unit_state) :
  existsb (String.eqb (Ui.get_module_basename module)) Ui.model_free_preprocessors = false ->
  Ui.select_module gradio_compat module st = Ret st' ->
  Ui.st_model st' = Ui.st_model st /\ Ui.st_module st' = module.
Proof.
  intros H. unfold Ui.select_module, Ui.module_change.
  destruct gradio_compat; cbn [negb];
    [|intros E;
      pose proof (f_equal (fun o => match o with Ret s => Ui.st_model s | _ => VNone end) E)
        as E1;
      pose proof (f_equal (fun o => match o with Ret s => Ui.st_module s | _ => VNone end) E)
        as E2;
      cbn in E1, E2; auto].
  cbn [Ui.st_module Ui.st_pixel_perfect].
  destruct (build_sliders_split module (Ui.st_pixel_perfect st))
    as (grs & tail & -> & _ & _ & [-> | F] & _); [|congruence].
  destruct grs as [|g1 [|g2 [|g3 [|g4 [|g5 grs]]]]]; cbn [app]; try discriminate.
  - intros E.
    pose proof (f_equal (fun o => match o with Ret s => Ui.st_model s | _ => VNone end) E)
      as E1.
    pose proof (f_equal (fun o => match o with Ret s => Ui.st_module s | _ => VNone end) E)
      as E2.
    cbn in E1, E2. auto.
  - destruct grs as [|g6 grs]; cbn [app]; [discriminate|].
    destruct grs; cbn [app]; discriminate.
Qed.

(** X25. When the remote service is enabled and the catalog call of a
    refresh raises, the exception leaves the handler and [cn_models] is
    left empty: it is cleared before the call. *)
Theorem failed_refresh_empties_models (dd : pyval) (w w1 : world) (e : exn) :
  remote_flag (w_opts w) && negb (is_worker (w_opts w)) = true ->
  Tss.request_models (set_cn_models [] w) = (Raise e, w1) ->
  Ui.refresh_all_models dd w = (Raise e, w1) /\ w_cn_models w1 = [].
Proof.
  intros On E. unfold Ui.refresh_all_models.
  rewrite (bind_run _ _ _ _ _ (enable_value w)), enable_truthy, On.
  unfold bind, Tss.cn_models_clear. rewrite E. split; [reflexivity|].
  destruct (request_models_frame (set_cn_models [] w)) as (r & w' & E' & _ & N & _).
  rewrite E in E'. injection E' as _ <-. exact N.
Qed.

End Sliders.

Lemma other_module_keeps_model_witness :
  exists st',
    Ui.select_module (ext := SampleLib.scripts) true (VStr "canny")
      (SampleUnit.state (VStr "openpose_full") (VStr "control_canny")) = Ret st' /\
    Ui.st_model st' = VStr "control_canny".
Proof.
  eexists. split; [reflexivity|].
  apply (other_module_keeps_model (ext := SampleLib.scripts) true (VStr "canny")
           (SampleUnit.state (VStr "openpose_full") (VStr "control_canny")));
    reflexivity.
Defined.

Lemma failed_refresh_empties_models_witness :
  w_cn_models
    (snd (Ui.refresh_all_models (ext := SampleLib.scripts) (VStr "control_canny")
            (set_cn_models [(VStr "None", VNone); (VStr "control_canny", VStr "x")]
               SampleInit.models_down)))
  = [].
Proof.
  destruct (failed_refresh_empties_models (ext := SampleLib.scripts) (VStr "control_canny")
              (set_cn_models [(VStr "None", VNone); (VStr "control_canny", VStr "x")]
                 SampleInit.models_down)
              (snd (Tss.request_models (set_cn_models [] SampleInit.models_down)))
              ConnectionError eq_refl eq_refl) as [E N].
  rewrite E. exact N.
Defined.
